(** * Autonomous portfolio agent: trade simulator, agent state machine, monitor

    A shallow embedding of the decision-and-execution control loop of the
    portfolio advisory system:

    - [src/types/*.ts]                 the data model (assets, orders, decisions, alerts);
    - [src/services/TradeExecutor.ts]  the simulated trade execution;
    - [src/agents/PortfolioAgent.ts]   the agent state machine and decision pipeline;
    - [src/services/AgentMonitor.ts]   the supervisor and its emergency shutdown.

    Conventions.  A TypeScript [number] that carries money, prices, quantities
    or probabilities is a rational [Q]: no NaN and no infinity, and exact
    arithmetic but in the fill of an order, which is rounded as the code
    rounds it (see [binary64]); counters and clock readings are [Z]/[nat].
    [Math.random()] and [Date.now()] are explicit inputs of the functions that
    call them, in call order.  Objects whose identity matters live in an
    explicit store: the agent state handed out by [getState] in
    [Module Store], the Asset objects that the portfolio and the recorded
    decisions share in [Module Objects]. *)

From stdpp Require Import gmap strings list pretty.
From Stdlib Require Import ZArith QArith Qround Qminmax Qabs Qpower Lia Lqa Ascii.

Open Scope Q_scope.

(** ** Numbers *)

(** [a < b] and [a > b] on numbers, as booleans. *)
Definition Qltb (a b : Q) : bool := negb (Qle_bool b a).
Definition Qgtb (a b : Q) : bool := Qltb b a.

(** [Math.floor] and [Math.round] (round half up: [floor (x + 1/2)]). *)
Definition Math_floor (x : Q) : Q := inject_Z (Qfloor x).
Definition Math_round (x : Q) : Q := inject_Z (Qfloor (x + 0.5)).

(** Truthiness of an optional number: [undefined] and [0] are falsy;
    [truthy o] is the number when it is truthy. *)
Definition truthy (o : option Q) : option Q :=
  match o with
  | Some x => if Qeq_bool x 0 then None else Some x
  | None => None
  end.

(** *** binary64

    A [number] is a binary64 value.  Most of what follows computes with
    exact rationals; where a rounding error changes what the code returns,
    the result of an operation is rounded as the code rounds it.
    [binary64 x] is the binary64 number nearest to [x], ties to the even
    significand: 53 significant bits, least exponent -1074, so that every
    binary64 number is a whole multiple of [2 ^ -1074].  Overflow is not
    modelled: a number beyond the largest finite binary64 number is
    outside the model. *)

(** The integer nearest to [t], ties to even. *)
Definition round_even (t : Q) : Z :=
  let f := Qfloor t in
  match Qcompare (t - inject_Z f) (1 # 2) with
  | Lt => f
  | Gt => (f + 1)%Z
  | Eq => if Z.even f then f else (f + 1)%Z
  end.

(** [2 ^ e], for any integer [e]. *)
Definition pow2 (e : Z) : Q := Qpower 2 e.

(** For [x > 0], the exponent [k] with [2 ^ k <= x < 2 ^ (k + 1)]: the
    difference of the bit lengths of numerator and denominator, or one
    less. *)
Definition ilog2 (x : Q) : Z :=
  let k := (Z.log2 (Qnum x) - Z.log2 (Zpos (Qden x)))%Z in
  if Qle_bool (pow2 k) x then k else (k - 1)%Z.

(** For [x >= 0]: the nearest multiple of [2 ^ e] where [e] leaves 53
    significant bits, and is -1074 for a subnormal [x]. *)
Definition nearest (x : Q) : Q :=
  let e := Z.max (-1074) (ilog2 x - 52) in
  inject_Z (round_even (x / pow2 e)) * pow2 e.

Definition binary64 (x : Q) : Q :=
  if Qle_bool 0 x then nearest x else - nearest (- x).

(** [x] is a binary64 number. *)
Definition representable (x : Q) : Prop := binary64 x == x.

(** [x * y] and [x + y] on binary64 numbers. *)
Definition fmul (x y : Q) : Q := binary64 (x * y).
Definition fadd (x y : Q) : Q := binary64 (x + y).

(** ** Data model: [src/types/portfolio.ts], [src/types/agent.ts] *)

Inductive AssetType := LOAN | SECURITY.
Inductive SecurityType := BOND | STOCK | ETF | MBS | ABS | TREASURY.

(** [Asset], with the one field of [Security] the simulator reads through
    [asset as any] ([securityType], [undefined] on a loan).  The remaining
    fields of [Loan] and [Security] are read by no function modelled here. *)
Record Asset := {
  asset_id : string;
  symbol : string;
  asset_name : string;
  asset_type : AssetType;
  securityType : option SecurityType;
  sector : option string;
  currentPrice : Q;
  asset_quantity : Q;
  marketValue : Q;
  weight : Q
}.

Inductive TradeAction := BUY | SELL.
Inductive OrderType := MARKET | LIMIT | SMART.
Inductive TimeInForce := GTC | IOC | FOK | DAY.
Inductive TradeStatus := T_PENDING | T_FILLED | T_PARTIAL | T_CANCELLED | T_FAILED.

(** [TradeExecution]; [trade_id] is the opaque identifier string,
    [trade_timestamp] the clock reading in milliseconds. *)
Record TradeExecution := {
  trade_id : string;
  trade_asset : Asset;
  trade_action : TradeAction;
  trade_quantity : Q;
  trade_price : Q;
  trade_timestamp : Z;
  trade_status : TradeStatus
}.

(** ** The trade execution simulator: [src/services/TradeExecutor.ts] *)

Module TradeExecutor.

Record TradeOrder := {
  asset : Asset;
  action : TradeAction;
  quantity : Q;
  orderType : OrderType;
  limitPrice : option Q;
  slippageTolerance : Q;
  timeInForce : option TimeInForce
}.

(** The three draws of [Math.random()] one simulated execution makes, in
    call order: in [calculateSlippage], for [executionSuccess], and in
    [calculateExecutedQuantity] (the last only when execution succeeds). *)
Record Draws := {
  r_volatility : Q;
  r_success : Q;
  r_fill : Q
}.

(** [Math.random()] returns a number in [0, 1). *)
Definition unit_interval (r : Q) : Prop := 0 <= r /\ r < 1.

Definition getEstimatedDailyVolume (a : Asset) : Q :=
  let baseVolume := marketValue a * 0.1 in
  match asset_type a with
  | SECURITY =>
      match securityType a with
      | Some TREASURY => baseVolume * 10
      | Some STOCK => baseVolume * 5
      | Some BOND => baseVolume * 2
      | Some MBS | Some ABS => baseVolume * 0.5
      | _ => baseVolume
      end
  | LOAN => baseVolume * 0.1
  end.

(** [calculateMarketImpact].  Where the estimated daily volume is 0 the
    source divides by zero and the ratio is infinite or not a number; [Q]
    gives 0 there, so the bounds on the impact are stated for an asset of
    positive market value. *)
Definition calculateMarketImpact (order : TradeOrder) : Q :=
  let estimatedDailyVolume := getEstimatedDailyVolume (asset order) in
  let tradeSizeRatio :=
    (quantity order * currentPrice (asset order)) / estimatedDailyVolume in
  let impact := tradeSizeRatio * 0.001 in
  let impact :=
    match asset_type (asset order) with
    | LOAN => impact * 3
    | SECURITY =>
        match securityType (asset order) with
        | Some TREASURY => impact * 0.3
        | Some MBS | Some ABS => impact * 2
        | _ => impact
        end
    end in
  Qmin impact 0.05.

Definition calculateSlippage (rnd : Q) (order : TradeOrder) : Q :=
  let baseSlippage := 0.001 in
  let baseSlippage :=
    match orderType order with
    | MARKET => baseSlippage * 1.5
    | SMART => baseSlippage * 0.7
    | LIMIT => baseSlippage
    end in
  let volatilityMultiplier := 0.8 + rnd * 0.4 in
  let baseSlippage := baseSlippage * volatilityMultiplier in
  Qmin baseSlippage (slippageTolerance order).

Definition calculateExecutionPrice
    (order : TradeOrder) (marketImpact slippage : Q) : Q :=
  let executionPrice := currentPrice (asset order) in
  let totalImpact := marketImpact + slippage in
  let executionPrice :=
    match action order with
    | BUY => executionPrice * (1 + totalImpact)
    | SELL => executionPrice * (1 - totalImpact)
    end in
  let executionPrice :=
    match orderType order, truthy (limitPrice order) with
    | LIMIT, Some limit =>
        match action order with
        | BUY => Qmin executionPrice limit
        | SELL => Qmax executionPrice limit
        end
    | _, _ => executionPrice
    end in
  Math_round (executionPrice * 10000) / 10000.

(** The price before the final rounding: market impact, slippage and the
    limit clamp applied. *)
Definition clampedPrice (order : TradeOrder) (marketImpact slippage : Q) : Q :=
  let executionPrice := currentPrice (asset order) in
  let totalImpact := marketImpact + slippage in
  let executionPrice :=
    match action order with
    | BUY => executionPrice * (1 + totalImpact)
    | SELL => executionPrice * (1 - totalImpact)
    end in
  match orderType order, truthy (limitPrice order) with
  | LIMIT, Some limit =>
      match action order with
      | BUY => Qmin executionPrice limit
      | SELL => Qmax executionPrice limit
      end
  | _, _ => executionPrice
  end.

(** The filled quantity goes through [Math.floor], which turns an error in
    the last place of a product into a whole unit; so the fill is computed
    as the code computes it, every product and sum rounded to binary64,
    literals included. *)
Module InBinary64.

Definition getEstimatedDailyVolume (a : Asset) : Q :=
  let baseVolume := fmul (marketValue a) (binary64 0.1) in
  match asset_type a with
  | SECURITY =>
      match securityType a with
      | Some TREASURY => fmul baseVolume 10
      | Some STOCK => fmul baseVolume 5
      | Some BOND => fmul baseVolume 2
      | Some MBS | Some ABS => fmul baseVolume 0.5
      | _ => baseVolume
      end
  | LOAN => fmul baseVolume (binary64 0.1)
  end.

End InBinary64.

Definition calculateExecutedQuantity (rnd : Q) (order : TradeOrder) : Q :=
  let orderValue := fmul (quantity order) (currentPrice (asset order)) in
  let estimatedDailyVolume := InBinary64.getEstimatedDailyVolume (asset order) in
  if Qgtb orderValue (fmul estimatedDailyVolume (binary64 0.1)) then
    let fillRate := fadd (binary64 0.6) (fmul rnd (binary64 0.4)) in
    Math_floor (fmul (quantity order) fillRate)
  else quantity order.


(** [executionSuccess = Math.random() > 0.05]. *)
Definition executionSuccess (d : Draws) : bool := Qgtb (r_success d) 0.05.

Definition simulateTradeExecution
    (d : Draws) (now : Z) (order : TradeOrder) (tradeId : string)
    : TradeExecution :=
  let marketImpact := calculateMarketImpact order in
  let slippage := calculateSlippage (r_volatility d) order in
  let executionPrice := calculateExecutionPrice order marketImpact slippage in
  if negb (executionSuccess d) then
    {| trade_id := tradeId;
       trade_asset := asset order;
       trade_action := action order;
       trade_quantity := quantity order;
       trade_price := 0;
       trade_timestamp := now;
       trade_status := T_FAILED |}
  else
    let executedQuantity := calculateExecutedQuantity (r_fill d) order in
    let status :=
      if Qeq_bool executedQuantity (quantity order) then T_FILLED else T_PARTIAL in
    {| trade_id := tradeId;
       trade_asset := asset order;
       trade_action := action order;
       trade_quantity := executedQuantity;
       trade_price := executionPrice;
       trade_timestamp := now;
       trade_status := status |}.

(** [executeTrade] of an executor built with [mockMode]: the simulation in
    mock mode; outside it [executeRealTrade] throws and the [catch] returns
    the FAILED execution. *)
Definition executeTrade
    (mockMode : bool) (d : Draws) (now : Z) (order : TradeOrder)
    (tradeId : string) : TradeExecution :=
  if mockMode then simulateTradeExecution d now order tradeId
  else
    {| trade_id := tradeId;
       trade_asset := asset order;
       trade_action := action order;
       trade_quantity := quantity order;
       trade_price := 0;
       trade_timestamp := now;
       trade_status := T_FAILED |}.

End TradeExecutor.

(** ** Data model: [src/types/analysis.ts], [src/types/agent.ts] *)

(** Recommendation priority and alert severity share the four levels. *)
Inductive Level := LOW | MEDIUM | HIGH | CRITICAL.

Inductive RecommendationType :=
  | REBALANCE | R_SELL | R_BUY | HEDGE | REDUCE_CONCENTRATION
  | IMPROVE_DIVERSIFICATION | CREDIT_RISK_MITIGATION | DURATION_ADJUSTMENT
  | YIELD_ENHANCEMENT.

Inductive ItemAction := A_SELL | A_BUY | A_REDUCE | A_INCREASE | A_HEDGE.

Record ActionItem := {
  item_asset : option Asset;
  item_assetType : option AssetType;
  item_action : ItemAction;
  item_quantity : option Q;
  item_percentage : option Q;
  item_targetWeight : option Q;
  rationale : string
}.

Record Impact := {
  riskReduction : option Q;
  yieldImprovement : option Q;
  diversificationImprovement : option Q;
  estimatedCost : option Q;
  timeframe : string
}.

Record Recommendation := {
  rec_id : string;
  rec_type : RecommendationType;
  priority : Level;
  title : string;
  description : string;
  rec_reasoning : string;
  actionItems : list ActionItem;
  impact : Impact
}.

Record Portfolio := {
  portfolio_id : string;
  portfolio_name : string;
  assets : list Asset;
  totalValue : Q
}.

Record RiskLimits := {
  maxSingleAssetWeight : Q;
  maxSectorConcentration : Q;
  maxCreditRiskExposure : Q;
  maxDailyVaR : Q;
  limit_maxDrawdown : Q;
  minLiquidityRatio : Q
}.

Record TradingHours := {
  hours_start : string;
  hours_end : string;
  timezone : string;
  excludeWeekends : bool;
  excludeHolidays : bool
}.

Record TradingLimits := {
  maxDailyTradeVolume : Q;
  maxSingleTradeSize : Q;
  maxTradesPerHour : Q;
  allowedAssetTypes : list string;
  restrictedAssets : list string;
  tradingHours : TradingHours
}.

Record DecisionThresholds := {
  criticalRebalanceThreshold : Q;
  highRebalanceThreshold : Q;
  riskToleranceDeviation : Q;
  yieldOptimizationThreshold : Q;
  liquidityStressThreshold : Q
}.

Inductive AutonomyLevel := FULL_AUTO | SEMI_AUTO | ADVISORY_ONLY.

Record ExecutionSettings := {
  exec_slippageTolerance : Q;
  executionTimeframe : Q;
  exec_orderType : OrderType;
  confirmationRequired : bool;
  simulationMode : bool
}.

Record AgentConfig := {
  config_id : string;
  config_name : string;
  enabled : bool;
  riskLimits : RiskLimits;
  tradingLimits : TradingLimits;
  decisionThresholds : DecisionThresholds;
  autonomyLevel : AutonomyLevel;
  marketDataSources : list string;
  executionSettings : ExecutionSettings
}.

Inductive DecisionType :=
  | AUTO_REBALANCE | RISK_MITIGATION | YIELD_OPTIMIZATION | EMERGENCY_HEDGE
  | LIQUIDITY_MANAGEMENT | OPPORTUNISTIC_TRADE.

Record ExpectedOutcome := {
  out_riskReduction : option Q;
  out_yieldImprovement : option Q;
  liquidityImprovement : option Q;
  costEstimate : Q;
  out_timeframe : string
}.

Inductive DecisionStatus :=
  | PENDING | APPROVED | EXECUTING | COMPLETED | REJECTED | FAILED | CANCELLED.

(** [slippage] is [None] where the source computes [0 / 0] (no trade). *)
Record ExecutionDetails := {
  trades : list TradeExecution;
  totalCost : Q;
  executionTime : Z;
  slippage : option Q;
  success : bool;
  errors : option (list string)
}.

Record AgentDecision := {
  decision_id : string;
  decision_timestamp : Z;
  decisionType : DecisionType;
  recommendation : Recommendation;
  reasoning : string;
  confidence : Q;
  riskAssessment : string;
  expectedOutcome : ExpectedOutcome;
  decision_status : DecisionStatus;
  executionDetails : option ExecutionDetails
}.

Inductive Sentiment := BULLISH | BEARISH | NEUTRAL.
Inductive CreditMarkets := TIGHTENING | WIDENING | CM_STABLE.
Inductive InterestRates := RISING | FALLING | IR_STABLE.
Inductive Volatility := V_HIGH | V_MEDIUM | V_LOW.

Record MarketSentiment := {
  overall : Sentiment;
  creditMarkets : CreditMarkets;
  interestRates : InterestRates;
  volatility : Volatility
}.

Record MarketData := {
  md_timestamp : Z;
  prices : gmap string Q;
  yields : gmap string Q;
  creditSpreads : gmap string Q;
  volatilities : gmap string Q;
  liquidityScores : gmap string Q;
  marketSentiment : MarketSentiment
}.

Inductive AgentStatus := ACTIVE | PAUSED | STOPPED | ERROR.

Inductive AlertType :=
  | RISK_LIMIT_BREACH | TRADING_LIMIT_EXCEEDED | MARKET_ANOMALY
  | EXECUTION_FAILURE | DATA_QUALITY_ISSUE | SYSTEM_ERROR.

Record Alert := {
  alert_id : string;
  severity : Level;
  alert_type : AlertType;
  message : string;
  alert_timestamp : Z;
  acknowledged : bool
}.

Record AgentPerformance := {
  totalReturn : Q;
  sharpeRatio : Q;
  maxDrawdown : Q;
  winRate : Q;
  avgDecisionTime : Q;
  riskAdjustedReturn : Q;
  benchmarkOutperformance : Q
}.

Record AgentState := {
  state_id : string;
  status : AgentStatus;
  lastDecision : Z;
  totalDecisions : Z;
  successRate : Q;
  currentPortfolio : Portfolio;
  watchlist : list Asset;
  alerts : list Alert;
  performance : AgentPerformance
}.

(** What the agent reads of the [PortfolioAnalysis] its analyzer returns. *)
Record PortfolioAnalysis := {
  analysed : Portfolio;
  valueAtRisk : Q;
  singleAssetMax : Q
}.

(** The collaborators of the agent that lie outside the control loop, and
    the locale-dependent built-ins of [Date] and [Number]: each is a total
    function of its arguments.  A date is its epoch time in milliseconds;
    [toDateString] returns the calendar day, which the code only compares
    for equality; [parseInt] returns [None] for [NaN]. *)
Class Externals := {
  getHours : Z -> Z;
  getDay : Z -> Z;
  toDateString : Z -> Z;
  toISOString : Z -> string;
  parseInt : string -> option Z;
  toFixed : Q -> nat -> string;
  numberToString : Q -> string;
  generateReasoning : Recommendation -> Portfolio -> string;
  analyzePortfolio : Portfolio -> PortfolioAnalysis;
  generateRecommendations : PortfolioAnalysis -> list Recommendation
}.

(** Decidable equality of the string-literal union types ([===]). *)

#[global] Instance AssetType_eq_dec : EqDecision AssetType.
Proof. solve_decision. Defined.
#[global] Instance SecurityType_eq_dec : EqDecision SecurityType.
Proof. solve_decision. Defined.
#[global] Instance TradeStatus_eq_dec : EqDecision TradeStatus.
Proof. solve_decision. Defined.
#[global] Instance Level_eq_dec : EqDecision Level.
Proof. solve_decision. Defined.
#[global] Instance RecommendationType_eq_dec : EqDecision RecommendationType.
Proof. solve_decision. Defined.
#[global] Instance ItemAction_eq_dec : EqDecision ItemAction.
Proof. solve_decision. Defined.
#[global] Instance AutonomyLevel_eq_dec : EqDecision AutonomyLevel.
Proof. solve_decision. Defined.
#[global] Instance DecisionType_eq_dec : EqDecision DecisionType.
Proof. solve_decision. Defined.
#[global] Instance DecisionStatus_eq_dec : EqDecision DecisionStatus.
Proof. solve_decision. Defined.
#[global] Instance Volatility_eq_dec : EqDecision Volatility.
Proof. solve_decision. Defined.
#[global] Instance AgentStatus_eq_dec : EqDecision AgentStatus.
Proof. solve_decision. Defined.
#[global] Instance AlertType_eq_dec : EqDecision AlertType.
Proof. solve_decision. Defined.

(** ** Timers

    The live [setInterval] timers of an object are a list of handles with
    their period in milliseconds; [setInterval] returns a handle that is not
    live, [clearInterval] removes one. *)
Definition fresh_handle (l : list (nat * Z)) : nat :=
  S (foldr Nat.max 0%nat (map fst l)).

Definition setInterval (period : Z) (l : list (nat * Z)) : nat * list (nat * Z) :=
  (fresh_handle l, (fresh_handle l, period) :: l).

Definition clearInterval (h : nat) (l : list (nat * Z)) : list (nat * Z) :=
  filter (fun t => fst t <> h) l.

(** ** The agent: [src/agents/PortfolioAgent.ts] *)

Module PortfolioAgent.

(** The fields of the class.  [intervals] is the part of the runtime's
    timer table that belongs to this agent: the handles of the live
    [setInterval] timers that run its [executionCycle], with their period
    in milliseconds. *)
Record Agent := {
  config : AgentConfig;
  state : AgentState;
  decisionHistory : list AgentDecision;
  intervalId : option nat;
  intervals : list (nat * Z)
}.

Definition set_state (st : AgentState) (a : Agent) : Agent :=
  {| config := config a; state := st; decisionHistory := decisionHistory a;
     intervalId := intervalId a; intervals := intervals a |}.

Definition set_status (s : AgentStatus) (st : AgentState) : AgentState :=
  {| state_id := state_id st; status := s; lastDecision := lastDecision st;
     totalDecisions := totalDecisions st; successRate := successRate st;
     currentPortfolio := currentPortfolio st; watchlist := watchlist st;
     alerts := alerts st; performance := performance st |}.

Definition set_alerts (l : list Alert) (st : AgentState) : AgentState :=
  {| state_id := state_id st; status := status st; lastDecision := lastDecision st;
     totalDecisions := totalDecisions st; successRate := successRate st;
     currentPortfolio := currentPortfolio st; watchlist := watchlist st;
     alerts := l; performance := performance st |}.

Definition set_portfolio (p : Portfolio) (st : AgentState) : AgentState :=
  {| state_id := state_id st; status := status st; lastDecision := lastDecision st;
     totalDecisions := totalDecisions st; successRate := successRate st;
     currentPortfolio := p; watchlist := watchlist st;
     alerts := alerts st; performance := performance st |}.

Definition constructor (now : Z) (cfg : AgentConfig) (portfolio : Portfolio) : Agent :=
  {| config := cfg;
     state :=
       {| state_id := config_id cfg;
          status := STOPPED;
          lastDecision := now;
          totalDecisions := 0;
          successRate := 0;
          currentPortfolio := portfolio;
          watchlist := [];
          alerts := [];
          performance :=
            {| totalReturn := 0; sharpeRatio := 0; maxDrawdown := 0; winRate := 0;
               avgDecisionTime := 0; riskAdjustedReturn := 0;
               benchmarkOutperformance := 0 |} |};
     decisionHistory := [];
     intervalId := None;
     intervals := [] |}.

(** [array.slice(-n)]: the last [n] elements. *)
Definition slice_last {A} (n : nat) (l : list A) : list A :=
  drop (length l - n) l.

Definition addAlert
    (now : Z) (sev : Level) (type : AlertType) (msg : string) (a : Agent) : Agent :=
  let pushed :=
    alerts (state a) ++
    [ {| alert_id := "alert-" +:+ pretty now;
         severity := sev;
         alert_type := type;
         message := msg;
         alert_timestamp := now;
         acknowledged := false |} ] in
  let kept :=
    if (100 <? length pushed)%nat then slice_last 50 pushed else pushed in
  set_state (set_alerts kept (state a)) a.

Definition start (now : Z) (a : Agent) : Agent :=
  if negb (enabled (config a)) then
    addAlert now HIGH SYSTEM_ERROR "Cannot start agent: configuration disabled" a
  else
    let a := set_state (set_status ACTIVE (state a)) a in
    let a := addAlert now LOW SYSTEM_ERROR "Portfolio Agent started" a in
    let '(h, live) := setInterval 60000 (intervals a) in
    {| config := config a; state := state a; decisionHistory := decisionHistory a;
       intervalId := Some h; intervals := live |}.

Definition stop (now : Z) (a : Agent) : Agent :=
  let a := set_state (set_status STOPPED (state a)) a in
  let a :=
    match intervalId a with
    | Some h =>
        {| config := config a; state := state a;
           decisionHistory := decisionHistory a;
           intervalId := None;
           intervals := clearInterval h (intervals a) |}
    | None => a
    end in
  addAlert now LOW SYSTEM_ERROR "Portfolio Agent stopped" a.

Definition pause (now : Z) (a : Agent) : Agent :=
  let a := set_state (set_status PAUSED (state a)) a in
  addAlert now LOW SYSTEM_ERROR "Portfolio Agent paused" a.

Definition calculateConfidence (r : Recommendation) : Q :=
  let baseConfidence :=
    match priority r with
    | CRITICAL => 0.9
    | HIGH => 0.8
    | MEDIUM => 0.7
    | LOW => 0.6
    end in
  let baseConfidence :=
    match truthy (riskReduction (impact r)) with
    | Some rr => if Qgtb rr 0.2 then baseConfidence + 0.1 else baseConfidence
    | None => baseConfidence
    end in
  Qmin baseConfidence 1.0.

(** [array.join(sep)]. *)
Fixpoint join (sep : string) (l : list string) : string :=
  match l with
  | [] => ""
  | [x] => x
  | x :: rest => x +:+ sep +:+ join sep rest
  end.

Definition assessDecisionRisk (a : Agent) (r : Recommendation) : string :=
  let riskFactors := [] in
  let riskFactors :=
    match truthy (estimatedCost (impact r)) with
    | Some c =>
        if Qgtb c (totalValue (currentPortfolio (state a)) * 0.02)
        then riskFactors ++ ["High transaction costs"] else riskFactors
    | None => riskFactors
    end in
  let riskFactors :=
    if bool_decide (rec_type r = R_SELL)
       || bool_decide (rec_type r = REDUCE_CONCENTRATION)
    then riskFactors ++ ["Liquidity risk"] else riskFactors in
  let riskFactors :=
    if bool_decide (priority r = LOW)
    then riskFactors ++ ["Low priority action"] else riskFactors in
  if (0 <? length riskFactors)%nat then join ", " riskFactors else "Low risk".

Definition calculateExpectedOutcome (a : Agent) (r : Recommendation)
    : ExpectedOutcome :=
  {| out_riskReduction := riskReduction (impact r);
     out_yieldImprovement := yieldImprovement (impact r);
     liquidityImprovement := diversificationImprovement (impact r);
     costEstimate :=
       match truthy (estimatedCost (impact r)) with
       | Some c => c
       | None => totalValue (currentPortfolio (state a)) * 0.001
       end;
     out_timeframe :=
       if String.eqb (timeframe (impact r)) "" then "1-2 days"
       else timeframe (impact r) |}.

Definition mapRecommendationToDecisionType (t : RecommendationType)
    : DecisionType :=
  match t with
  | REBALANCE => AUTO_REBALANCE
  | CREDIT_RISK_MITIGATION => RISK_MITIGATION
  | YIELD_ENHANCEMENT => YIELD_OPTIMIZATION
  | HEDGE => EMERGENCY_HEDGE
  | _ => OPPORTUNISTIC_TRADE
  end.

Definition shouldAutoExecute (cfg : AgentConfig) (decision : AgentDecision) : bool :=
  if bool_decide (autonomyLevel cfg = ADVISORY_ONLY) then false
  else if simulationMode (executionSettings cfg) then false
  else if Qltb (confidence decision) 0.7 then false
  else if bool_decide (decisionType decision = EMERGENCY_HEDGE)
          || (bool_decide (priority (recommendation decision) = CRITICAL)
              && Qgtb (confidence decision) 0.8)
  then bool_decide (autonomyLevel cfg = FULL_AUTO)
  else if bool_decide (priority (recommendation decision) = HIGH)
          && Qgtb (confidence decision) 0.85
  then bool_decide (autonomyLevel cfg = FULL_AUTO)
  else bool_decide (autonomyLevel cfg = FULL_AUTO)
       && negb (bool_decide (priority (recommendation decision) = LOW))
       && Qgtb (confidence decision) 0.9.

(** The clock readings and random draws one [executeTrade] consumes. *)
Record TradeInputs := {
  ti_tradeId : string;
  ti_draws : TradeExecutor.Draws;
  ti_now : Z
}.

(** The clock readings one [executeDecision] consumes, in order: when the
    decision record is built, around [executeRecommendation], and when
    the decision is recorded; [tradeInputs k] feeds the [k]-th trade. *)
Record DecisionInputs := {
  t_created : Z;
  t_execStart : Z;
  tradeInputs : nat -> TradeInputs;
  t_execEnd : Z;
  t_recorded : Z
}.

Definition calculateTradeQuantity (item : ActionItem) : Q :=
  match truthy (item_quantity item) with
  | Some q => q
  | None =>
      match truthy (item_percentage item), item_asset item with
      | Some p, Some a => asset_quantity a * p
      | _, _ => 0
      end
  end.

(** The loop of [executeRecommendation] over the action items, threading
    [trades], [totalCost], [errors] and the number [k] of trades so far. *)
Fixpoint executeItems
    (cfg : AgentConfig) (inp : nat -> TradeInputs) (k : nat)
    (items : list ActionItem) (acc : list TradeExecution * Q * list string)
    : list TradeExecution * Q * list string :=
  match items with
  | [] => acc
  | actionItem :: rest =>
      match item_asset actionItem with
      | Some a =>
          let '(trades, totalCost, errors) := acc in
          let trade :=
            TradeExecutor.executeTrade true (ti_draws (inp k)) (ti_now (inp k))
              {| TradeExecutor.asset := a;
                 TradeExecutor.action :=
                   match item_action actionItem with
                   | A_BUY | A_INCREASE => BUY
                   | _ => SELL
                   end;
                 TradeExecutor.quantity := calculateTradeQuantity actionItem;
                 TradeExecutor.orderType := exec_orderType (executionSettings cfg);
                 TradeExecutor.limitPrice := None;
                 TradeExecutor.slippageTolerance :=
                   exec_slippageTolerance (executionSettings cfg);
                 TradeExecutor.timeInForce := None |}
              (ti_tradeId (inp k)) in
          let errors :=
            if bool_decide (trade_status trade = T_FAILED)
            then errors ++ ["Failed to execute trade for " +:+ asset_name a]
            else errors in
          executeItems cfg inp (S k) rest
            (trades ++ [trade],
             totalCost + trade_price trade * trade_quantity trade,
             errors)
      | None => executeItems cfg inp k rest acc
      end
  end.

(** [executeRecommendation]; the agent's executor runs in mock mode, and
    nothing inside the [try] block throws, so only its normal return is
    modelled.  [updatePortfolioAfterTrades] has an empty body. *)
Definition executeRecommendation
    (inp : DecisionInputs) (cfg : AgentConfig) (r : Recommendation)
    : ExecutionDetails :=
  let '(trades, totalCost, errors) :=
    executeItems cfg (tradeInputs inp) 0 (actionItems r) ([], 0, []) in
  {| trades := trades;
     totalCost := totalCost;
     executionTime := (t_execEnd inp - t_execStart inp)%Z;
     slippage :=
       if bool_decide (length trades = 0%nat) then None
       else Some (0 / inject_Z (Z.of_nat (length trades)));
     success := bool_decide (length errors = 0%nat);
     errors := if (0 <? length errors)%nat then Some errors else None |}.

Definition set_outcome
    (s : DecisionStatus) (e : option ExecutionDetails) (d : AgentDecision)
    : AgentDecision :=
  {| decision_id := decision_id d;
     decision_timestamp := decision_timestamp d;
     decisionType := decisionType d;
     recommendation := recommendation d;
     reasoning := reasoning d;
     confidence := confidence d;
     riskAssessment := riskAssessment d;
     expectedOutcome := expectedOutcome d;
     decision_status := s;
     executionDetails := e |}.

(** [executeDecision]: the new agent and the decision returned. *)
Definition executeDecision `{Externals}
    (inp : DecisionInputs) (r : Recommendation) (a : Agent)
    : Agent * AgentDecision :=
  let decision :=
    {| decision_id := "decision-" +:+ pretty (t_created inp);
       decision_timestamp := t_created inp;
       decisionType := mapRecommendationToDecisionType (rec_type r);
       recommendation := r;
       reasoning := generateReasoning r (currentPortfolio (state a));
       confidence := calculateConfidence r;
       riskAssessment := assessDecisionRisk a r;
       expectedOutcome := calculateExpectedOutcome a r;
       decision_status := PENDING;
       executionDetails := None |} in
  let decision :=
    if shouldAutoExecute (config a) decision then
      let details := executeRecommendation inp (config a) r in
      set_outcome (if success details then COMPLETED else FAILED)
                  (Some details) decision
    else decision in
  ({| config := config a;
      state :=
        {| state_id := state_id (state a);
           status := status (state a);
           lastDecision := t_recorded inp;
           totalDecisions := (totalDecisions (state a) + 1)%Z;
           successRate := successRate (state a);
           currentPortfolio := currentPortfolio (state a);
           watchlist := watchlist (state a);
           alerts := alerts (state a);
           performance := performance (state a) |};
      decisionHistory := decisionHistory a ++ [decision];
      intervalId := intervalId a;
      intervals := intervals a |},
   decision).

(** [s.split(':')[0]]. *)
Fixpoint before_colon (s : string) : string :=
  match s with
  | EmptyString => EmptyString
  | String c rest =>
      if Ascii.eqb c ":"%char then EmptyString else String c (before_colon rest)
  end.

Definition isWithinTradingHours `{Externals} (now : Z) (a : Agent) : bool :=
  let hours := tradingHours (tradingLimits (config a)) in
  let currentHour := getHours now in
  let startHour := parseInt (before_colon (hours_start hours)) in
  let endHour := parseInt (before_colon (hours_end hours)) in
  if excludeWeekends hours
     && ((getDay now =? 0)%Z || (getDay now =? 6)%Z) then false
  else
    match startHour, endHour with
    | Some startHour, Some endHour =>
        (startHour <=? currentHour)%Z && (currentHour <? endHour)%Z
    | _, _ => false
    end.

Definition tradesOf (d : AgentDecision) : list TradeExecution :=
  match executionDetails d with
  | Some e => trades e
  | None => []
  end.

Definition getTodayTrades `{Externals} (now : Z) (a : Agent) : list TradeExecution :=
  let today := toDateString now in
  flat_map tradesOf
    (filter (fun d => toDateString (decision_timestamp d) = today)
            (decisionHistory a)).

Definition getHourlyTrades (now : Z) (a : Agent) : list TradeExecution :=
  let oneHourAgo := (now - 60 * 60 * 1000)%Z in
  flat_map tradesOf
    (filter (fun d => (oneHourAgo < decision_timestamp d)%Z) (decisionHistory a)).

Definition count {A} (l : list A) : Q := inject_Z (Z.of_nat (length l)).

Definition isWithinTradingLimits `{Externals} (now : Z) (a : Agent) : bool :=
  let todayTrades := getTodayTrades now a in
  let hourlyTrades := getHourlyTrades now a in
  Qltb (count todayTrades) (maxTradesPerHour (tradingLimits (config a)) * 24)
  && Qltb (count hourlyTrades) (maxTradesPerHour (tradingLimits (config a))).

Definition passesRiskChecks (r : Recommendation) : bool := true.

Definition passesMarketConditionChecks (marketData : MarketData) : bool :=
  if bool_decide (volatility (marketSentiment marketData) = V_HIGH) then false
  else true.

Definition meetsExecutionCriteria `{Externals}
    (now : Z) (r : Recommendation) (marketData : MarketData) (a : Agent) : bool :=
  if negb (isWithinTradingHours now a) then false
  else if negb (isWithinTradingLimits now a) then false
  else if negb (passesRiskChecks r) then false
  else if negb (passesMarketConditionChecks marketData) then false
  else true.

Definition reprice (marketData : MarketData) (asset : Asset) : Asset :=
  match truthy (prices marketData !! asset_id asset) with
  | Some price =>
      {| asset_id := asset_id asset; symbol := symbol asset;
         asset_name := asset_name asset; asset_type := asset_type asset;
         securityType := securityType asset; sector := sector asset;
         currentPrice := price;
         asset_quantity := asset_quantity asset;
         marketValue := asset_quantity asset * price;
         weight := weight asset |}
  | None => asset
  end.

Definition reweigh (total : Q) (asset : Asset) : Asset :=
  {| asset_id := asset_id asset; symbol := symbol asset;
     asset_name := asset_name asset; asset_type := asset_type asset;
     securityType := securityType asset; sector := sector asset;
     currentPrice := currentPrice asset;
     asset_quantity := asset_quantity asset;
     marketValue := marketValue asset;
     weight := marketValue asset / total |}.

(** [updatePortfolioValues], on the portfolio as the agent reads it.  The
    source assigns to the Asset objects themselves, which recorded
    decisions refer to as well: for that see
    [Objects.updatePortfolioValues].  Where the new total is 0 the source
    divides by zero; [Q] gives weight 0 there. *)
Definition updatePortfolioValues (marketData : MarketData) (a : Agent) : Agent :=
  let p := currentPortfolio (state a) in
  let repriced := map (reprice marketData) (assets p) in
  let total := fold_left (fun sum asset => sum + marketValue asset) repriced 0 in
  set_state
    (set_portfolio
       {| portfolio_id := portfolio_id p; portfolio_name := portfolio_name p;
          assets := map (reweigh total) repriced;
          totalValue := total |}
       (state a))
    a.

Definition generateEmergencyHedgeActions : list ActionItem :=
  [ {| item_asset := None; item_assetType := None; item_action := A_HEDGE;
       item_quantity := None; item_percentage := Some 0.30;
       item_targetWeight := None;
       rationale := "Emergency hedge to reduce portfolio risk exposure" |} ].

Definition initiateEmergencyHedging `{Externals}
    (now : Z) (inp : DecisionInputs) (a : Agent) : Agent :=
  let a := addAlert now CRITICAL RISK_LIMIT_BREACH "Initiating emergency hedging" a in
  let emergencyRecommendation :=
    {| rec_id := "emergency-" +:+ pretty now;
       rec_type := HEDGE;
       priority := CRITICAL;
       title := "Emergency Risk Hedging";
       description := "Automated emergency response to risk limit breach";
       rec_reasoning :=
         "VaR exceeded maximum threshold, implementing immediate hedging strategy";
       actionItems := generateEmergencyHedgeActions;
       impact :=
         {| riskReduction := Some 0.50; yieldImprovement := None;
            diversificationImprovement := None; estimatedCost := None;
            timeframe := "immediate" |} |} in
  fst (executeDecision inp emergencyRecommendation a).

Definition checkRiskLimits `{Externals}
    (now : Z) (hedge : DecisionInputs) (a : Agent) : Agent :=
  let analysis := analyzePortfolio (currentPortfolio (state a)) in
  let a :=
    if Qgtb (valueAtRisk analysis) (maxDailyVaR (riskLimits (config a))) then
      let a :=
        addAlert now CRITICAL RISK_LIMIT_BREACH
          ("Daily VaR exceeded: " +:+ toFixed (valueAtRisk analysis) 0 +:+ " > "
           +:+ numberToString (maxDailyVaR (riskLimits (config a)))) a in
      if bool_decide (autonomyLevel (config a) = FULL_AUTO)
      then initiateEmergencyHedging now hedge a
      else a
    else a in
  if Qgtb (singleAssetMax analysis) (maxSingleAssetWeight (riskLimits (config a)))
  then
    addAlert now HIGH RISK_LIMIT_BREACH
      ("Single asset concentration exceeded: "
       +:+ toFixed (singleAssetMax analysis * 100) 1 +:+ "%") a
  else a.

(** What one [executionCycle] consumes: the outcome of
    [marketDataProvider.getCurrentData()] (a rejection carries the error
    message), and the clock readings of the [i]-th candidate's gate and
    decision, of the risk check and of the [catch] block.  The provider of
    the repository catches its own errors and answers with fallback data
    ([PortfolioUtils.ts], [getCurrentData]): its outcome is always [inl];
    [inr] is the outcome of a provider that rejects. *)
Record CycleInputs := {
  marketData_result : MarketData + string;
  gate_time : nat -> Z;
  decision_inputs : nat -> DecisionInputs;
  risk_time : Z;
  hedge_inputs : DecisionInputs;
  error_time : Z
}.

(** The [for] loop of [executionCycle] over the candidates, from the
    [i]-th on. *)
Fixpoint decideAll `{Externals}
    (c : CycleInputs) (marketData : MarketData) (i : nat)
    (candidates : list Recommendation) (a : Agent) : Agent :=
  match candidates with
  | [] => a
  | r :: rest =>
      let a :=
        if meetsExecutionCriteria (gate_time c i) r marketData a
        then fst (executeDecision (decision_inputs c i) r a)
        else a in
      decideAll c marketData (S i) rest a
  end.

(** [executionCycle]; [monitorPerformance] has an empty body.  One cycle
    runs to its end without another call on the agent in between. *)
Definition executionCycle `{Externals} (c : CycleInputs) (a : Agent) : Agent :=
  if negb (bool_decide (status (state a) = ACTIVE)) then a
  else
    match marketData_result c with
    | inl marketData =>
        let a := updatePortfolioValues marketData a in
        let analysis := analyzePortfolio (currentPortfolio (state a)) in
        let recommendations := generateRecommendations analysis in
        let criticalRecommendations :=
          filter (fun r => priority r = CRITICAL \/ priority r = HIGH)
                 recommendations in
        let a := decideAll c marketData 0 criticalRecommendations a in
        checkRiskLimits (risk_time c) (hedge_inputs c) a
    | inr msg =>
        let a := set_state (set_status ERROR (state a)) a in
        addAlert (error_time c) CRITICAL SYSTEM_ERROR
          ("Execution cycle failed: " +:+ msg) a
    end.

(** [Partial<AgentConfig>]: the fields an update carries. *)
Record PartialConfig := {
  new_id : option string;
  new_name : option string;
  new_enabled : option bool;
  new_riskLimits : option RiskLimits;
  new_tradingLimits : option TradingLimits;
  new_decisionThresholds : option DecisionThresholds;
  new_autonomyLevel : option AutonomyLevel;
  new_marketDataSources : option (list string);
  new_executionSettings : option ExecutionSettings
}.

Definition updateConfig (newConfig : PartialConfig) (a : Agent) : Agent :=
  {| config :=
       {| config_id := default (config_id (config a)) (new_id newConfig);
          config_name := default (config_name (config a)) (new_name newConfig);
          enabled := default (enabled (config a)) (new_enabled newConfig);
          riskLimits := default (riskLimits (config a)) (new_riskLimits newConfig);
          tradingLimits :=
            default (tradingLimits (config a)) (new_tradingLimits newConfig);
          decisionThresholds :=
            default (decisionThresholds (config a))
                    (new_decisionThresholds newConfig);
          autonomyLevel :=
            default (autonomyLevel (config a)) (new_autonomyLevel newConfig);
          marketDataSources :=
            default (marketDataSources (config a))
                    (new_marketDataSources newConfig);
          executionSettings :=
            default (executionSettings (config a))
                    (new_executionSettings newConfig) |};
     state := state a;
     decisionHistory := decisionHistory a;
     intervalId := intervalId a;
     intervals := intervals a |}.

(** [getDecisionHistory]: a copy of the array. *)
Definition getDecisionHistory (a : Agent) : list AgentDecision := decisionHistory a.

(** The operations of the class that change an agent: the public control
    calls, a direct [executeDecision], and the timer-driven cycle. *)
Inductive Operation :=
  | Start (now : Z)
  | Stop (now : Z)
  | Pause (now : Z)
  | ExecuteDecision (inp : DecisionInputs) (r : Recommendation)
  | ExecutionCycle (c : CycleInputs)
  | UpdateConfig (newConfig : PartialConfig).

Definition perform `{Externals} (op : Operation) (a : Agent) : Agent :=
  match op with
  | Start now => start now a
  | Stop now => stop now a
  | Pause now => pause now a
  | ExecuteDecision inp r => fst (executeDecision inp r a)
  | ExecutionCycle c => executionCycle c a
  | UpdateConfig newConfig => updateConfig newConfig a
  end.

(** A run: the operations applied in order. *)
Definition run `{Externals} (ops : list Operation) (a : Agent) : Agent :=
  fold_left (fun a op => perform op a) ops a.

(** The decisions [executeDecision] returns under configuration [cfg]. *)
Inductive decided `{Externals} (cfg : AgentConfig) : AgentDecision -> Prop :=
  | decided_by inp r a :
      config a = cfg -> decided cfg (snd (executeDecision inp r a)).

(** What an operation may do to the history: append decisions made under
    the agent's configuration. *)
Definition extends `{Externals} (a a' : Agent) : Prop :=
  config a' = config a
  /\ exists l, decisionHistory a' = decisionHistory a ++ l
               /\ Forall (decided (config a)) l.

(** An operation that leaves the configured autonomy level as it is. *)
Definition keeps_autonomy (op : Operation) : Prop :=
  match op with
  | UpdateConfig newConfig => new_autonomyLevel newConfig = None
  | _ => True
  end.

End PortfolioAgent.

(** ** The monitor: [src/services/AgentMonitor.ts] *)

Module AgentMonitor.

Record AlertThresholds := {
  maxDailyLoss : Q;
  threshold_maxDrawdown : Q;
  minSuccessRate : Q;
  maxConsecutiveFailures : Q;
  maxRiskExposure : Q
}.

Record ShutdownTrigger := {
  condition : string;
  threshold : Q;
  trigger_description : string
}.

Record MonitoringConfig := {
  checkInterval : Z;
  alertThresholds : AlertThresholds;
  emergencyContacts : list string;
  autoShutdownTriggers : list ShutdownTrigger
}.

(** How a call of a method that may throw ends: it returns, or it throws
    [error]; either way [a] is the object as the call left it. *)
Inductive Outcome (A : Type) :=
  | Returned (a : A)
  | Threw (a : A) (error : string).
Arguments Returned {A} a.
Arguments Threw {A} a error.

Definition after {A} (o : Outcome A) : A :=
  match o with
  | Returned a => a
  | Threw a _ => a
  end.

(** What the shutdown path asks of a registered agent: the identity its
    state reports, and a [stop()] that may throw. *)
Class Stoppable (A : Type) := {
  agentId : A -> string;
  stopAgent : Z -> A -> Outcome A
}.

(** [PortfolioAgent.stop] never throws. *)
#[global] Instance PortfolioAgent_Stoppable : Stoppable PortfolioAgent.Agent := {
  agentId a := state_id (PortfolioAgent.state a);
  stopAgent now a := Returned (PortfolioAgent.stop now a)
}.

(** A line written to the console. *)
Inductive Output :=
  | ConsoleLog (line : string)
  | ConsoleError (line : string) (error : string).

(** The fields of the class; [agents] is the [Map] in insertion order,
    [sweeps] the live timers that run [performMonitoringCycle], [console]
    what has been written so far. *)
Record Monitor (A : Type) := {
  agents : list (string * A);
  config : MonitoringConfig;
  intervalId : option nat;
  emergencyShutdownActive : bool;
  sweeps : list (nat * Z);
  console : list Output
}.
Arguments agents {A} m.
Arguments config {A} m.
Arguments intervalId {A} m.
Arguments emergencyShutdownActive {A} m.
Arguments sweeps {A} m.
Arguments console {A} m.

Section WithAgents.
Context {A : Type} `{Stoppable A}.

Definition constructor (cfg : MonitoringConfig) : Monitor A :=
  {| agents := []; config := cfg; intervalId := None;
     emergencyShutdownActive := false; sweeps := []; console := [] |}.

Definition log (o : Output) (m : Monitor A) : Monitor A :=
  {| agents := agents m; config := config m; intervalId := intervalId m;
     emergencyShutdownActive := emergencyShutdownActive m;
     sweeps := sweeps m; console := console m ++ [o] |}.

Definition set_agents (l : list (string * A)) (m : Monitor A) : Monitor A :=
  {| agents := l; config := config m; intervalId := intervalId m;
     emergencyShutdownActive := emergencyShutdownActive m;
     sweeps := sweeps m; console := console m |}.

(** [Map.set]: an existing key keeps its place, a new key goes last. *)
Fixpoint map_set (k : string) (v : A) (l : list (string * A)) : list (string * A) :=
  match l with
  | [] => [(k, v)]
  | (k', v') :: rest =>
      if String.eqb k' k then (k, v) :: rest else (k', v') :: map_set k v rest
  end.

Definition map_delete (k : string) (l : list (string * A)) : list (string * A) :=
  filter (fun kv => fst kv <> k) l.

Definition registerAgent (agent : A) (m : Monitor A) : Monitor A :=
  let id := agentId agent in
  log (ConsoleLog ("Agent " +:+ id +:+ " registered for monitoring"))
      (set_agents (map_set id agent (agents m)) m).

Definition unregisterAgent (id : string) (m : Monitor A) : Monitor A :=
  log (ConsoleLog ("Agent " +:+ id +:+ " unregistered from monitoring"))
      (set_agents (map_delete id (agents m)) m).

Definition startMonitoring (m : Monitor A) : Monitor A :=
  let m := log (ConsoleLog "Starting agent monitoring system") m in
  let '(h, live) := setInterval (checkInterval (config m)) (sweeps m) in
  {| agents := agents m; config := config m; intervalId := Some h;
     emergencyShutdownActive := emergencyShutdownActive m;
     sweeps := live; console := console m |}.

Definition stopMonitoring (m : Monitor A) : Monitor A :=
  let m :=
    match intervalId m with
    | Some h =>
        {| agents := agents m; config := config m; intervalId := None;
           emergencyShutdownActive := emergencyShutdownActive m;
           sweeps := clearInterval h (sweeps m); console := console m |}
    | None => m
    end in
  log (ConsoleLog "Agent monitoring system stopped") m.

(** One round of the loop [for (const [agentId, agent] of this.agents)]
    of [emergencyShutdown]: the agent as [stop()] left it, and the line
    written. *)
Definition stopOne (now : Z) (entry : string * A) : (string * A) * Output :=
  let '(id, agent) := entry in
  match stopAgent now agent with
  | Returned agent' =>
      ((id, agent'), ConsoleLog ("Agent " +:+ id +:+ " stopped"))
  | Threw agent' error =>
      ((id, agent'), ConsoleError ("Failed to stop agent " +:+ id +:+ ":") error)
  end.

Definition stopAll (now : Z) (m : Monitor A) : Monitor A :=
  let results := map (stopOne now) (agents m) in
  {| agents := map fst results; config := config m; intervalId := intervalId m;
     emergencyShutdownActive := emergencyShutdownActive m;
     sweeps := sweeps m; console := console m ++ map snd results |}.

Definition notifying (contact : string) : Output :=
  ConsoleLog ("Notifying: " +:+ contact).

(** [sendEmergencyNotification]: the sending itself is commented out in
    the source; what remains of a notification is its console line. *)
Definition emergencyMessage `{Externals} (now : Z) (reason : string) : string :=
  "EMERGENCY SHUTDOWN: Portfolio Agent System" +:+ String "010" "Reason: "
  +:+ reason +:+ String "010" "Time: " +:+ toISOString now.

Definition sendEmergencyNotification `{Externals}
    (now : Z) (reason : string) (m : Monitor A) : Monitor A :=
  let message := emergencyMessage now reason in
  let m := log (ConsoleLog ("EMERGENCY NOTIFICATION: " +:+ message)) m in
  {| agents := agents m; config := config m; intervalId := intervalId m;
     emergencyShutdownActive := emergencyShutdownActive m;
     sweeps := sweeps m;
     console := console m ++ map notifying (emergencyContacts (config m)) |}.

(** [this.emergencyShutdownActive = true]. *)
Definition raise_flag (m : Monitor A) : Monitor A :=
  {| agents := agents m; config := config m; intervalId := intervalId m;
     emergencyShutdownActive := true;
     sweeps := sweeps m; console := console m |}.

(** [emergencyShutdown] up to its one [await]: the guard, the flag, the
    stops and the notifications run without interruption. *)
Definition emergencyShutdown_begin `{Externals}
    (now : Z) (reason : string) (m : Monitor A) : option (Monitor A) :=
  if emergencyShutdownActive m then None
  else
    let m := raise_flag m in
    let m := log (ConsoleLog ("EMERGENCY SHUTDOWN INITIATED: " +:+ reason)) m in
    let m := stopAll now m in
    Some (sendEmergencyNotification now reason m).

(** [emergencyShutdown], with nothing else running at its [await]. *)
Definition emergencyShutdown `{Externals}
    (now : Z) (reason : string) (m : Monitor A) : Monitor A :=
  match emergencyShutdown_begin now reason m with
  | None => m
  | Some m => stopMonitoring m
  end.

(** [performMonitoringCycle]: the guard, then the sweep over the agents
    ([sweep] stands for the loop that calls [monitorAgent]). *)
Definition performMonitoringCycle
    (sweep : Monitor A -> Monitor A) (m : Monitor A) : Monitor A :=
  if emergencyShutdownActive m then m else sweep m.

End WithAgents.

End AgentMonitor.

(** ** Object identity: [getState] and its callers

    The agent's state as the objects it is made of.  [this.state] is an
    object whose fields hold numbers, an enum and a date by value, and its
    portfolio, watchlist, alert array and performance record by reference;
    the alert array holds references to the alert objects. *)

Module Store.

Abbreviation loc := nat.

Record StateObject := {
  o_id : string;
  o_status : AgentStatus;
  o_lastDecision : Z;
  o_totalDecisions : Z;
  o_successRate : Q;
  o_currentPortfolio : loc;
  o_watchlist : loc;
  o_alerts : loc;
  o_performance : loc
}.

Inductive Object :=
  | StateObj (s : StateObject)
  | PortfolioObj (p : Portfolio)
  | WatchlistArr (l : list Asset)
  | AlertsArr (l : list loc)
  | AlertObj (a : Alert)
  | PerformanceObj (p : AgentPerformance).

Abbreviation heap := (gmap nat Object).

(** An agent, as far as its state goes: the reference [this.state]. *)
Record AgentRef := { this_state : loc }.

Definition read_alert (h : heap) (l : loc) : option Alert :=
  match h !! l with
  | Some (AlertObj a) => Some a
  | _ => None
  end.

Definition read_alerts (h : heap) (l : loc) : option (list Alert) :=
  match h !! l with
  | Some (AlertsArr ls) => mapM (read_alert h) ls
  | _ => None
  end.

Definition read_portfolio (h : heap) (l : loc) : option Portfolio :=
  match h !! l with
  | Some (PortfolioObj p) => Some p
  | _ => None
  end.

Definition read_watchlist (h : heap) (l : loc) : option (list Asset) :=
  match h !! l with
  | Some (WatchlistArr w) => Some w
  | _ => None
  end.

Definition read_performance (h : heap) (l : loc) : option AgentPerformance :=
  match h !! l with
  | Some (PerformanceObj p) => Some p
  | _ => None
  end.

(** The [AgentState] value that a state object with fields [s] and the
    objects it refers to make up; [None] where the store is not shaped
    like one. *)
Definition read_fields (h : heap) (s : StateObject) : option AgentState :=
  p ← read_portfolio h (o_currentPortfolio s);
  w ← read_watchlist h (o_watchlist s);
  al ← read_alerts h (o_alerts s);
  pf ← read_performance h (o_performance s);
  Some {| state_id := o_id s;
          status := o_status s;
          lastDecision := o_lastDecision s;
          totalDecisions := o_totalDecisions s;
          successRate := o_successRate s;
          currentPortfolio := p;
          watchlist := w;
          alerts := al;
          performance := pf |}.

Definition read_state (h : heap) (l : loc) : option AgentState :=
  match h !! l with
  | Some (StateObj s) => read_fields h s
  | _ => None
  end.

(** The agent's internal state. *)
Definition internal_state (h : heap) (agent : AgentRef) : option AgentState :=
  read_state h (this_state agent).

(** [getState(): return { ...this.state }]: a new object with the same
    field values; the store with it, and its reference. *)
Definition getState (agent : AgentRef) (h : heap) : option (heap * loc) :=
  match h !! this_state agent with
  | Some (StateObj s) =>
      let l := fresh (dom h) in
      Some (<[l := StateObj s]> h, l)
  | _ => None
  end.

Definition acknowledge (o : Object) : Object :=
  match o with
  | AlertObj a =>
      AlertObj {| alert_id := alert_id a; severity := severity a;
                  alert_type := alert_type a; message := message a;
                  alert_timestamp := alert_timestamp a;
                  acknowledged := true |}
  | _ => o
  end.

(** [state.alerts.find(a => a.id === alertId)]. *)
Definition find_alert (h : heap) (alertId : string) (ls : list loc) : option loc :=
  List.find
    (fun l =>
       match read_alert h l with
       | Some a => String.eqb (alert_id a) alertId
       | None => false
       end)
    ls.

(** [AgentMonitor.acknowledgeAlert], on the monitor's map of agents. *)
Definition acknowledgeAlert
    (agents : list (string * AgentRef)) (agentId alertId : string) (h : heap)
    : heap * bool :=
  match List.find (fun kv => String.eqb (fst kv) agentId) agents with
  | None => (h, false)
  | Some (_, agent) =>
      match getState agent h with
      | Some (h, state) =>
          match h !! state with
          | Some (StateObj s) =>
              match h !! o_alerts s with
              | Some (AlertsArr ls) =>
                  match find_alert h alertId ls with
                  | Some alert => (alter acknowledge alert h, true)
                  | None => (h, false)
                  end
              | _ => (h, false)
              end
          | _ => (h, false)
          end
      | None => (h, false)
      end
  end.

End Store.

(** ** Shared objects: the portfolio's assets and the recorded decisions

    An [Asset] is an object, and what holds an asset holds a reference to
    it.  The portfolio's array refers to its assets; an action item of a
    recommendation refers to an asset of the portfolio it was made for
    ([RebalancingEngine.ts]: [actions.push({ asset, ... })] with [asset]
    taken from [portfolio.assets]); [executeRecommendation] hands that
    reference to the executor in the order, and the executor returns it in
    the trade ([asset: order.asset]).  A recorded decision so refers,
    through its recommendation and its trades, to the objects whose price,
    market value and weight [updatePortfolioValues] assigns.

    Here an Asset object is an address of a [Memory], and the records are
    those of the data model with an address where the source holds a
    reference to an Asset.  Recommendations, trades and decisions are
    written once, when they are made, and are kept as values. *)

Module Objects.

Abbreviation addr := nat.

(** The Asset object at each address. *)
Definition Memory := addr -> Asset.

(** The memory after the object at [l] has been assigned the fields [v]. *)
Definition write (l : addr) (v : Asset) (mem : Memory) : Memory :=
  fun k => if Nat.eqb k l then v else mem k.

Record ItemRef := {
  ir_asset : option addr;
  ir_assetType : option AssetType;
  ir_action : ItemAction;
  ir_quantity : option Q;
  ir_percentage : option Q;
  ir_targetWeight : option Q;
  ir_rationale : string
}.

Record RecommendationRef := {
  rr_id : string;
  rr_type : RecommendationType;
  rr_priority : Level;
  rr_title : string;
  rr_description : string;
  rr_reasoning : string;
  rr_actionItems : list ItemRef;
  rr_impact : Impact
}.

Record TradeRef := {
  tr_id : string;
  tr_asset : addr;
  tr_action : TradeAction;
  tr_quantity : Q;
  tr_price : Q;
  tr_timestamp : Z;
  tr_status : TradeStatus
}.

Record DetailsRef := {
  er_trades : list TradeRef;
  er_totalCost : Q;
  er_executionTime : Z;
  er_slippage : option Q;
  er_success : bool;
  er_errors : option (list string)
}.

Record DecisionRef := {
  dr_id : string;
  dr_timestamp : Z;
  dr_decisionType : DecisionType;
  dr_recommendation : RecommendationRef;
  dr_reasoning : string;
  dr_confidence : Q;
  dr_riskAssessment : string;
  dr_expectedOutcome : ExpectedOutcome;
  dr_status : DecisionStatus;
  dr_executionDetails : option DetailsRef
}.

(** What a reader of an object finds: the record with every Asset as the
    memory has it at the time of reading. *)
Definition read_item (mem : Memory) (item : ItemRef) : ActionItem :=
  {| item_asset := mem <$> ir_asset item;
     item_assetType := ir_assetType item;
     item_action := ir_action item;
     item_quantity := ir_quantity item;
     item_percentage := ir_percentage item;
     item_targetWeight := ir_targetWeight item;
     rationale := ir_rationale item |}.

Definition read_recommendation (mem : Memory) (r : RecommendationRef)
    : Recommendation :=
  {| rec_id := rr_id r;
     rec_type := rr_type r;
     priority := rr_priority r;
     title := rr_title r;
     description := rr_description r;
     rec_reasoning := rr_reasoning r;
     actionItems := map (read_item mem) (rr_actionItems r);
     impact := rr_impact r |}.

Definition read_trade (mem : Memory) (t : TradeRef) : TradeExecution :=
  {| trade_id := tr_id t;
     trade_asset := mem (tr_asset t);
     trade_action := tr_action t;
     trade_quantity := tr_quantity t;
     trade_price := tr_price t;
     trade_timestamp := tr_timestamp t;
     trade_status := tr_status t |}.

Definition read_details (mem : Memory) (e : DetailsRef) : ExecutionDetails :=
  {| trades := map (read_trade mem) (er_trades e);
     totalCost := er_totalCost e;
     executionTime := er_executionTime e;
     slippage := er_slippage e;
     success := er_success e;
     errors := er_errors e |}.

Definition read_decision (mem : Memory) (d : DecisionRef) : AgentDecision :=
  {| decision_id := dr_id d;
     decision_timestamp := dr_timestamp d;
     decisionType := dr_decisionType d;
     recommendation := read_recommendation mem (dr_recommendation d);
     reasoning := dr_reasoning d;
     confidence := dr_confidence d;
     riskAssessment := dr_riskAssessment d;
     expectedOutcome := dr_expectedOutcome d;
     decision_status := dr_status d;
     executionDetails := read_details mem <$> dr_executionDetails d |}.

(** The Asset objects a decision refers to. *)
Definition addresses (d : DecisionRef) : list addr :=
  omap ir_asset (rr_actionItems (dr_recommendation d))
  ++ match dr_executionDetails d with
     | Some e => map tr_asset (er_trades e)
     | None => []
     end.

(** The agent with the objects it shares.  [holdings] is the array
    [state.currentPortfolio.assets] and [ledger] the array
    [decisionHistory]; [self] holds the other fields of the class (the
    assets of its portfolio and its history are read through [holdings]
    and [ledger], see [view]). *)
Record World := {
  memory : Memory;
  holdings : list addr;
  ledger : list DecisionRef;
  self : PortfolioAgent.Agent
}.

(** The agent as a reader finds it. *)
Definition view (w : World) : PortfolioAgent.Agent :=
  let a := self w in
  let p := currentPortfolio (PortfolioAgent.state a) in
  {| PortfolioAgent.config := PortfolioAgent.config a;
     PortfolioAgent.state :=
       PortfolioAgent.set_portfolio
         {| portfolio_id := portfolio_id p; portfolio_name := portfolio_name p;
            assets := map (memory w) (holdings w);
            totalValue := totalValue p |}
         (PortfolioAgent.state a);
     PortfolioAgent.decisionHistory := map (read_decision (memory w)) (ledger w);
     PortfolioAgent.intervalId := PortfolioAgent.intervalId a;
     PortfolioAgent.intervals := PortfolioAgent.intervals a |}.

Definition with_self (a : PortfolioAgent.Agent) (w : World) : World :=
  {| memory := memory w; holdings := holdings w; ledger := ledger w; self := a |}.

Definition addAlert
    (now : Z) (sev : Level) (type : AlertType) (msg : string) (w : World) : World :=
  with_self (PortfolioAgent.addAlert now sev type msg (self w)) w.

(** The trade the executor returns for an order on the asset at [l]:
    [asset: order.asset] is the reference the order came with. *)
Definition refer (l : addr) (t : TradeExecution) : TradeRef :=
  {| tr_id := trade_id t;
     tr_asset := l;
     tr_action := trade_action t;
     tr_quantity := trade_quantity t;
     tr_price := trade_price t;
     tr_timestamp := trade_timestamp t;
     tr_status := trade_status t |}.

(** The loop of [executeRecommendation]; the executor reads the asset of
    the order and assigns nothing. *)
Fixpoint executeItems
    (cfg : AgentConfig) (mem : Memory) (inp : nat -> PortfolioAgent.TradeInputs)
    (k : nat) (items : list ItemRef) (acc : list TradeRef * Q * list string)
    : list TradeRef * Q * list string :=
  match items with
  | [] => acc
  | actionItem :: rest =>
      match ir_asset actionItem with
      | Some l =>
          let '(trades, totalCost, errors) := acc in
          let trade :=
            TradeExecutor.executeTrade true
              (PortfolioAgent.ti_draws (inp k)) (PortfolioAgent.ti_now (inp k))
              {| TradeExecutor.asset := mem l;
                 TradeExecutor.action :=
                   match ir_action actionItem with
                   | A_BUY | A_INCREASE => BUY
                   | _ => SELL
                   end;
                 TradeExecutor.quantity :=
                   PortfolioAgent.calculateTradeQuantity (read_item mem actionItem);
                 TradeExecutor.orderType := exec_orderType (executionSettings cfg);
                 TradeExecutor.limitPrice := None;
                 TradeExecutor.slippageTolerance :=
                   exec_slippageTolerance (executionSettings cfg);
                 TradeExecutor.timeInForce := None |}
              (PortfolioAgent.ti_tradeId (inp k)) in
          let errors :=
            if bool_decide (trade_status trade = T_FAILED)
            then errors ++ ["Failed to execute trade for " +:+ asset_name (mem l)]
            else errors in
          executeItems cfg mem inp (S k) rest
            (trades ++ [refer l trade],
             totalCost + trade_price trade * trade_quantity trade,
             errors)
      | None => executeItems cfg mem inp k rest acc
      end
  end.

Definition executeRecommendation
    (inp : PortfolioAgent.DecisionInputs) (cfg : AgentConfig) (mem : Memory)
    (r : RecommendationRef) : DetailsRef :=
  let '(trades, totalCost, errors) :=
    executeItems cfg mem (PortfolioAgent.tradeInputs inp) 0 (rr_actionItems r)
      ([], 0, []) in
  {| er_trades := trades;
     er_totalCost := totalCost;
     er_executionTime :=
       (PortfolioAgent.t_execEnd inp - PortfolioAgent.t_execStart inp)%Z;
     er_slippage :=
       if bool_decide (length trades = 0%nat) then None
       else Some (0 / inject_Z (Z.of_nat (length trades)));
     er_success := bool_decide (length errors = 0%nat);
     er_errors := if (0 <? length errors)%nat then Some errors else None |}.

Definition set_outcome
    (s : DecisionStatus) (e : option DetailsRef) (d : DecisionRef) : DecisionRef :=
  {| dr_id := dr_id d;
     dr_timestamp := dr_timestamp d;
     dr_decisionType := dr_decisionType d;
     dr_recommendation := dr_recommendation d;
     dr_reasoning := dr_reasoning d;
     dr_confidence := dr_confidence d;
     dr_riskAssessment := dr_riskAssessment d;
     dr_expectedOutcome := dr_expectedOutcome d;
     dr_status := s;
     dr_executionDetails := e |}.

(** [executeDecision]: the decision holds the recommendation it was given,
    and with it the assets that recommendation refers to; [push] adds the
    decision to the array. *)
Definition executeDecision `{Externals}
    (inp : PortfolioAgent.DecisionInputs) (r : RecommendationRef) (w : World)
    : World * DecisionRef :=
  let a := view w in
  let recommendation := read_recommendation (memory w) r in
  let decision :=
    {| dr_id := "decision-" +:+ pretty (PortfolioAgent.t_created inp);
       dr_timestamp := PortfolioAgent.t_created inp;
       dr_decisionType :=
         PortfolioAgent.mapRecommendationToDecisionType (rr_type r);
       dr_recommendation := r;
       dr_reasoning :=
         generateReasoning recommendation (currentPortfolio (PortfolioAgent.state a));
       dr_confidence := PortfolioAgent.calculateConfidence recommendation;
       dr_riskAssessment := PortfolioAgent.assessDecisionRisk a recommendation;
       dr_expectedOutcome := PortfolioAgent.calculateExpectedOutcome a recommendation;
       dr_status := PENDING;
       dr_executionDetails := None |} in
  let decision :=
    if PortfolioAgent.shouldAutoExecute (PortfolioAgent.config a)
         (read_decision (memory w) decision)
    then
      let details := executeRecommendation inp (PortfolioAgent.config a) (memory w) r in
      set_outcome (if er_success details then COMPLETED else FAILED)
                  (Some details) decision
    else decision in
  let st := PortfolioAgent.state (self w) in
  ({| memory := memory w;
      holdings := holdings w;
      ledger := ledger w ++ [decision];
      self :=
        PortfolioAgent.set_state
          {| state_id := state_id st;
             status := status st;
             lastDecision := PortfolioAgent.t_recorded inp;
             totalDecisions := (totalDecisions st + 1)%Z;
             successRate := successRate st;
             currentPortfolio := currentPortfolio st;
             watchlist := watchlist st;
             alerts := alerts st;
             performance := performance st |}
          (self w) |},
   decision).

(** [updatePortfolioValues]: the three passes over the array, each
    assignment made to the object itself. *)
Definition updatePortfolioValues (marketData : MarketData) (w : World) : World :=
  let mem :=
    fold_left
      (fun mem l => write l (PortfolioAgent.reprice marketData (mem l)) mem)
      (holdings w) (memory w) in
  let total := fold_left (fun sum l => sum + marketValue (mem l)) (holdings w) 0 in
  let mem :=
    fold_left
      (fun mem l => write l (PortfolioAgent.reweigh total (mem l)) mem)
      (holdings w) mem in
  let st := PortfolioAgent.state (self w) in
  let p := currentPortfolio st in
  {| memory := mem;
     holdings := holdings w;
     ledger := ledger w;
     self :=
       PortfolioAgent.set_state
         (PortfolioAgent.set_portfolio
            {| portfolio_id := portfolio_id p; portfolio_name := portfolio_name p;
               assets := assets p; totalValue := total |}
            st)
         (self w) |}.

Definition initiateEmergencyHedging `{Externals}
    (now : Z) (inp : PortfolioAgent.DecisionInputs) (w : World) : World :=
  let w := addAlert now CRITICAL RISK_LIMIT_BREACH "Initiating emergency hedging" w in
  let emergencyRecommendation :=
    {| rr_id := "emergency-" +:+ pretty now;
       rr_type := HEDGE;
       rr_priority := CRITICAL;
       rr_title := "Emergency Risk Hedging";
       rr_description := "Automated emergency response to risk limit breach";
       rr_reasoning :=
         "VaR exceeded maximum threshold, implementing immediate hedging strategy";
       rr_actionItems :=
         [ {| ir_asset := None; ir_assetType := None; ir_action := A_HEDGE;
              ir_quantity := None; ir_percentage := Some 0.30;
              ir_targetWeight := None;
              ir_rationale := "Emergency hedge to reduce portfolio risk exposure" |} ];
       rr_impact :=
         {| riskReduction := Some 0.50; yieldImprovement := None;
            diversificationImprovement := None; estimatedCost := None;
            timeframe := "immediate" |} |} in
  fst (executeDecision inp emergencyRecommendation w).

Definition checkRiskLimits `{Externals}
    (now : Z) (hedge : PortfolioAgent.DecisionInputs) (w : World) : World :=
  let analysis := analyzePortfolio (currentPortfolio (PortfolioAgent.state (view w))) in
  let limits := riskLimits (PortfolioAgent.config (self w)) in
  let w :=
    if Qgtb (valueAtRisk analysis) (maxDailyVaR limits) then
      let w :=
        addAlert now CRITICAL RISK_LIMIT_BREACH
          ("Daily VaR exceeded: " +:+ toFixed (valueAtRisk analysis) 0 +:+ " > "
           +:+ numberToString (maxDailyVaR limits)) w in
      if bool_decide (autonomyLevel (PortfolioAgent.config (self w)) = FULL_AUTO)
      then initiateEmergencyHedging now hedge w
      else w
    else w in
  if Qgtb (singleAssetMax analysis) (maxSingleAssetWeight limits)
  then
    addAlert now HIGH RISK_LIMIT_BREACH
      ("Single asset concentration exceeded: "
       +:+ toFixed (singleAssetMax analysis * 100) 1 +:+ "%") w
  else w.

Fixpoint decideAll `{Externals}
    (c : PortfolioAgent.CycleInputs) (marketData : MarketData) (i : nat)
    (candidates : list RecommendationRef) (w : World) : World :=
  match candidates with
  | [] => w
  | r :: rest =>
      let w :=
        if PortfolioAgent.meetsExecutionCriteria (PortfolioAgent.gate_time c i)
             (read_recommendation (memory w) r) marketData (view w)
        then fst (executeDecision (PortfolioAgent.decision_inputs c i) r w)
        else w in
      decideAll c marketData (S i) rest w
  end.

(** [executionCycle]; [recommendations] is what the rebalancing engine
    returns in this cycle: any recommendations, on any assets. *)
Definition executionCycle `{Externals}
    (c : PortfolioAgent.CycleInputs) (recommendations : list RecommendationRef)
    (w : World) : World :=
  if negb (bool_decide (status (PortfolioAgent.state (self w)) = ACTIVE)) then w
  else
    match PortfolioAgent.marketData_result c with
    | inl marketData =>
        let w := updatePortfolioValues marketData w in
        let criticalRecommendations :=
          filter (fun r => rr_priority r = CRITICAL \/ rr_priority r = HIGH)
                 recommendations in
        let w := decideAll c marketData 0 criticalRecommendations w in
        checkRiskLimits (PortfolioAgent.risk_time c) (PortfolioAgent.hedge_inputs c) w
    | inr msg =>
        let a := self w in
        let a :=
          PortfolioAgent.set_state
            (PortfolioAgent.set_status ERROR (PortfolioAgent.state a)) a in
        with_self
          (PortfolioAgent.addAlert (PortfolioAgent.error_time c) CRITICAL SYSTEM_ERROR
             ("Execution cycle failed: " +:+ msg) a)
          w
    end.

(** The operations of the class, on the agent with its objects. *)
Inductive Operation :=
  | Start (now : Z)
  | Stop (now : Z)
  | Pause (now : Z)
  | ExecuteDecision (inp : PortfolioAgent.DecisionInputs) (r : RecommendationRef)
  | ExecutionCycle (c : PortfolioAgent.CycleInputs)
                   (recommendations : list RecommendationRef)
  | UpdateConfig (newConfig : PortfolioAgent.PartialConfig).

Definition perform `{Externals} (op : Operation) (w : World) : World :=
  match op with
  | Start now => with_self (PortfolioAgent.start now (self w)) w
  | Stop now => with_self (PortfolioAgent.stop now (self w)) w
  | Pause now => with_self (PortfolioAgent.pause now (self w)) w
  | ExecuteDecision inp r => fst (executeDecision inp r w)
  | ExecutionCycle c recommendations => executionCycle c recommendations w
  | UpdateConfig newConfig =>
      with_self (PortfolioAgent.updateConfig newConfig (self w)) w
  end.

Definition run `{Externals} (ops : list Operation) (w : World) : World :=
  fold_left (fun w op => perform op w) ops w.

(** What no assignment of the class changes of an asset: everything but its
    price, market value and weight. *)
Definition identity (a : Asset)
    : string * string * string * AssetType * option SecurityType * option string * Q :=
  (asset_id a, symbol a, asset_name a, asset_type a, securityType a, sector a,
   asset_quantity a).

(** What an operation may do to the objects: add decisions at the end of
    the ledger, and assign a price, a market value and a weight to assets
    of the portfolio. *)
Definition keeps (w w' : World) : Prop :=
  holdings w' = holdings w
  /\ ledger w `prefix_of` ledger w'
  /\ (forall l, identity (memory w' l) = identity (memory w l))
  /\ (forall l, l ∉ holdings w -> memory w' l = memory w l).

End Objects.

(** ** Sample data *)

Module Sample.

(** A stock position: 1 unit at 100, so an estimated daily volume of 50. *)
Definition stock : Asset :=
  {| asset_id := "XYZ"; symbol := "XYZ"; asset_name := "XYZ Corp";
     asset_type := SECURITY; securityType := Some STOCK; sector := None;
     currentPrice := 100; asset_quantity := 1; marketValue := 100; weight := 1 |}.

(** A stock position of 10000 units at 100: estimated daily volume 500000. *)
Definition large_stock : Asset :=
  {| asset_id := "XYZ"; symbol := "XYZ"; asset_name := "XYZ Corp";
     asset_type := SECURITY; securityType := Some STOCK; sector := None;
     currentPrice := 100; asset_quantity := 10000; marketValue := 1000000;
     weight := 1 |}.

Definition market_order (a : Asset) (q : Q) : TradeExecutor.TradeOrder :=
  {| TradeExecutor.asset := a; TradeExecutor.action := BUY;
     TradeExecutor.quantity := q; TradeExecutor.orderType := MARKET;
     TradeExecutor.limitPrice := None;
     TradeExecutor.slippageTolerance := 0.01;
     TradeExecutor.timeInForce := None |}.

Definition limit_order (act : TradeAction) (price limit : Q)
    : TradeExecutor.TradeOrder :=
  {| TradeExecutor.asset :=
       {| asset_id := "XYZ"; symbol := "XYZ"; asset_name := "XYZ Corp";
          asset_type := SECURITY; securityType := Some STOCK; sector := None;
          currentPrice := price; asset_quantity := 10000;
          marketValue := 10000 * price; weight := 1 |};
     TradeExecutor.action := act;
     TradeExecutor.quantity := 10;
     TradeExecutor.orderType := LIMIT;
     TradeExecutor.limitPrice := Some limit;
     TradeExecutor.slippageTolerance := 0.01;
     TradeExecutor.timeInForce := Some DAY |}.

(** Draws under which the execution fails ([0.01 <= 0.05]). *)
Definition failing_draws : TradeExecutor.Draws :=
  {| TradeExecutor.r_volatility := 0.5; TradeExecutor.r_success := 0.01;
     TradeExecutor.r_fill := 0.5 |}.

(** Draws under which the execution succeeds, with fill draw [r]. *)
Definition succeeding_draws (r : Q) : TradeExecutor.Draws :=
  {| TradeExecutor.r_volatility := 0.5; TradeExecutor.r_success := 0.5;
     TradeExecutor.r_fill := r |}.

(** A runtime for the examples: the clock read in UTC, numbers printed
    by their integer part, [parseInt] on decimal digits, and collaborators
    that recommend nothing. *)
Definition digit (c : ascii) : option Z :=
  let n := (Z.of_nat (nat_of_ascii c) - 48)%Z in
  if (0 <=? n)%Z && (n <=? 9)%Z then Some n else None.

Fixpoint parse_digits (acc : option Z) (s : string) : option Z :=
  match s with
  | EmptyString => acc
  | String c rest =>
      match digit c with
      | Some d => parse_digits (Some (10 * default 0%Z acc + d)%Z) rest
      | None => acc
      end
  end.

#[local] Instance utc : Externals := {
  getHours t := ((t / 3600000) mod 24)%Z;
  getDay t := ((t / 86400000 + 4) mod 7)%Z;
  toDateString t := (t / 86400000)%Z;
  toISOString t := pretty t;
  parseInt s := parse_digits None s;
  toFixed q n := pretty (Qfloor q);
  numberToString q := pretty (Qfloor q);
  generateReasoning r p := rec_reasoning r;
  analyzePortfolio p := {| analysed := p; valueAtRisk := 0; singleAssetMax := 0 |};
  generateRecommendations analysis := []
}.

Definition portfolio : Portfolio :=
  {| portfolio_id := "P1"; portfolio_name := "Sample"; assets := [large_stock];
     totalValue := 1000000 |}.

(** A configuration with at most [perHour] trades per hour and a daily
    trade volume limit of [daily], trading from 09:00 to 17:00. *)
Definition configuration
    (on : bool) (level : AutonomyLevel) (perHour daily : Q) : AgentConfig :=
  {| config_id := "agent-1"; config_name := "Sample agent"; enabled := on;
     riskLimits :=
       {| maxSingleAssetWeight := 0.2; maxSectorConcentration := 0.3;
          maxCreditRiskExposure := 0.1; maxDailyVaR := 500000;
          limit_maxDrawdown := 0.1; minLiquidityRatio := 0.05 |};
     tradingLimits :=
       {| maxDailyTradeVolume := daily; maxSingleTradeSize := 100000;
          maxTradesPerHour := perHour; allowedAssetTypes := [];
          restrictedAssets := [];
          tradingHours :=
            {| hours_start := "09:00"; hours_end := "17:00"; timezone := "UTC";
               excludeWeekends := true; excludeHolidays := false |} |};
     decisionThresholds :=
       {| criticalRebalanceThreshold := 0.1; highRebalanceThreshold := 0.05;
          riskToleranceDeviation := 0.02; yieldOptimizationThreshold := 0.01;
          liquidityStressThreshold := 0.1 |};
     autonomyLevel := level;
     marketDataSources := [];
     executionSettings :=
       {| exec_slippageTolerance := 0.01; executionTimeframe := 60;
          exec_orderType := MARKET; confirmationRequired := false;
          simulationMode := false |} |}.

(** A recommendation to sell 10 units of each of [n] positions. *)
Definition sell_item : ActionItem :=
  {| item_asset := Some large_stock; item_assetType := None; item_action := A_SELL;
     item_quantity := Some 10; item_percentage := None; item_targetWeight := None;
     rationale := "Reduce position" |}.

Definition recommend (n : nat) : Recommendation :=
  {| rec_id := "rec-1"; rec_type := REDUCE_CONCENTRATION; priority := CRITICAL;
     title := "Reduce concentration"; description := "Position above its limit";
     rec_reasoning := "Single asset weight above the limit";
     actionItems := replicate n sell_item;
     impact :=
       {| riskReduction := Some 0.3; yieldImprovement := None;
          diversificationImprovement := None; estimatedCost := None;
          timeframe := "1 day" |} |}.

(** Inputs of a decision made at time [t], every trade of which succeeds. *)
Definition inputs (t : Z) : PortfolioAgent.DecisionInputs :=
  {| PortfolioAgent.t_created := t;
     PortfolioAgent.t_execStart := t;
     PortfolioAgent.tradeInputs :=
       fun k =>
         {| PortfolioAgent.ti_tradeId := "trade-" +:+ pretty k;
            PortfolioAgent.ti_draws := succeeding_draws 0.5;
            PortfolioAgent.ti_now := t |};
     PortfolioAgent.t_execEnd := (t + 1000)%Z;
     PortfolioAgent.t_recorded := (t + 1000)%Z |}.

(** Monday 1970-01-05, 10:00 and 14:00 UTC, in milliseconds. *)
Definition monday_10h : Z := 4 * 86400000 + 10 * 3600000.
Definition monday_14h : Z := 4 * 86400000 + 14 * 3600000.

Definition calm : MarketData :=
  {| md_timestamp := monday_14h; prices := ∅; yields := ∅; creditSpreads := ∅;
     volatilities := ∅; liquidityScores := ∅;
     marketSentiment :=
       {| overall := NEUTRAL; creditMarkets := CM_STABLE;
          interestRates := IR_STABLE; volatility := V_LOW |} |}.

(** An agent that, on Monday at 10:00, decided and executed a
    recommendation with three trades. *)
Definition busy (perHour daily : Q) : PortfolioAgent.Agent :=
  fst (PortfolioAgent.executeDecision (inputs monday_10h) (recommend 3)
         (PortfolioAgent.constructor 0
            (configuration true FULL_AUTO perHour daily) portfolio)).

(** A monitor of two sample agents, started, with two emergency contacts. *)
Definition monitoring : AgentMonitor.MonitoringConfig :=
  {| AgentMonitor.checkInterval := 30000;
     AgentMonitor.alertThresholds :=
       {| AgentMonitor.maxDailyLoss := 100000;
          AgentMonitor.threshold_maxDrawdown := 0.1;
          AgentMonitor.minSuccessRate := 0.6;
          AgentMonitor.maxConsecutiveFailures := 3;
          AgentMonitor.maxRiskExposure := 0.5 |};
     AgentMonitor.emergencyContacts := ["ops@example.com"; "risk@example.com"];
     AgentMonitor.autoShutdownTriggers := [] |}.

Definition named (id : string) (cfg : AgentConfig) : AgentConfig :=
  {| config_id := id; config_name := config_name cfg; enabled := enabled cfg;
     riskLimits := riskLimits cfg; tradingLimits := tradingLimits cfg;
     decisionThresholds := decisionThresholds cfg;
     autonomyLevel := autonomyLevel cfg;
     marketDataSources := marketDataSources cfg;
     executionSettings := executionSettings cfg |}.

Definition monitor : AgentMonitor.Monitor PortfolioAgent.Agent :=
  AgentMonitor.startMonitoring
    (AgentMonitor.registerAgent
       (PortfolioAgent.start 2
          (PortfolioAgent.constructor 0
             (named "agent-2" (configuration true SEMI_AUTO 10 100)) portfolio))
       (AgentMonitor.registerAgent
          (PortfolioAgent.start 1
             (PortfolioAgent.constructor 0
                (named "agent-1" (configuration true FULL_AUTO 10 100)) portfolio))
          (AgentMonitor.constructor monitoring))).

(** An agent whose [stop()] throws when it is [faulty]. *)
Record Probe := {
  probe_id : string;
  probe_running : bool;
  probe_faulty : bool
}.

#[local] Instance Probe_Stoppable : AgentMonitor.Stoppable Probe := {
  AgentMonitor.agentId p := probe_id p;
  AgentMonitor.stopAgent now p :=
    if probe_faulty p then AgentMonitor.Threw p "stop failed"
    else AgentMonitor.Returned
           {| probe_id := probe_id p; probe_running := false;
              probe_faulty := false |}
}.

Definition probes : AgentMonitor.Monitor Probe :=
  AgentMonitor.registerAgent
    {| probe_id := "healthy"; probe_running := true; probe_faulty := false |}
    (AgentMonitor.registerAgent
       {| probe_id := "faulty"; probe_running := true; probe_faulty := true |}
       (AgentMonitor.constructor monitoring)).

(** A store with one agent: its state object at 0, which refers to the
    portfolio at 1, the watchlist at 2, the alert array at 3 and the
    performance record at 4; the array holds one alert, the object at 5. *)
Definition unacknowledged : Alert :=
  {| alert_id := "alert-7"; severity := CRITICAL; alert_type := RISK_LIMIT_BREACH;
     message := "Daily VaR exceeded"; alert_timestamp := 7; acknowledged := false |}.

Definition store : gmap nat Store.Object :=
  list_to_map
    [ (0%nat, Store.StateObj
                {| Store.o_id := "agent-1"; Store.o_status := ACTIVE;
                   Store.o_lastDecision := 0; Store.o_totalDecisions := 0;
                   Store.o_successRate := 0;
                   Store.o_currentPortfolio := 1%nat; Store.o_watchlist := 2%nat;
                   Store.o_alerts := 3%nat; Store.o_performance := 4%nat |});
      (1%nat, Store.PortfolioObj portfolio);
      (2%nat, Store.WatchlistArr []);
      (3%nat, Store.AlertsArr [5%nat]);
      (4%nat, Store.PerformanceObj
                {| totalReturn := 0; sharpeRatio := 0; maxDrawdown := 0;
                   winRate := 0; avgDecisionTime := 0; riskAdjustedReturn := 0;
                   benchmarkOutperformance := 0 |});
      (5%nat, Store.AlertObj unacknowledged) ].

Definition agent_ref : Store.AgentRef := {| Store.this_state := 0%nat |}.

End Sample.


(** ** The monitor over portfolio agents: [src/services/AgentMonitor.ts]

    The rest of the class, for the agents it is written for.  An agent in
    the map is the object the agent's own methods change, so a call on it
    is an update of its entry.  [console.warn] and one-argument
    [console.error] lines go to [diagnostics], apart from the console of
    the monitor. *)

Module Supervisor.
Import AgentMonitor.

(** [Map.get]. *)
Definition map_get {A} (k : string) (l : list (string * A)) : option A :=
  snd <$> List.find (fun kv => String.eqb (fst kv) k) l.

Inductive Action := PAUSE | RESUME | STOP.

Definition actionName (action : Action) : string :=
  match action with
  | PAUSE => "PAUSE"
  | RESUME => "RESUME"
  | STOP => "STOP"
  end.

(** [overrideAgent]: the monitor and the boolean returned.  No method of
    [PortfolioAgent] throws, so the [catch] branch is never taken. *)
Definition overrideAgent
    (now : Z) (agentId : string) (action : Action)
    (m : Monitor PortfolioAgent.Agent) : Monitor PortfolioAgent.Agent * bool :=
  match map_get agentId (agents m) with
  | None => (m, false)
  | Some agent =>
      let agent :=
        match action with
        | PAUSE => PortfolioAgent.pause now agent
        | RESUME => PortfolioAgent.start now agent
        | STOP => PortfolioAgent.stop now agent
        end in
      (log (ConsoleLog ("Agent " +:+ agentId +:+ " " +:+ actionName action
                        +:+ " action executed"))
           (set_agents (map_set agentId agent (agents m)) m),
       true)
  end.

(** The loop of [countConsecutiveFailures], from the last decision down. *)
Fixpoint leadingFailures (l : list AgentDecision) : nat :=
  match l with
  | d :: rest =>
      if bool_decide (decision_status d = FAILED) then S (leadingFailures rest) else 0
  | [] => 0
  end.

Definition countConsecutiveFailures (decisions : list AgentDecision) : nat :=
  leadingFailures (rev decisions).

Definition calculateDailyLoss `{Externals}
    (now : Z) (decisions : list AgentDecision) : Q :=
  let today := toDateString now in
  let todayDecisions :=
    filter (fun d => toDateString (decision_timestamp d) = today) decisions in
  fold_left
    (fun loss d =>
       let cost :=
         match executionDetails d with
         | Some e => default 0 (truthy (Some (totalCost e)))
         | None => 0
         end in
       let expectedReturn :=
         default 0 (truthy (out_yieldImprovement (expectedOutcome d))) in
       loss + Qmax 0 (cost - expectedReturn))
    (filter (fun d => decision_status d = COMPLETED /\ is_Some (executionDetails d))
            todayDecisions)
    0.

Inductive Diagnostic := Warn (line : string) | Error (line : string).

(** A sweep under way: the monitor, the diagnostics written, and whether an
    [emergencyShutdown] started in this sweep waits at its [await]. *)
Record Sweep := {
  monitor : Monitor PortfolioAgent.Agent;
  diagnostics : list Diagnostic;
  suspended : bool
}.

Definition diagnose (d : Diagnostic) (sw : Sweep) : Sweep :=
  {| monitor := monitor sw; diagnostics := diagnostics sw ++ [d];
     suspended := suspended sw |}.

Definition with_monitor (m : Monitor PortfolioAgent.Agent) (sw : Sweep) : Sweep :=
  {| monitor := m; diagnostics := diagnostics sw; suspended := suspended sw |}.

(** A call of [this.overrideAgent(agentId, 'PAUSE')] whose result is dropped. *)
Definition autoPause (now : Z) (agentId : string) (sw : Sweep) : Sweep :=
  with_monitor (fst (overrideAgent now agentId PAUSE (monitor sw))) sw.

(** A call of [this.emergencyShutdown(reason)] that is not awaited: it runs
    up to its [await] and its rest waits for the sweep to end. *)
Definition beginShutdown `{Externals} (now : Z) (reason : string) (sw : Sweep) : Sweep :=
  match emergencyShutdown_begin now reason (monitor sw) with
  | Some m =>
      {| monitor := m; diagnostics := diagnostics sw; suspended := true |}
  | None => sw
  end.

Definition checkPerformanceAlerts `{Externals}
    (now : Z) (agentId : string) (state : AgentState)
    (decisions : list AgentDecision) (sw : Sweep) : Sweep :=
  let thresholds := alertThresholds (config (monitor sw)) in
  let sw :=
    if Qltb (successRate state) (minSuccessRate thresholds) then
      diagnose (Warn ("Agent " +:+ agentId +:+ ": Low success rate "
                      +:+ toFixed (successRate state * 100) 1 +:+ "%")) sw
    else sw in
  let recentDecisions := PortfolioAgent.slice_last 5 decisions in
  let consecutiveFailures := countConsecutiveFailures recentDecisions in
  let sw :=
    if Qle_bool (maxConsecutiveFailures thresholds)
                (inject_Z (Z.of_nat consecutiveFailures)) then
      let sw :=
        diagnose (Warn ("Agent " +:+ agentId +:+ ": " +:+ pretty consecutiveFailures
                        +:+ " consecutive failures detected")) sw in
      autoPause now agentId sw
    else sw in
  if Qgtb (maxDrawdown (performance state)) (threshold_maxDrawdown thresholds) then
    diagnose (Warn ("Agent " +:+ agentId +:+ ": Excessive drawdown "
                    +:+ toFixed (maxDrawdown (performance state) * 100) 1 +:+ "%")) sw
  else sw.

Definition checkRiskLimits
    (now : Z) (agentId : string) (state : AgentState) (sw : Sweep) : Sweep :=
  let criticalAlerts :=
    filter (fun a => severity a = CRITICAL /\ acknowledged a = false) (alerts state) in
  if (0 <? length criticalAlerts)%nat then
    let sw :=
      diagnose (Error ("Agent " +:+ agentId +:+ ": " +:+ pretty (length criticalAlerts)
                       +:+ " unacknowledged critical alerts")) sw in
    if (3 <=? length criticalAlerts)%nat then autoPause now agentId sw else sw
  else sw.

Definition checkSystemHealth
    (now : Z) (agentId : string) (state : AgentState) (sw : Sweep) : Sweep :=
  let timeSinceLastDecision := (now - lastDecision state)%Z in
  let maxIdleTime := (30 * 60 * 1000)%Z in
  let sw :=
    if bool_decide (status state = ACTIVE) && (maxIdleTime <? timeSinceLastDecision)%Z
    then
      diagnose (Warn ("Agent " +:+ agentId +:+ ": No activity for "
                      +:+ pretty (Qfloor (inject_Z timeSinceLastDecision / 60000 + 0.5))
                      +:+ " minutes")) sw
    else sw in
  if bool_decide (status state = ERROR) then
    diagnose (Error ("Agent " +:+ agentId +:+ ": In error state")) sw
  else sw.

(** The value a trigger is compared with, and whether it is breached. *)
Definition triggerValue `{Externals}
    (now : Z) (state : AgentState) (decisions : list AgentDecision)
    (trigger : ShutdownTrigger) : Q :=
  if String.eqb (condition trigger) "daily_loss" then calculateDailyLoss now decisions
  else if String.eqb (condition trigger) "max_drawdown"
  then maxDrawdown (performance state)
  else if String.eqb (condition trigger) "success_rate" then successRate state
  else 0.

Definition thresholdBreached `{Externals}
    (now : Z) (state : AgentState) (decisions : list AgentDecision)
    (trigger : ShutdownTrigger) : bool :=
  if String.eqb (condition trigger) "success_rate"
  then Qltb (triggerValue now state decisions trigger) (threshold trigger)
  else Qgtb (triggerValue now state decisions trigger) (threshold trigger).

(** The loop of [checkShutdownTriggers] over the triggers still to test. *)
Fixpoint checkShutdownTriggers `{Externals}
    (now : Z) (state : AgentState) (decisions : list AgentDecision)
    (triggers : list ShutdownTrigger) (sw : Sweep) : Sweep :=
  match triggers with
  | [] => sw
  | trigger :: rest =>
      if thresholdBreached now state decisions trigger then
        beginShutdown now
          (trigger_description trigger +:+ ": "
           +:+ numberToString (triggerValue now state decisions trigger)
           +:+ " (threshold: " +:+ numberToString (threshold trigger) +:+ ")")
          sw
      else checkShutdownTriggers now state decisions rest sw
  end.

(** [monitorAgent]: the state and the history are read once, before the
    checks. *)
Definition monitorAgent `{Externals}
    (now : Z) (agentId : string) (agent : PortfolioAgent.Agent) (sw : Sweep) : Sweep :=
  let state := PortfolioAgent.state agent in
  let decisions := PortfolioAgent.getDecisionHistory agent in
  let sw := checkPerformanceAlerts now agentId state decisions sw in
  let sw := checkRiskLimits now agentId state sw in
  let sw := checkSystemHealth now agentId state sw in
  checkShutdownTriggers now state decisions
    (autoShutdownTriggers (config (monitor sw))) sw.

(** The loop of [performMonitoringCycle] over the keys of the map: each
    round takes the agent as the rounds before left it. *)
Fixpoint monitorAll `{Externals} (now : Z) (ids : list string) (sw : Sweep) : Sweep :=
  match ids with
  | [] => sw
  | agentId :: rest =>
      let sw :=
        match map_get agentId (agents (monitor sw)) with
        | Some agent => monitorAgent now agentId agent sw
        | None => sw
        end in
      monitorAll now rest sw
  end.

Definition performMonitoringCycle `{Externals}
    (now : Z) (m : Monitor PortfolioAgent.Agent) : Sweep :=
  if emergencyShutdownActive m then
    {| monitor := m; diagnostics := []; suspended := false |}
  else
    monitorAll now (map fst (agents m))
      {| monitor := m; diagnostics := []; suspended := false |}.

(** What follows the sweep: the rest of a suspended [emergencyShutdown]. *)
Definition settle (sw : Sweep) : Monitor PortfolioAgent.Agent :=
  if suspended sw then stopMonitoring (monitor sw) else monitor sw.

(** One firing of the monitor's timer. *)
Definition tick `{Externals} (now : Z) (m : Monitor PortfolioAgent.Agent)
    : Monitor PortfolioAgent.Agent :=
  settle (performMonitoringCycle now m).

(** An entry of [agentStatuses]. *)
Record AgentStatusEntry := {
  entry_id : string;
  entry_status : AgentStatus;
  entry_lastDecision : Z;
  entry_totalDecisions : Z;
  entry_successRate : Q;
  alertCount : nat;
  entry_performance : AgentPerformance
}.

Inductive Health := HEALTHY | WARNING | UNHEALTHY.

(** [calculateSystemHealth]; [UNHEALTHY] stands for ['CRITICAL']. *)
Definition calculateSystemHealth (agentStatuses : list AgentStatusEntry) : Health :=
  if bool_decide (length agentStatuses = 0%nat) then UNHEALTHY
  else
    let activeAgents :=
      length (filter (fun a => entry_status a = ACTIVE) agentStatuses) in
    let errorAgents :=
      length (filter (fun a => entry_status a = ERROR) agentStatuses) in
    let avgSuccessRate :=
      fold_left (fun sum a => sum + entry_successRate a) agentStatuses 0
      / inject_Z (Z.of_nat (length agentStatuses)) in
    if (0 <? errorAgents)%nat || Qltb avgSuccessRate 0.7 then UNHEALTHY
    else if Qltb (inject_Z (Z.of_nat activeAgents))
                 (inject_Z (Z.of_nat (length agentStatuses)) * 0.8)
            || Qltb avgSuccessRate 0.85
    then WARNING
    else HEALTHY.

Record SystemStatus := {
  monitoringActive : bool;
  status_emergencyShutdownActive : bool;
  agentCount : nat;
  status_agents : list AgentStatusEntry;
  systemHealth : Health
}.

Definition getSystemStatus (m : Monitor PortfolioAgent.Agent) : SystemStatus :=
  let agentStatuses :=
    map (fun entry =>
           let state := PortfolioAgent.state (snd entry) in
           {| entry_id := fst entry;
              entry_status := status state;
              entry_lastDecision := lastDecision state;
              entry_totalDecisions := totalDecisions state;
              entry_successRate := successRate state;
              alertCount := length (alerts state);
              entry_performance := performance state |})
        (agents m) in
  {| monitoringActive :=
       match intervalId m with Some _ => true | None => false end;
     status_emergencyShutdownActive := emergencyShutdownActive m;
     agentCount := length (agents m);
     status_agents := agentStatuses;
     systemHealth := calculateSystemHealth agentStatuses |}.

(** [calculateRiskDistribution]: the counters LOW, MEDIUM, HIGH, CRITICAL. *)
Record Distribution := {
  n_LOW : nat;
  n_MEDIUM : nat;
  n_HIGH : nat;
  n_CRITICAL : nat
}.

Definition calculateRiskDistribution (decisions : list AgentDecision) : Distribution :=
  fold_left
    (fun distribution d =>
       match priority (recommendation d) with
       | LOW =>
           {| n_LOW := S (n_LOW distribution); n_MEDIUM := n_MEDIUM distribution;
              n_HIGH := n_HIGH distribution; n_CRITICAL := n_CRITICAL distribution |}
       | MEDIUM =>
           {| n_LOW := n_LOW distribution; n_MEDIUM := S (n_MEDIUM distribution);
              n_HIGH := n_HIGH distribution; n_CRITICAL := n_CRITICAL distribution |}
       | HIGH =>
           {| n_LOW := n_LOW distribution; n_MEDIUM := n_MEDIUM distribution;
              n_HIGH := S (n_HIGH distribution); n_CRITICAL := n_CRITICAL distribution |}
       | CRITICAL =>
           {| n_LOW := n_LOW distribution; n_MEDIUM := n_MEDIUM distribution;
              n_HIGH := n_HIGH distribution; n_CRITICAL := S (n_CRITICAL distribution) |}
       end)
    decisions
    {| n_LOW := 0; n_MEDIUM := 0; n_HIGH := 0; n_CRITICAL := 0 |}.

(** [riskDistribution] is [None] for the empty object [{}]. *)
Record RiskMetrics := {
  metrics_totalDecisions : nat;
  averageConfidence : Q;
  riskDistribution : option Distribution;
  averageExecutionTime : Q
}.

Definition calculateAgentRiskMetrics (decisions : list AgentDecision) : RiskMetrics :=
  let completedDecisions :=
    filter (fun d => decision_status d = COMPLETED) decisions in
  if bool_decide (length completedDecisions = 0%nat) then
    {| metrics_totalDecisions := 0; averageConfidence := 0;
       riskDistribution := None;
       averageExecutionTime := 0 |}
  else
    {| metrics_totalDecisions := length completedDecisions;
       averageConfidence :=
         fold_left (fun sum d => sum + confidence d) completedDecisions 0
         / inject_Z (Z.of_nat (length completedDecisions));
       riskDistribution := Some (calculateRiskDistribution completedDecisions);
       averageExecutionTime :=
         fold_left
           (fun sum d =>
              sum + match executionDetails d with
                    | Some e =>
                        default 0 (truthy (Some (inject_Z (executionTime e))))
                    | None => 0
                    end)
           (filter (fun d => is_Some (executionDetails d)) completedDecisions) 0
         / inject_Z (Z.of_nat (length completedDecisions)) |}.

Record AgentReport := {
  report_performance : AgentPerformance;
  recentDecisions : list AgentDecision;
  riskMetrics : RiskMetrics;
  report_alerts : list Alert
}.

(** [getAgentPerformance]; [None] is [null]. *)
Definition getAgentPerformance
    (agentId : string) (m : Monitor PortfolioAgent.Agent) : option AgentReport :=
  match map_get agentId (agents m) with
  | None => None
  | Some agent =>
      let state := PortfolioAgent.state agent in
      let decisions := PortfolioAgent.getDecisionHistory agent in
      Some {| report_performance := performance state;
              recentDecisions := PortfolioAgent.slice_last 10 decisions;
              riskMetrics := calculateAgentRiskMetrics decisions;
              report_alerts :=
                filter (fun a => acknowledged a = false) (alerts state) |}
  end.

End Supervisor.

(** ** The rest of the executor: [src/services/TradeExecutor.ts] *)

Module OrderDesk.
Import TradeExecutor.



(** [executeBatchTrades]: [Promise.all] over one [executeTrade] per order;
    [inp i] feeds the [i]-th of them. *)
Definition executeBatchTrades
    (mockMode : bool) (inp : nat -> PortfolioAgent.TradeInputs)
    (orders : list TradeOrder) : list TradeExecution :=
  imap (fun i order =>
          executeTrade mockMode
            (PortfolioAgent.ti_draws (inp i)) (PortfolioAgent.ti_now (inp i))
            order (PortfolioAgent.ti_tradeId (inp i)))
       orders.

End OrderDesk.

(** ** The reasoning engine: [src/agents/AIReasoningEngine.ts] *)

Module Reasoning.

#[global] Instance Sentiment_eq_dec : EqDecision Sentiment.
Proof. solve_decision. Defined.
#[global] Instance CreditMarkets_eq_dec : EqDecision CreditMarkets.
Proof. solve_decision. Defined.
#[global] Instance InterestRates_eq_dec : EqDecision InterestRates.
Proof. solve_decision. Defined.

Definition assessMarketConditions (marketData : MarketData) : string :=
  let sentiment := marketSentiment marketData in
  let assessments := [] in
  let assessments :=
    if bool_decide (volatility sentiment = V_HIGH)
    then assessments
         ++ ["High market volatility suggests increased caution in trading decisions"]
    else assessments in
  let assessments :=
    if bool_decide (interestRates sentiment = RISING)
    then assessments
         ++ ["Rising interest rate environment may negatively impact bond prices and loan values"]
    else assessments in
  let assessments :=
    if bool_decide (creditMarkets sentiment = WIDENING)
    then assessments
         ++ ["Credit spreads widening indicates increased risk aversion and potential credit stress"]
    else assessments in
  let assessments :=
    if bool_decide (overall sentiment = BEARISH)
    then assessments
         ++ ["Overall bearish sentiment suggests defensive positioning may be appropriate"]
    else assessments in
  let text := PortfolioAgent.join ". " assessments +:+ "." in
  if String.eqb text "" then "Market conditions appear stable for normal operations."
  else text.



End Reasoning.

(** ** Quantities the statements use *)

Module Measure.

(** [recommendation.impact?.riskReduction && riskReduction > 0.2]: the test
    under which [calculateConfidence] adds 0.1. *)
Definition boosted (r : Recommendation) : bool :=
  match truthy (riskReduction (impact r)) with
  | Some rr => Qgtb rr 0.2
  | None => false
  end.

(** The decision record [executeDecision] builds before the autonomy test. *)
Definition draft `{Externals}
    (inp : PortfolioAgent.DecisionInputs) (r : Recommendation)
    (a : PortfolioAgent.Agent) : AgentDecision :=
  {| decision_id := "decision-" +:+ pretty (PortfolioAgent.t_created inp);
     decision_timestamp := PortfolioAgent.t_created inp;
     decisionType := PortfolioAgent.mapRecommendationToDecisionType (rec_type r);
     recommendation := r;
     reasoning := generateReasoning r (currentPortfolio (PortfolioAgent.state a));
     confidence := PortfolioAgent.calculateConfidence r;
     riskAssessment := PortfolioAgent.assessDecisionRisk a r;
     expectedOutcome := PortfolioAgent.calculateExpectedOutcome a r;
     decision_status := PENDING;
     executionDetails := None |}.

(** [actionItem.asset] is set. *)
Definition hasAsset (item : ActionItem) : bool :=
  match item_asset item with
  | Some _ => true
  | None => false
  end.

Definition failed (t : TradeExecution) : bool :=
  bool_decide (trade_status t = T_FAILED).

(** [trade.price * trade.quantity], and sums. *)
Definition cost (t : TradeExecution) : Q := trade_price t * trade_quantity t.

Definition Qsum (l : list Q) : Q := foldr Qplus 0 l.

(** What only the control calls touch: the configuration, the status and
    the timers. *)
Definition control (a : PortfolioAgent.Agent)
    : AgentConfig * AgentStatus * option nat * list (nat * Z) :=
  (PortfolioAgent.config a, status (PortfolioAgent.state a),
   PortfolioAgent.intervalId a, PortfolioAgent.intervals a).

(** The identity, the running success rate, the performance metrics and
    the watchlist of the state. *)
Definition scores (a : PortfolioAgent.Agent)
    : string * Q * AgentPerformance * list Asset :=
  (state_id (PortfolioAgent.state a), successRate (PortfolioAgent.state a),
   performance (PortfolioAgent.state a), watchlist (PortfolioAgent.state a)).

(** An agent that runs no cycle: STOPPED or PAUSED. *)
Definition settled (a : PortfolioAgent.Agent) : Prop :=
  status (PortfolioAgent.state a) = STOPPED \/ status (PortfolioAgent.state a) = PAUSED.

(** The unacknowledged CRITICAL alerts the monitor counts. *)
Definition criticalAlerts (st : AgentState) : list Alert :=
  filter (fun a => severity a = CRITICAL /\ acknowledged a = false) (alerts st).

(** The consecutive failures the monitor counts: those that end the last
    five decisions. *)
Definition recentFailures (decisions : list AgentDecision) : nat :=
  Supervisor.countConsecutiveFailures (PortfolioAgent.slice_last 5 decisions).

(** What no check of a sweep touches: the configuration and the timer of
    the monitor. *)
Definition wiring {A} (m : AgentMonitor.Monitor A)
    : AgentMonitor.MonitoringConfig * option nat * list (nat * Z) :=
  (AgentMonitor.config m, AgentMonitor.intervalId m, AgentMonitor.sweeps m).

Definition allSettled (m : AgentMonitor.Monitor PortfolioAgent.Agent) : Prop :=
  Forall (fun entry => settled (snd entry)) (AgentMonitor.agents m).

(** A sweep in which a shutdown has begun has its rest waiting and every
    agent settled. *)
Definition safe (sw : Supervisor.Sweep) : Prop :=
  AgentMonitor.emergencyShutdownActive (Supervisor.monitor sw) = true ->
  Supervisor.suspended sw = true /\ allSettled (Supervisor.monitor sw).

(** The trigger is breached by the agent as [monitorAgent] reads it. *)
Definition breaches `{Externals}
    (now : Z) (agent : PortfolioAgent.Agent) (trigger : AgentMonitor.ShutdownTrigger)
    : bool :=
  Supervisor.thresholdBreached now (PortfolioAgent.state agent)
    (PortfolioAgent.getDecisionHistory agent) trigger.

(** The reason [checkShutdownTriggers] gives for a shutdown. *)
Definition shutdownReason `{Externals}
    (now : Z) (agent : PortfolioAgent.Agent) (trigger : AgentMonitor.ShutdownTrigger)
    : string :=
  AgentMonitor.trigger_description trigger +:+ ": "
  +:+ numberToString
        (Supervisor.triggerValue now (PortfolioAgent.state agent)
           (PortfolioAgent.getDecisionHistory agent) trigger)
  +:+ " (threshold: " +:+ numberToString (AgentMonitor.threshold trigger) +:+ ")".

(** The number of decisions of a priority. *)
Definition prioritised (p : Level) (decisions : list AgentDecision) : nat :=
  length (filter (fun d => priority (recommendation d) = p) decisions).

End Measure.

(** ** Scenarios for the examples *)

Module Scenario.

(** A runtime like [Sample.utc] whose analysis reports a value at risk of
    600000 and whose advisor recommends one CRITICAL sale. *)
Definition advisor : Externals :=
  {| getHours := @getHours Sample.utc;
     getDay := @getDay Sample.utc;
     toDateString := @toDateString Sample.utc;
     toISOString := @toISOString Sample.utc;
     parseInt := @parseInt Sample.utc;
     toFixed := @toFixed Sample.utc;
     numberToString := @numberToString Sample.utc;
     generateReasoning := @generateReasoning Sample.utc;
     analyzePortfolio :=
       fun p => {| analysed := p; valueAtRisk := 600000; singleAssetMax := 0 |};
     generateRecommendations := fun _ => [Sample.recommend 1] |}.

(** The sample configuration in simulation mode. *)
Definition simulated : AgentConfig :=
  let cfg := Sample.configuration true FULL_AUTO 10 100 in
  {| config_id := config_id cfg; config_name := config_name cfg;
     enabled := enabled cfg; riskLimits := riskLimits cfg;
     tradingLimits := tradingLimits cfg;
     decisionThresholds := decisionThresholds cfg;
     autonomyLevel := autonomyLevel cfg;
     marketDataSources := marketDataSources cfg;
     executionSettings :=
       {| exec_slippageTolerance := 0.01; executionTimeframe := 60;
          exec_orderType := MARKET; confirmationRequired := false;
          simulationMode := true |} |}.

(** A routine recommendation: LOW, not a hedge, without risk reduction. *)
Definition routine : Recommendation :=
  {| rec_id := "rec-2"; rec_type := REBALANCE; priority := LOW;
     title := "Rebalance"; description := "Drift from the target weights";
     rec_reasoning := "Weights have drifted";
     actionItems := [Sample.sell_item];
     impact :=
       {| riskReduction := None; yieldImprovement := None;
          diversificationImprovement := None; estimatedCost := None;
          timeframe := "1 week" |} |}.

(** Inputs of a decision made at time [t], every trade of which fails. *)
Definition failing (t : Z) : PortfolioAgent.DecisionInputs :=
  {| PortfolioAgent.t_created := t;
     PortfolioAgent.t_execStart := t;
     PortfolioAgent.tradeInputs :=
       fun k =>
         {| PortfolioAgent.ti_tradeId := "trade-" +:+ pretty k;
            PortfolioAgent.ti_draws := Sample.failing_draws;
            PortfolioAgent.ti_now := t |};
     PortfolioAgent.t_execEnd := (t + 1000)%Z;
     PortfolioAgent.t_recorded := (t + 1000)%Z |}.

(** A cycle at time [t] whose market data fetch gives [data]. *)
Definition cycle (data : MarketData + string) (t : Z) : PortfolioAgent.CycleInputs :=
  {| PortfolioAgent.marketData_result := data;
     PortfolioAgent.gate_time := fun _ => t;
     PortfolioAgent.decision_inputs := fun _ => Sample.inputs t;
     PortfolioAgent.risk_time := t;
     PortfolioAgent.hedge_inputs := Sample.inputs t;
     PortfolioAgent.error_time := t |}.

(** The calm market of the samples, with HIGH volatility. *)
Definition stormy : MarketData :=
  {| md_timestamp := Sample.monday_14h; prices := ∅; yields := ∅;
     creditSpreads := ∅; volatilities := ∅; liquidityScores := ∅;
     marketSentiment :=
       {| overall := NEUTRAL; creditMarkets := CM_STABLE;
          interestRates := IR_STABLE; volatility := V_HIGH |} |}.

(** A new agent under FULL_AUTO, and the same agent started. *)
Definition fresh : PortfolioAgent.Agent :=
  PortfolioAgent.constructor 0 (Sample.configuration true FULL_AUTO 10 100)
    Sample.portfolio.

Definition running : PortfolioAgent.Agent := PortfolioAgent.start 1 fresh.

(** A started agent in simulation mode. *)
Definition rehearsing : PortfolioAgent.Agent :=
  PortfolioAgent.start 1 (PortfolioAgent.constructor 0 simulated Sample.portfolio).

(** An agent three decisions of which FAILED in a row on Monday morning. *)
Definition failed_thrice : PortfolioAgent.Agent :=
  @PortfolioAgent.run Sample.utc
    [PortfolioAgent.Start 1;
     PortfolioAgent.ExecuteDecision (failing Sample.monday_10h) (Sample.recommend 1);
     PortfolioAgent.ExecuteDecision (failing (Sample.monday_10h + 60000))
       (Sample.recommend 1);
     PortfolioAgent.ExecuteDecision (failing (Sample.monday_10h + 120000))
       (Sample.recommend 1)]
    fresh.

(** An agent whose alert log holds 100 alerts. *)
Definition flooded : PortfolioAgent.Agent :=
  PortfolioAgent.set_state
    (PortfolioAgent.set_alerts (replicate 100 Sample.unacknowledged)
       (PortfolioAgent.state fresh))
    fresh.

(** A decision of a given status. *)
Definition outcome (st : DecisionStatus) : AgentDecision :=
  {| decision_id := "decision-1"; decision_timestamp := Sample.monday_10h;
     decisionType := RISK_MITIGATION; recommendation := Sample.recommend 1;
     reasoning := "Single asset weight above the limit"; confidence := 1;
     riskAssessment := "Low risk";
     expectedOutcome :=
       {| out_riskReduction := Some 0.3; out_yieldImprovement := None;
          liquidityImprovement := None; costEstimate := 0;
          out_timeframe := "1 day" |};
     decision_status := st; executionDetails := None |}.

(** Shutdown triggers on the day's loss and on the success rate. *)
Definition loss_trigger (limit : Q) : AgentMonitor.ShutdownTrigger :=
  {| AgentMonitor.condition := "daily_loss"; AgentMonitor.threshold := limit;
     AgentMonitor.trigger_description := "Daily loss limit exceeded" |}.

Definition rate_trigger (floor : Q) : AgentMonitor.ShutdownTrigger :=
  {| AgentMonitor.condition := "success_rate"; AgentMonitor.threshold := floor;
     AgentMonitor.trigger_description := "Success rate too low" |}.

(** The sample monitoring configuration with shutdown triggers. *)
Definition guarded (triggers : list AgentMonitor.ShutdownTrigger)
    : AgentMonitor.MonitoringConfig :=
  {| AgentMonitor.checkInterval := 30000;
     AgentMonitor.alertThresholds :=
       AgentMonitor.alertThresholds Sample.monitoring;
     AgentMonitor.emergencyContacts :=
       AgentMonitor.emergencyContacts Sample.monitoring;
     AgentMonitor.autoShutdownTriggers := triggers |}.

(** A started monitor of one agent. *)
Definition watch (cfg : AgentMonitor.MonitoringConfig) (agent : PortfolioAgent.Agent)
    : AgentMonitor.Monitor PortfolioAgent.Agent :=
  AgentMonitor.startMonitoring
    (AgentMonitor.registerAgent agent (AgentMonitor.constructor cfg)).

(** The beginning of a sweep. *)
Definition sweep (m : AgentMonitor.Monitor PortfolioAgent.Agent) : Supervisor.Sweep :=
  {| Supervisor.monitor := m; Supervisor.diagnostics := [];
     Supervisor.suspended := false |}.

(** The agent [running] with its portfolio's one asset as the object at
    address 0. *)
Definition shared : Objects.World :=
  {| Objects.memory := fun _ => Sample.large_stock;
     Objects.holdings := [0%nat];
     Objects.ledger := [];
     Objects.self := running |}.

(** What the rebalancing engine recommends when the largest asset of the
    portfolio, here the object at 0, weighs more than 20%
    ([generateConcentrationRecommendations]): the action item refers to
    that asset. *)
Definition concentration : Objects.RecommendationRef :=
  {| Objects.rr_id := "single-asset-concentration-" +:+ pretty Sample.monday_10h;
     Objects.rr_type := REDUCE_CONCENTRATION;
     Objects.rr_priority := HIGH;
     Objects.rr_title := "Single Asset Concentration Risk";
     Objects.rr_description := "Largest single asset represents 100.0% of portfolio";
     Objects.rr_reasoning :=
       "Single asset positions >20% create concentration risk and reduce diversification benefits";
     Objects.rr_actionItems :=
       [ {| Objects.ir_asset := Some 0%nat; Objects.ir_assetType := None;
            Objects.ir_action := A_REDUCE; Objects.ir_quantity := None;
            Objects.ir_percentage := None; Objects.ir_targetWeight := Some 0.15;
            Objects.ir_rationale :=
              "Reduce XYZ Corp position from 100.0% to 15% to reduce concentration risk" |} ];
     Objects.rr_impact :=
       {| riskReduction := Some 0.25; yieldImprovement := None;
          diversificationImprovement := Some 0.35; estimatedCost := None;
          timeframe := "1-2 weeks" |} |}.

(** The calm market with the asset quoted at 200. *)
Definition repriced : MarketData :=
  {| md_timestamp := Sample.monday_14h; prices := {[ "XYZ" := 200 ]};
     yields := ∅; creditSpreads := ∅; volatilities := ∅; liquidityScores := ∅;
     marketSentiment := marketSentiment Sample.calm |}.

(** The agent after the cycle of Monday 10:00, in which the engine
    recommends [concentration], and after the cycle of 14:00, in which the
    asset is quoted at 200 and nothing is recommended. *)
Definition sold : Objects.World :=
  @Objects.perform Sample.utc
    (Objects.ExecutionCycle (cycle (inl Sample.calm) Sample.monday_10h) [concentration])
    shared.

Definition revalued : Objects.World :=
  @Objects.perform Sample.utc
    (Objects.ExecutionCycle (cycle (inl repriced) Sample.monday_14h) []) sold.

End Scenario.

(** * Properties *)

(** ** Numbers *)

Lemma Qltb_lt a b : Qltb a b = true <-> a < b.
Proof.
  unfold Qltb. rewrite negb_true_iff, <- not_true_iff_false, Qle_bool_iff.
  split; [apply Qnot_le_lt | apply Qlt_not_le].
Qed.

Lemma Qltb_ge a b : Qltb a b = false <-> b <= a.
Proof. unfold Qltb. rewrite negb_false_iff. apply Qle_bool_iff. Qed.

Lemma Qgtb_gt a b : Qgtb a b = true <-> b < a.
Proof. apply Qltb_lt. Qed.

Lemma Qgtb_le a b : Qgtb a b = false <-> a <= b.
Proof. apply Qltb_ge. Qed.

Lemma Math_floor_le x : Math_floor x <= x.
Proof. apply Qfloor_le. Qed.

Lemma Math_floor_gt x : x - 1 < Math_floor x.
Proof.
  unfold Math_floor. pose proof (Qlt_floor x) as H.
  rewrite inject_Z_plus in H. change (inject_Z 1) with 1 in H. lra.
Qed.

Lemma Math_round_le x : Math_round x <= x + 0.5.
Proof. apply Math_floor_le. Qed.

Lemma Math_round_gt x : x - 0.5 < Math_round x.
Proof. pose proof (Math_floor_gt (x + 0.5)) as H. unfold Math_round, Math_floor in *. lra. Qed.

(** An integer is its own rounding. *)
Lemma Math_round_integer (n : Z) x : x == inject_Z n -> Math_round x = inject_Z n.
Proof.
  intros Hx. unfold Math_round. f_equal.
  transitivity (Qfloor (inject_Z n + 0.5)).
  - apply Qfloor_comp. apply Qplus_comp; [exact Hx | reflexivity].
  - unfold Qfloor, Qplus, inject_Z. cbn [Qnum Qden].
    change (Z.pos (1 * 10)) with 10%Z.
    symmetry. apply (Z.div_unique _ _ n 5); lia.
Qed.

Lemma Math_round_mono x y : x <= y -> Math_round x <= Math_round y.
Proof.
  intros Hxy. unfold Math_round. rewrite <- Zle_Qle.
  apply Qfloor_resp_le. lra.
Qed.

(** *** binary64 rounding

    Rounding is monotone, maps equal rationals to equal rationals, and
    loses at most half a unit in the last place. *)


Lemma round_even_comp t u : t == u -> round_even t = round_even u.
Proof.
  intros Heq. unfold round_even. cbv zeta.
  rewrite (Qfloor_comp _ _ Heq).
  assert (Hc : Qcompare (t - inject_Z (Qfloor u)) (1 # 2)
               = Qcompare (u - inject_Z (Qfloor u)) (1 # 2)).
  { apply Qcompare_comp; [| reflexivity]. rewrite Heq. reflexivity. }
  rewrite Hc. reflexivity.
Qed.


Lemma round_even_integer n : round_even (inject_Z n) = n.
Proof.
  unfold round_even. cbv zeta. rewrite Qfloor_Z.
  assert (Hc : Qcompare (inject_Z n - inject_Z n) (1 # 2) = Lt).
  { apply Qlt_alt. unfold Qminus. rewrite Qplus_opp_r. reflexivity. }
  rewrite Hc. reflexivity.
Qed.


Lemma pow2_pos e : 0 < pow2 e.
Proof. apply Qpower_0_lt. reflexivity. Qed.

Lemma pow2_add a b : pow2 (a + b) == pow2 a * pow2 b.
Proof. apply Qpower_plus. discriminate. Qed.


Lemma pow2_lt_inv a b : pow2 a < pow2 b -> (a < b)%Z.
Proof. intros Hlt. eapply Qpower_lt_compat_l_inv; [exact Hlt | reflexivity]. Qed.

Lemma pow2_inject n : (0 <= n)%Z -> inject_Z (2 ^ n) == pow2 n.
Proof. intros Hn. apply (Zpower_Qpower 2 n Hn). Qed.

(** [ilog2 x] is the integer part of the binary logarithm of [x]. *)
Lemma ilog2_spec x : 0 < x -> pow2 (ilog2 x) <= x /\ x < pow2 (ilog2 x + 1).
Proof.
  intros Hx. unfold ilog2. cbv zeta.
  destruct x as [n d]. cbn [Qnum Qden].
  assert (Hn : (0 < n)%Z).
  { unfold Qlt in Hx. cbn in Hx. lia. }
  pose proof (Z.log2_spec n Hn) as [Hn0 Hn1].
  pose proof (Z.log2_spec (Z.pos d) ltac:(lia)) as [Hd0 Hd1].
  pose proof (Z.log2_nonneg n) as Ha. pose proof (Z.log2_nonneg (Z.pos d)) as Hb.
  set (a := Z.log2 n) in *. set (b := Z.log2 (Z.pos d)) in *.
  assert (Hvalue : (n # d) == inject_Z n / inject_Z (Z.pos d)) by apply Qmake_Qdiv.
  assert (Hdpos : 0 < inject_Z (Z.pos d)) by reflexivity.
  rewrite Zle_Qle in Hn0, Hd0. rewrite Zlt_Qlt in Hn1, Hd1.
  rewrite pow2_inject in Hn0, Hd0, Hn1, Hd1 by lia.
  unfold Z.succ in *.
  set (N := inject_Z n) in *. set (D := inject_Z (Z.pos d)) in *.
  assert (Hlow : pow2 (a - b - 1) <= (n # d)).
  { rewrite Hvalue. apply Qle_shift_div_l; [exact Hdpos |].
    apply Qle_trans with (pow2 (a - b - 1) * pow2 (b + 1)).
    - apply Qmult_le_l; [apply pow2_pos | apply Qlt_le_weak; exact Hd1].
    - rewrite <- pow2_add. replace (a - b - 1 + (b + 1))%Z with a by lia. exact Hn0. }
  assert (Hup : (n # d) < pow2 (a - b + 1)).
  { rewrite Hvalue. apply Qlt_shift_div_r; [exact Hdpos |].
    apply Qlt_le_trans with (pow2 (a + 1)); [exact Hn1 |].
    apply Qle_trans with (pow2 (a - b + 1) * pow2 b).
    - rewrite <- pow2_add. replace (a - b + 1 + b)%Z with (a + 1)%Z by lia.
      apply Qle_refl.
    - apply Qmult_le_l; [apply pow2_pos | exact Hd0]. }
  destruct (Qle_bool (pow2 (a - b)) (n # d)) eqn:Hcase.
  - apply Qle_bool_iff in Hcase. split; [exact Hcase | exact Hup].
  - split; [exact Hlow |].
    replace (a - b - 1 + 1)%Z with (a - b)%Z by lia.
    apply Qnot_le_lt. intros Hle. apply Qle_bool_iff in Hle. congruence.
Qed.

Lemma ilog2_unique x k :
  pow2 k <= x -> x < pow2 (k + 1) -> ilog2 x = k.
Proof.
  intros Hlow Hup.
  assert (Hx : 0 < x) by (eapply Qlt_le_trans; [apply (pow2_pos k) | exact Hlow]).
  destruct (ilog2_spec x Hx) as [Hlow' Hup'].
  assert (H1 : (k < ilog2 x + 1)%Z)
    by (apply pow2_lt_inv; eapply Qle_lt_trans; eassumption).
  assert (H2 : (ilog2 x < k + 1)%Z)
    by (apply pow2_lt_inv; eapply Qle_lt_trans; eassumption).
  lia.
Qed.

Lemma ilog2_comp x y : 0 < x -> x == y -> ilog2 x = ilog2 y.
Proof.
  intros Hx Heq. destruct (ilog2_spec x Hx) as [Hlow Hup].
  symmetry. apply ilog2_unique; rewrite <- Heq; assumption.
Qed.


Lemma nearest_zero x : x == 0 -> nearest x == 0.
Proof.
  intros Hx. unfold nearest. cbv zeta.
  generalize (pow2 (Z.max (-1074) (ilog2 x - 52))). intros p.
  rewrite (round_even_comp (x / p) (inject_Z 0));
    [rewrite round_even_integer; apply Qmult_0_l |].
  rewrite Hx. unfold Qdiv. apply Qmult_0_l.
Qed.




Lemma nearest_comp x y : 0 <= x -> x == y -> nearest x == nearest y.
Proof.
  intros Hx Heq. destruct (Qlt_le_dec 0 x) as [Hpos | Hzero].
  - unfold nearest. cbv zeta. rewrite (ilog2_comp x y Hpos Heq).
    rewrite (round_even_comp (x / pow2 _) (y / pow2 (Z.max (-1074) (ilog2 y - 52))));
      [reflexivity |].
    rewrite Heq. reflexivity.
  - rewrite (nearest_zero x) by lra. rewrite (nearest_zero y) by lra. reflexivity.
Qed.

Lemma binary64_comp : Proper (Qeq ==> Qeq) binary64.
Proof.
  intros x y Heq. unfold binary64.
  assert (Hsign : Qle_bool 0 x = Qle_bool 0 y).
  { destruct (Qle_bool 0 x) eqn:Hx, (Qle_bool 0 y) eqn:Hy; try reflexivity.
    - apply Qle_bool_iff in Hx. rewrite Heq in Hx. apply Qle_bool_iff in Hx. congruence.
    - apply Qle_bool_iff in Hy. rewrite <- Heq in Hy. apply Qle_bool_iff in Hy. congruence. }
  rewrite Hsign. destruct (Qle_bool 0 y) eqn:Hy.
  - apply nearest_comp; [| exact Heq]. rewrite Heq. apply Qle_bool_iff. exact Hy.
  - apply Qopp_comp. apply nearest_comp; [| rewrite Heq; reflexivity].
    apply not_true_iff_false in Hy. rewrite Heq.
    destruct (Qlt_le_dec y 0) as [Hneg | Hnn]; [lra |].
    exfalso. apply Hy, Qle_bool_iff, Hnn.
Qed.

#[local] Existing Instance binary64_comp.




(** ** The trade execution simulator *)

Section TradeExecutorFacts.
Import TradeExecutor.

(** A failed execution does not depend on the size of the order: it is
    decided by the second draw alone, and fails for a draw of at most 0.05. *)
Lemma executionSuccess_false d : executionSuccess d = false <-> r_success d <= 0.05.
Proof. unfold executionSuccess. apply Qgtb_le. Qed.

(** C5 (as amended): when the simulated execution fails, the returned
    execution has status FAILED and price 0, and its quantity is the
    quantity the order asked for. *)
Theorem simulateTradeExecution_failure d now order tradeId :
  executionSuccess d = false ->
  trade_status (simulateTradeExecution d now order tradeId) = T_FAILED
  /\ trade_price (simulateTradeExecution d now order tradeId) = 0
  /\ trade_quantity (simulateTradeExecution d now order tradeId) = quantity order.
Proof.
  intros Hfail. unfold simulateTradeExecution. rewrite Hfail. simpl. auto.
Qed.

Lemma simulateTradeExecution_failure_witness :
  executionSuccess Sample.failing_draws = false
  /\ trade_status
       (simulateTradeExecution Sample.failing_draws 0
          (Sample.market_order Sample.stock 10) "trade-0")
     = T_FAILED
  /\ trade_price
       (simulateTradeExecution Sample.failing_draws 0
          (Sample.market_order Sample.stock 10) "trade-0")
     = 0
  /\ trade_quantity
       (simulateTradeExecution Sample.failing_draws 0
          (Sample.market_order Sample.stock 10) "trade-0")
     = quantity (Sample.market_order Sample.stock 10).
Proof.
  split; [reflexivity |].
  exact (simulateTradeExecution_failure Sample.failing_draws 0
           (Sample.market_order Sample.stock 10) "trade-0" eq_refl).
Defined.

(** C5 (as stated) fails: a failed execution of an order for 10 units
    reports quantity 10, not 0. *)
Lemma simulateTradeExecution_failure_quantity_counterexample :
  executionSuccess Sample.failing_draws = false
  /\ trade_status
       (simulateTradeExecution Sample.failing_draws 0
          (Sample.market_order Sample.stock 10) "trade-0")
     = T_FAILED
  /\ trade_quantity
       (simulateTradeExecution Sample.failing_draws 0
          (Sample.market_order Sample.stock 10) "trade-0")
     = 10
  /\ ~ trade_quantity
         (simulateTradeExecution Sample.failing_draws 0
            (Sample.market_order Sample.stock 10) "trade-0")
       == 0.
Proof. repeat split; try reflexivity. intros H. discriminate H. Qed.

Lemma calculateExecutionPrice_rounds order marketImpact slippage :
  calculateExecutionPrice order marketImpact slippage
  = Math_round (clampedPrice order marketImpact slippage * 10000) / 10000.
Proof. reflexivity. Qed.

(** Before the rounding the clamp holds. *)
Lemma clampedPrice_within_limit order marketImpact slippage limit :
  orderType order = LIMIT ->
  truthy (limitPrice order) = Some limit ->
  match action order with
  | BUY => clampedPrice order marketImpact slippage <= limit
  | SELL => limit <= clampedPrice order marketImpact slippage
  end.
Proof.
  intros Htype Hlimit. unfold clampedPrice. rewrite Htype, Hlimit.
  destruct (action order); [apply Q.le_min_r | apply Q.le_max_r].
Qed.

(** After the rounding the price is within half a unit of the fourth
    decimal place of the limit. *)
Lemma calculateExecutionPrice_near_limit order marketImpact slippage limit :
  orderType order = LIMIT ->
  truthy (limitPrice order) = Some limit ->
  match action order with
  | BUY => calculateExecutionPrice order marketImpact slippage <= limit + 0.00005
  | SELL => limit - 0.00005 < calculateExecutionPrice order marketImpact slippage
  end.
Proof.
  intros Htype Hlimit.
  pose proof (clampedPrice_within_limit order marketImpact slippage limit Htype Hlimit) as Hc.
  rewrite calculateExecutionPrice_rounds.
  pose proof (Math_round_le (clampedPrice order marketImpact slippage * 10000)) as Hle.
  pose proof (Math_round_gt (clampedPrice order marketImpact slippage * 10000)) as Hgt.
  set (c := clampedPrice order marketImpact slippage) in *.
  set (r := Math_round (c * 10000)) in *.
  unfold Qdiv. change (/ 10000) with (1 # 10000).
  destruct (action order); lra.
Qed.

(** A limit price of at most four decimal places is never crossed. *)
Lemma calculateExecutionPrice_limit_on_grid order marketImpact slippage limit n :
  orderType order = LIMIT ->
  truthy (limitPrice order) = Some limit ->
  limit * 10000 == inject_Z n ->
  match action order with
  | BUY => calculateExecutionPrice order marketImpact slippage <= limit
  | SELL => limit <= calculateExecutionPrice order marketImpact slippage
  end.
Proof.
  intros Htype Hlimit Hgrid.
  pose proof (clampedPrice_within_limit order marketImpact slippage limit Htype Hlimit) as Hc.
  rewrite calculateExecutionPrice_rounds.
  pose proof (Math_round_integer n (limit * 10000) Hgrid) as Hn.
  set (c := clampedPrice order marketImpact slippage) in *.
  unfold Qdiv. change (/ 10000) with (1 # 10000).
  destruct (action order).
  - assert (Hm : Math_round (c * 10000) <= Math_round (limit * 10000))
      by (apply Math_round_mono; lra).
    rewrite Hn in Hm. lra.
  - assert (Hm : Math_round (limit * 10000) <= Math_round (c * 10000))
      by (apply Math_round_mono; lra).
    rewrite Hn in Hm. lra.
Qed.

(** C7 at two LIMIT orders with a limit price of five decimal places.  A BUY
    at market price 101 with limit 100.00006 is clamped to the limit and then
    rounded up to 100.0001, above the limit; a SELL at market price 99 with
    limit 100.00004 is clamped to the limit and rounded down to 100, below
    it.  Neither execution fails. *)
Theorem limit_price_crossed_by_rounding :
  trade_status
    (simulateTradeExecution (Sample.succeeding_draws 0.5) 0
       (Sample.limit_order BUY 101 100.00006) "trade-0") = T_FILLED
  /\ trade_price
       (simulateTradeExecution (Sample.succeeding_draws 0.5) 0
          (Sample.limit_order BUY 101 100.00006) "trade-0") == 100.0001
  /\ 100.00006
     < trade_price
         (simulateTradeExecution (Sample.succeeding_draws 0.5) 0
            (Sample.limit_order BUY 101 100.00006) "trade-0")
  /\ trade_status
       (simulateTradeExecution (Sample.succeeding_draws 0.5) 0
          (Sample.limit_order SELL 99 100.00004) "trade-0") = T_FILLED
  /\ trade_price
       (simulateTradeExecution (Sample.succeeding_draws 0.5) 0
          (Sample.limit_order SELL 99 100.00004) "trade-0") == 100
  /\ trade_price
       (simulateTradeExecution (Sample.succeeding_draws 0.5) 0
          (Sample.limit_order SELL 99 100.00004) "trade-0")
     < 100.00004.
Proof. repeat split; vm_compute; reflexivity. Qed.




(** Rounding decides the fill.  For 90 units at the draw 0.25 the exact
    product [90 * (0.6 + 0.25 * 0.4)] is 63; in binary64 the rate is just
    under 0.7, the product just under 63, and 62 units are filled.  At the
    greatest draw below 1 the rate rounds to 1 and an order above the
    threshold is FILLED in full. *)
Example calculateExecutedQuantity_rounding :
  calculateExecutedQuantity 0.25 (Sample.market_order Sample.stock 90) == 62
  /\ Math_floor (90 * (0.6 + 0.25 * 0.4)) == 63
  /\ representable (1 - (1 # 2 ^ 53))
  /\ fmul (InBinary64.getEstimatedDailyVolume Sample.large_stock) (binary64 0.1)
     < fmul 1000 (currentPrice Sample.large_stock)
  /\ trade_quantity
       (simulateTradeExecution (Sample.succeeding_draws (1 - (1 # 2 ^ 53))) 0
          (Sample.market_order Sample.large_stock 1000) "trade-0")
     == 1000
  /\ trade_status
       (simulateTradeExecution (Sample.succeeding_draws (1 - (1 # 2 ^ 53))) 0
          (Sample.market_order Sample.large_stock 1000) "trade-0")
     = T_FILLED.
Proof. unfold representable. repeat split; vm_compute; reflexivity. Qed.

End TradeExecutorFacts.

(** ** The agent *)

Section AgentFacts.
Context `{Externals}.
Import PortfolioAgent.

(** *** Alerts *)

Lemma last_slice_last {A} (n : nat) (l : list A) x :
  (0 < n)%nat -> last (slice_last n (l ++ [x])) = Some x.
Proof.
  intros Hn. unfold slice_last.
  rewrite last_lookup, lookup_drop, length_drop, length_app. simpl.
  apply list_lookup_middle. lia.
Qed.

Lemma addAlert_config now sev type msg a :
  config (addAlert now sev type msg a) = config a.
Proof. reflexivity. Qed.

Lemma addAlert_history now sev type msg a :
  decisionHistory (addAlert now sev type msg a) = decisionHistory a.
Proof. reflexivity. Qed.

Lemma addAlert_status now sev type msg a :
  status (state (addAlert now sev type msg a)) = status (state a).
Proof. reflexivity. Qed.

Lemma addAlert_timers now sev type msg a :
  intervalId (addAlert now sev type msg a) = intervalId a
  /\ intervals (addAlert now sev type msg a) = intervals a.
Proof. split; reflexivity. Qed.

(** The alert just added is the last of the log, trimmed or not. *)
Lemma addAlert_last now sev type msg a :
  last (alerts (state (addAlert now sev type msg a)))
  = Some {| alert_id := "alert-" +:+ pretty now; severity := sev;
            alert_type := type; message := msg; alert_timestamp := now;
            acknowledged := false |}.
Proof.
  unfold addAlert, set_state, set_alerts. cbn [state alerts].
  destruct (100 <? _)%nat.
  - apply last_slice_last. lia.
  - apply last_snoc.
Qed.

(** The log never holds more than 100 alerts once it is within the cap. *)
Lemma addAlert_bounded now sev type msg a :
  (length (alerts (state a)) <= 100)%nat ->
  (length (alerts (state (addAlert now sev type msg a))) <= 100)%nat.
Proof.
  intros Hlen. unfold addAlert, set_state, set_alerts. cbn [state alerts].
  destruct (100 <? _)%nat eqn:Hcap.
  - unfold slice_last. rewrite length_drop. lia.
  - apply Nat.ltb_ge in Hcap. exact Hcap.
Qed.

(** *** The state machine *)

Lemma fresh_handle_fresh l : fresh_handle l ∉ map fst l.
Proof.
  assert (Hmax : forall h, h ∈ map fst l -> (h < fresh_handle l)%nat).
  { unfold fresh_handle. induction l as [| [h0 p] l IH]; intros h Hh.
    - inversion Hh.
    - cbn [map fst foldr] in *. apply elem_of_cons in Hh as [-> | Hh].
      + lia.
      + specialize (IH h Hh). lia. }
  intros Hin. specialize (Hmax _ Hin). lia.
Qed.

(** C9 (as amended): with [config.enabled] false, [start()] raises a HIGH
    SYSTEM_ERROR alert and leaves the status and the timers as they are: a
    STOPPED agent stays STOPPED, and an agent that is PAUSED or ACTIVE
    stays PAUSED or ACTIVE.  With [config.enabled] true it takes the agent, whatever its
    status, to ACTIVE and schedules the decision cycle on a new timer of
    period 60000 ms. *)
Theorem start_spec now a :
  (enabled (config a) = false ->
   last (alerts (state (start now a)))
   = Some {| alert_id := "alert-" +:+ pretty now; severity := HIGH;
             alert_type := SYSTEM_ERROR;
             message := "Cannot start agent: configuration disabled";
             alert_timestamp := now; acknowledged := false |}
   /\ status (state (start now a)) = status (state a)
   /\ intervalId (start now a) = intervalId a
   /\ intervals (start now a) = intervals a)
  /\ (enabled (config a) = true ->
      status (state (start now a)) = ACTIVE
      /\ exists h,
           intervalId (start now a) = Some h
           /\ intervals (start now a) = (h, 60000%Z) :: intervals a
           /\ h ∉ map fst (intervals a)).
Proof.
  split.
  - intros Hoff. unfold start. rewrite Hoff. cbn [negb].
    split; [apply addAlert_last |].
    split; [apply addAlert_status |].
    apply addAlert_timers.
  - intros Hon. unfold start. rewrite Hon. cbn [negb].
    unfold setInterval. cbn.
    split; [reflexivity |].
    exists (fresh_handle (intervals a)).
    split; [reflexivity |]. split; [reflexivity |].
    apply fresh_handle_fresh.
Qed.

(** A new agent: disabled it stays STOPPED, enabled it becomes ACTIVE. *)
Lemma start_spec_witness :
  enabled (config (constructor 0 (Sample.configuration false FULL_AUTO 10 100)
                     Sample.portfolio)) = false
  /\ status (state (start 5
               (constructor 0 (Sample.configuration false FULL_AUTO 10 100)
                  Sample.portfolio))) = STOPPED
  /\ enabled (config (constructor 0 (Sample.configuration true FULL_AUTO 10 100)
                        Sample.portfolio)) = true
  /\ status (state (start 5
               (constructor 0 (Sample.configuration true FULL_AUTO 10 100)
                  Sample.portfolio))) = ACTIVE.
Proof.
  split; [reflexivity |].
  split.
  { destruct (proj1 (start_spec 5
                (constructor 0 (Sample.configuration false FULL_AUTO 10 100)
                   Sample.portfolio)) eq_refl) as (_ & Hstatus & _).
    rewrite Hstatus. reflexivity. }
  split; [reflexivity |].
  apply (proj2 (start_spec 5
           (constructor 0 (Sample.configuration true FULL_AUTO 10 100)
              Sample.portfolio))).
  reflexivity.
Defined.

(** C9 (as stated) fails: [start()] with the configuration disabled does
    not leave every agent STOPPED.  [pause()] does not look at
    [config.enabled], so a disabled agent can be PAUSED, and [start()]
    then leaves it PAUSED; an agent that was started and whose
    configuration was disabled afterwards stays ACTIVE, its timer
    running. *)
Lemma start_disabled_counterexample :
  enabled
    (config (pause 2 (constructor 0 (Sample.configuration false FULL_AUTO 10 100)
                        Sample.portfolio)))
  = false
  /\ status
       (state
          (start 3
             (pause 2 (constructor 0 (Sample.configuration false FULL_AUTO 10 100)
                         Sample.portfolio))))
     = PAUSED
  /\ enabled
       (config
          (updateConfig
             {| new_id := None; new_name := None; new_enabled := Some false;
                new_riskLimits := None; new_tradingLimits := None;
                new_decisionThresholds := None; new_autonomyLevel := None;
                new_marketDataSources := None; new_executionSettings := None |}
             (start 1 (constructor 0 (Sample.configuration true FULL_AUTO 10 100)
                         Sample.portfolio))))
     = false
  /\ status
       (state
          (start 3
             (updateConfig
                {| new_id := None; new_name := None; new_enabled := Some false;
                   new_riskLimits := None; new_tradingLimits := None;
                   new_decisionThresholds := None; new_autonomyLevel := None;
                   new_marketDataSources := None; new_executionSettings := None |}
                (start 1 (constructor 0 (Sample.configuration true FULL_AUTO 10 100)
                            Sample.portfolio)))))
     = ACTIVE.
Proof. repeat split; vm_compute; reflexivity. Qed.

(** *** The autonomy policy *)

(** Every branch of the policy that returns [true] requires FULL_AUTO, no
    simulation mode, and a confidence of at least 0.7. *)
Lemma shouldAutoExecute_true cfg d :
  shouldAutoExecute cfg d = true ->
  autonomyLevel cfg = FULL_AUTO
  /\ simulationMode (executionSettings cfg) = false
  /\ 0.7 <= confidence d.
Proof.
  unfold shouldAutoExecute. intros Hyes.
  destruct (simulationMode (executionSettings cfg)) eqn:Hsim.
  { destruct (bool_decide (autonomyLevel cfg = ADVISORY_ONLY)); discriminate. }
  destruct (Qltb (confidence d) 0.7) eqn:Hconf.
  { destruct (bool_decide (autonomyLevel cfg = ADVISORY_ONLY)); discriminate. }
  apply Qltb_ge in Hconf.
  destruct (autonomyLevel cfg); [auto | exfalso | exfalso]; cbn in Hyes;
    repeat match type of Hyes with
           | context [if ?b then _ else _] => destruct b
           end; discriminate.
Qed.

Lemma shouldAutoExecute_not_full_auto cfg d :
  autonomyLevel cfg <> FULL_AUTO -> shouldAutoExecute cfg d = false.
Proof.
  intros Hlevel. apply not_true_iff_false. intros Hyes.
  apply shouldAutoExecute_true in Hyes. tauto.
Qed.

(** *** One decision *)

Lemma executeDecision_config inp r a :
  config (fst (executeDecision inp r a)) = config a.
Proof. reflexivity. Qed.

Lemma executeDecision_history inp r a :
  decisionHistory (fst (executeDecision inp r a))
  = decisionHistory a ++ [snd (executeDecision inp r a)].
Proof. reflexivity. Qed.

Lemma executeDecision_counters inp r a :
  totalDecisions (state (fst (executeDecision inp r a)))
  = (totalDecisions (state a) + 1)%Z
  /\ lastDecision (state (fst (executeDecision inp r a))) = t_recorded inp.
Proof. split; reflexivity. Qed.

(** A decision that is not auto-executed is returned as it was built:
    PENDING, with no execution details. *)
Lemma executeDecision_skipped inp r a :
  autonomyLevel (config a) <> FULL_AUTO ->
  decision_status (snd (executeDecision inp r a)) = PENDING
  /\ executionDetails (snd (executeDecision inp r a)) = None.
Proof.
  intros Hlevel. unfold executeDecision. cbn [snd].
  rewrite shouldAutoExecute_not_full_auto by exact Hlevel.
  split; reflexivity.
Qed.

Lemma decided_pending cfg d :
  autonomyLevel cfg <> FULL_AUTO -> decided cfg d -> decision_status d = PENDING.
Proof.
  intros Hlevel [inp r a Hcfg]. apply executeDecision_skipped. congruence.
Qed.

(** *** Operations and runs *)

Lemma extends_refl a a' :
  config a' = config a -> decisionHistory a' = decisionHistory a -> extends a a'.
Proof.
  intros Hc Hh. split; [exact Hc |]. exists []. rewrite app_nil_r. auto.
Qed.

Lemma extends_trans a b c : extends a b -> extends b c -> extends a c.
Proof.
  intros [Hab (l1 & H1 & F1)] [Hbc (l2 & H2 & F2)].
  split; [congruence |].
  exists (l1 ++ l2). split.
  - rewrite H2, H1. symmetry. apply app_assoc.
  - apply Forall_app. split; [exact F1 |]. rewrite <- Hab. exact F2.
Qed.

Lemma executeDecision_extends inp r a : extends a (fst (executeDecision inp r a)).
Proof.
  split; [reflexivity |].
  exists [snd (executeDecision inp r a)]. split; [reflexivity |].
  constructor; [| constructor]. constructor. reflexivity.
Qed.

Lemma decideAll_extends c marketData candidates :
  forall i a, extends a (decideAll c marketData i candidates a).
Proof.
  induction candidates as [| r rest IH]; intros i a; cbn [decideAll].
  - apply extends_refl; reflexivity.
  - eapply extends_trans; [| apply IH].
    destruct (meetsExecutionCriteria _ _ _ _).
    + apply executeDecision_extends.
    + apply extends_refl; reflexivity.
Qed.

Lemma initiateEmergencyHedging_extends now inp a :
  extends a (initiateEmergencyHedging now inp a).
Proof.
  unfold initiateEmergencyHedging.
  eapply extends_trans; [| apply executeDecision_extends].
  apply extends_refl; reflexivity.
Qed.

Lemma checkRiskLimits_extends now hedge a : extends a (checkRiskLimits now hedge a).
Proof.
  unfold checkRiskLimits. cbv zeta.
  match goal with
  | |- extends a (if ?c then addAlert _ _ _ _ ?x else ?x) =>
      assert (H1 : extends a x); [| destruct c; [| exact H1]]
  end.
  - destruct (Qgtb _ _); [| apply extends_refl; reflexivity].
    destruct (bool_decide _).
    + eapply extends_trans; [| apply initiateEmergencyHedging_extends].
      apply extends_refl; reflexivity.
    + apply extends_refl; reflexivity.
  - eapply extends_trans; [exact H1 |]. apply extends_refl; reflexivity.
Qed.

Lemma executionCycle_extends c a : extends a (executionCycle c a).
Proof.
  unfold executionCycle.
  destruct (negb _); [apply extends_refl; reflexivity |].
  destruct (marketData_result c) as [marketData | msg].
  - eapply extends_trans; [| apply checkRiskLimits_extends].
    eapply extends_trans; [| apply decideAll_extends].
    apply extends_refl; reflexivity.
  - apply extends_refl; reflexivity.
Qed.

(** No operation but [updateConfig] changes the configuration, and every
    operation leaves the recorded decisions in place, adding at the end
    only decisions that [executeDecision] made. *)
Lemma perform_extends op a :
  match op with
  | UpdateConfig _ => decisionHistory (perform op a) = decisionHistory a
  | _ => extends a (perform op a)
  end.
Proof.
  destruct op; cbn [perform].
  - unfold start. destruct (negb _); apply extends_refl; reflexivity.
  - unfold stop. cbv zeta.
    apply extends_refl; rewrite ?addAlert_config, ?addAlert_history;
      destruct (intervalId _); reflexivity.
  - apply extends_refl; reflexivity.
  - apply executeDecision_extends.
  - apply executionCycle_extends.
  - reflexivity.
Qed.

Lemma extends_prefix a a' :
  extends a a' -> decisionHistory a `prefix_of` decisionHistory a'.
Proof. intros [_ (l & Hl & _)]. rewrite Hl. apply prefix_app_r. reflexivity. Qed.

Lemma perform_prefix op a :
  decisionHistory a `prefix_of` decisionHistory (perform op a).
Proof.
  pose proof (perform_extends op a) as Hop.
  destruct op; try (apply extends_prefix; exact Hop).
  rewrite Hop. reflexivity.
Qed.

Lemma run_prefix ops :
  forall a, decisionHistory a `prefix_of` decisionHistory (run ops a).
Proof.
  induction ops as [| op ops IH]; intros a.
  - reflexivity.
  - change (run (op :: ops) a) with (run ops (perform op a)).
    etransitivity; [apply perform_prefix | apply IH].
Qed.

(** While the autonomy level is not FULL_AUTO and no operation changes it,
    every decision a run records is PENDING. *)
Lemma run_pending ops :
  forall a,
    autonomyLevel (config a) <> FULL_AUTO ->
    Forall keeps_autonomy ops ->
    Forall (fun d => decision_status d = PENDING) (decisionHistory a) ->
    autonomyLevel (config (run ops a)) = autonomyLevel (config a)
    /\ Forall (fun d => decision_status d = PENDING) (decisionHistory (run ops a)).
Proof.
  induction ops as [| op ops IH]; intros a Hlevel Hkeep Hpending.
  - auto.
  - change (run (op :: ops) a) with (run ops (perform op a)).
    apply Forall_cons in Hkeep as [Hop Hkeep].
    assert (Hstep : autonomyLevel (config (perform op a)) = autonomyLevel (config a)
                    /\ Forall (fun d => decision_status d = PENDING)
                              (decisionHistory (perform op a))).
    { pose proof (perform_extends op a) as Hext.
      assert (Hadd : extends a (perform op a) ->
                     autonomyLevel (config (perform op a)) = autonomyLevel (config a)
                     /\ Forall (fun d => decision_status d = PENDING)
                               (decisionHistory (perform op a))).
      { intros [Hcfg (l & Hl & Hdecided)]. split; [congruence |].
        rewrite Hl. apply Forall_app. split; [exact Hpending |].
        eapply Forall_impl; [exact Hdecided |].
        intros d Hd. eapply decided_pending; eauto. }
      destruct op; try (apply Hadd; exact Hext).
      cbn in Hop. split; [| rewrite Hext; exact Hpending].
      cbn. rewrite Hop. reflexivity. }
    destruct Hstep as [Hcfg Hhist].
    assert (Hlevel' : autonomyLevel (config (perform op a)) <> FULL_AUTO)
      by (rewrite Hcfg; exact Hlevel).
    destruct (IH (perform op a) Hlevel' Hkeep Hhist) as [Hcfg' Hhist'].
    split; [congruence | exact Hhist'].
Qed.

(** *** The claims on decisions *)

(** C1: under ADVISORY_ONLY the autonomy policy refuses every decision, so
    [executeDecision] returns each decision PENDING and without execution
    details, and every decision in the history of an agent built with that
    configuration is PENDING (never APPROVED, COMPLETED or FAILED), whatever
    operations are run on it, as long as none reconfigures the autonomy
    level. *)
Theorem advisory_only_never_executes cfg :
  autonomyLevel cfg = ADVISORY_ONLY ->
  (forall d, shouldAutoExecute cfg d = false)
  /\ (forall inp r a,
        config a = cfg ->
        decision_status (snd (executeDecision inp r a)) = PENDING
        /\ executionDetails (snd (executeDecision inp r a)) = None)
  /\ (forall now portfolio ops,
        Forall keeps_autonomy ops ->
        Forall (fun d => decision_status d = PENDING)
               (decisionHistory (run ops (constructor now cfg portfolio)))).
Proof.
  intros Hlevel.
  assert (Hnot : autonomyLevel cfg <> FULL_AUTO) by (rewrite Hlevel; discriminate).
  split; [intros d; apply shouldAutoExecute_not_full_auto; exact Hnot |].
  split.
  - intros inp r a <-. apply executeDecision_skipped. exact Hnot.
  - intros now portfolio ops Hkeep.
    destruct (run_pending ops (constructor now cfg portfolio)) as [_ Hpending];
      [exact Hnot | exact Hkeep | constructor | exact Hpending].
Qed.

(** C10: under SEMI_AUTO the autonomy policy refuses every decision,
    whatever its priority and confidence, as it does under ADVISORY_ONLY,
    and [executeDecision] returns each decision PENDING and without
    execution details. *)
Theorem semi_auto_never_executes cfg :
  autonomyLevel cfg = SEMI_AUTO ->
  (forall d, shouldAutoExecute cfg d = false)
  /\ (forall d cfg',
        autonomyLevel cfg' = ADVISORY_ONLY ->
        shouldAutoExecute cfg d = shouldAutoExecute cfg' d)
  /\ (forall inp r a,
        config a = cfg ->
        decision_status (snd (executeDecision inp r a)) = PENDING
        /\ executionDetails (snd (executeDecision inp r a)) = None).
Proof.
  intros Hlevel.
  assert (Hnot : autonomyLevel cfg <> FULL_AUTO) by (rewrite Hlevel; discriminate).
  split; [intros d; apply shouldAutoExecute_not_full_auto; exact Hnot |].
  split.
  - intros d cfg' Hadvisory.
    rewrite !shouldAutoExecute_not_full_auto; [reflexivity | | exact Hnot].
    rewrite Hadvisory. discriminate.
  - intros inp r a <-. apply executeDecision_skipped. exact Hnot.
Qed.

(** *** The eligibility gate *)

Lemma isWithinTradingLimits_true now a :
  isWithinTradingLimits now a = true <->
  count (getTodayTrades now a) < maxTradesPerHour (tradingLimits (config a)) * 24
  /\ count (getHourlyTrades now a) < maxTradesPerHour (tradingLimits (config a)).
Proof.
  unfold isWithinTradingLimits. cbv zeta.
  rewrite andb_true_iff, !Qltb_lt. reflexivity.
Qed.

Lemma meetsExecutionCriteria_true now r marketData a :
  meetsExecutionCriteria now r marketData a = true <->
  isWithinTradingHours now a = true
  /\ isWithinTradingLimits now a = true
  /\ volatility (marketSentiment marketData) <> V_HIGH.
Proof.
  unfold meetsExecutionCriteria, passesRiskChecks, passesMarketConditionChecks.
  destruct (isWithinTradingHours now a), (isWithinTradingLimits now a);
    cbn [negb]; try case_bool_decide; cbn [negb]; intuition congruence.
Qed.

(** C6 (as amended): the gate lets a candidate through only when the
    trades recorded in the last 60 minutes number fewer than
    [maxTradesPerHour] and the trades recorded on the current day number
    fewer than 24 times [maxTradesPerHour]; when either count has reached
    its bound the gate refuses and the candidate is skipped, leaving the
    agent as it was. *)
Theorem trading_limits_gate now r marketData a :
  (meetsExecutionCriteria now r marketData a = true ->
   count (getHourlyTrades now a) < maxTradesPerHour (tradingLimits (config a))
   /\ count (getTodayTrades now a)
      < maxTradesPerHour (tradingLimits (config a)) * 24)
  /\ (maxTradesPerHour (tradingLimits (config a)) <= count (getHourlyTrades now a)
      \/ maxTradesPerHour (tradingLimits (config a)) * 24
         <= count (getTodayTrades now a) ->
      meetsExecutionCriteria now r marketData a = false
      /\ forall c i, gate_time c i = now -> decideAll c marketData i [r] a = a).
Proof.
  split.
  - intros Hgate. apply meetsExecutionCriteria_true in Hgate as (_ & Hlimits & _).
    apply isWithinTradingLimits_true in Hlimits. tauto.
  - intros Hreached.
    assert (Hgate : meetsExecutionCriteria now r marketData a = false).
    { apply not_true_iff_false. intros Hgate.
      apply meetsExecutionCriteria_true in Hgate as (_ & Hlimits & _).
      apply isWithinTradingLimits_true in Hlimits. lra. }
    split; [exact Hgate |].
    intros c i Htime. cbn [decideAll]. rewrite Htime, Hgate. reflexivity.
Qed.

(** The configuration reaches the gate through [maxTradesPerHour] alone. *)
Lemma isWithinTradingLimits_reads_hourly_limit now a a' :
  decisionHistory a' = decisionHistory a ->
  maxTradesPerHour (tradingLimits (config a'))
  = maxTradesPerHour (tradingLimits (config a)) ->
  isWithinTradingLimits now a' = isWithinTradingLimits now a.
Proof.
  intros Hhist Hlimit.
  unfold isWithinTradingLimits, getTodayTrades, getHourlyTrades.
  rewrite Hhist, Hlimit. reflexivity.
Qed.

End AgentFacts.

(** *** The agent at sample inputs *)

Section AgentExamples.
Import PortfolioAgent.
#[local] Existing Instance Sample.utc.

Lemma advisory_only_never_executes_witness :
  autonomyLevel (Sample.configuration true ADVISORY_ONLY 10 100) = ADVISORY_ONLY
  /\ Forall (fun d => decision_status d = PENDING)
       (decisionHistory
          (run [Start 0;
                ExecuteDecision (Sample.inputs Sample.monday_10h) (Sample.recommend 2)]
             (constructor 0 (Sample.configuration true ADVISORY_ONLY 10 100)
                Sample.portfolio))).
Proof.
  split; [reflexivity |].
  apply (advisory_only_never_executes
           (Sample.configuration true ADVISORY_ONLY 10 100) eq_refl).
  repeat constructor.
Defined.

Lemma semi_auto_never_executes_witness :
  autonomyLevel (Sample.configuration true SEMI_AUTO 10 100) = SEMI_AUTO
  /\ decision_status
       (snd (executeDecision (Sample.inputs Sample.monday_10h) (Sample.recommend 2)
               (constructor 0 (Sample.configuration true SEMI_AUTO 10 100)
                  Sample.portfolio)))
     = PENDING.
Proof.
  split; [reflexivity |].
  apply (semi_auto_never_executes
           (Sample.configuration true SEMI_AUTO 10 100) eq_refl).
  reflexivity.
Defined.

(** The same recommendation under FULL_AUTO is executed and COMPLETED, with
    one trade for each of its two action items. *)
Example full_auto_executes :
  decision_status
    (snd (executeDecision (Sample.inputs Sample.monday_10h) (Sample.recommend 2)
            (constructor 0 (Sample.configuration true FULL_AUTO 10 100)
               Sample.portfolio)))
  = COMPLETED
  /\ length
       (tradesOf
          (snd (executeDecision (Sample.inputs Sample.monday_10h) (Sample.recommend 2)
                  (constructor 0 (Sample.configuration true FULL_AUTO 10 100)
                     Sample.portfolio))))
     = 2%nat.
Proof. split; vm_compute; reflexivity. Qed.

Lemma trading_limits_gate_witness :
  meetsExecutionCriteria Sample.monday_14h (Sample.recommend 1) Sample.calm
    (Sample.busy 10 100) = true
  /\ count (getHourlyTrades Sample.monday_14h (Sample.busy 10 100))
     < maxTradesPerHour (tradingLimits (config (Sample.busy 10 100)))
  /\ count (getTodayTrades Sample.monday_14h (Sample.busy 10 100))
     < maxTradesPerHour (tradingLimits (config (Sample.busy 10 100))) * 24.
Proof.
  split; [vm_compute; reflexivity |].
  apply (proj1 (trading_limits_gate Sample.monday_14h (Sample.recommend 1)
                  Sample.calm (Sample.busy 10 100))).
  vm_compute. reflexivity.
Defined.

(** C6 (as stated) fails.  The configuration allows 2 trades per hour and
    carries 3 as its daily limit; three trades were recorded at 10:00 and
    none since.  At 14:00 the day's count has reached the daily limit, yet
    the gate lets the candidate through: it compares the day's count with
    24 times the hourly limit, 48. *)
Lemma trading_limits_gate_counterexample :
  maxTradesPerHour (tradingLimits (config (Sample.busy 2 3))) == 2
  /\ maxDailyTradeVolume (tradingLimits (config (Sample.busy 2 3))) == 3
  /\ count (getHourlyTrades Sample.monday_14h (Sample.busy 2 3)) == 0
  /\ count (getTodayTrades Sample.monday_14h (Sample.busy 2 3)) == 3
  /\ meetsExecutionCriteria Sample.monday_14h (Sample.recommend 1) Sample.calm
       (Sample.busy 2 3) = true.
Proof. repeat split; vm_compute; reflexivity. Qed.

End AgentExamples.

(** ** The monitor *)

Section MonitorFacts.
Context {A : Type} `{AgentMonitor.Stoppable A} `{Externals}.
Import AgentMonitor.

Lemma clearInterval_cleared h l : h ∉ map fst (clearInterval h l).
Proof.
  unfold clearInterval. intros Hin.
  apply list_elem_of_fmap in Hin as ([h' p] & Hfst & Hin).
  apply list_elem_of_filter in Hin as [Hne _]. cbn in *. congruence.
Qed.

Lemma stopOne_entry now (entry : string * A) :
  fst (stopOne now entry) = (fst entry, after (stopAgent now (snd entry))).
Proof. destruct entry as [id agent]. cbn. destruct (stopAgent now agent); reflexivity. Qed.

(** Each registered agent, in registration order, gets one call of
    [stop()], whatever the calls before it did. *)
Lemma stopAll_agents now (m : Monitor A) :
  agents (stopAll now m)
  = map (fun entry => (fst entry, after (stopAgent now (snd entry)))) (agents m).
Proof.
  unfold stopAll. cbn [agents]. rewrite map_map.
  apply map_ext. intros entry. apply stopOne_entry.
Qed.

Lemma stopMonitoring_flag (m : Monitor A) :
  emergencyShutdownActive (stopMonitoring m) = emergencyShutdownActive m.
Proof. unfold stopMonitoring. destruct (intervalId m); reflexivity. Qed.

Lemma stopMonitoring_agents (m : Monitor A) : agents (stopMonitoring m) = agents m.
Proof. unfold stopMonitoring. destruct (intervalId m); reflexivity. Qed.

Lemma stopMonitoring_console (m : Monitor A) :
  console (stopMonitoring m)
  = console m ++ [ConsoleLog "Agent monitoring system stopped"].
Proof. unfold stopMonitoring. destruct (intervalId m); reflexivity. Qed.

Lemma stopMonitoring_intervalId (m : Monitor A) : intervalId (stopMonitoring m) = None.
Proof.
  unfold stopMonitoring. destruct (intervalId m) eqn:Htimer; cbn; [reflexivity | exact Htimer].
Qed.

Lemma emergencyShutdown_active now reason (m : Monitor A) :
  emergencyShutdownActive m = true -> emergencyShutdown now reason m = m.
Proof.
  intros Hactive. unfold emergencyShutdown, emergencyShutdown_begin.
  rewrite Hactive. reflexivity.
Qed.

(** C2 (as amended): a call of [emergencyShutdown] on a monitor whose
    shutdown flag is set changes nothing and writes nothing.  Otherwise it
    sets the flag and calls [stop()] once on every registered agent, in
    order, whether or not an earlier [stop()] threw, writing for each agent
    that it stopped or that stopping it failed.  Its notification is console output and
    nothing else: the message with the reason and the time, once, and then
    for each configured emergency contact, in order, the line
    "Notifying: " followed by the contact.  Last it clears the sweep
    timer; the configuration is untouched.  From then on
    [performMonitoringCycle] does nothing and so does any further
    [emergencyShutdown], also one that arrives while the first is
    suspended at its [await]: the batch is written once. *)
Theorem emergencyShutdown_spec now reason (m : Monitor A) :
  (emergencyShutdownActive m = true -> emergencyShutdown now reason m = m)
  /\ (emergencyShutdownActive m = false ->
      emergencyShutdownActive (emergencyShutdown now reason m) = true
      /\ agents (emergencyShutdown now reason m)
         = map (fun entry => (fst entry, after (stopAgent now (snd entry))))
               (agents m)
      /\ console (emergencyShutdown now reason m)
         = console m
           ++ [ConsoleLog ("EMERGENCY SHUTDOWN INITIATED: " +:+ reason)]
           ++ map (fun entry =>
                     match stopAgent now (snd entry) with
                     | Returned _ =>
                         ConsoleLog ("Agent " +:+ fst entry +:+ " stopped")
                     | Threw _ error =>
                         ConsoleError ("Failed to stop agent " +:+ fst entry +:+ ":")
                                      error
                     end)
                  (agents m)
           ++ [ConsoleLog
                 ("EMERGENCY NOTIFICATION: "
                  +:+ ("EMERGENCY SHUTDOWN: Portfolio Agent System"
                       +:+ String "010" "Reason: " +:+ reason
                       +:+ String "010" "Time: " +:+ toISOString now))]
           ++ map (fun contact => ConsoleLog ("Notifying: " +:+ contact))
                  (emergencyContacts (config m))
           ++ [ConsoleLog "Agent monitoring system stopped"]
      /\ config (emergencyShutdown now reason m) = config m
      /\ intervalId (emergencyShutdown now reason m) = None
      /\ (forall h, intervalId m = Some h ->
                    h ∉ map fst (sweeps (emergencyShutdown now reason m)))
      /\ (forall sweep,
            performMonitoringCycle sweep (emergencyShutdown now reason m)
            = emergencyShutdown now reason m)
      /\ (forall now' reason',
            emergencyShutdown now' reason' (emergencyShutdown now reason m)
            = emergencyShutdown now reason m)
      /\ (exists suspended,
            emergencyShutdown_begin now reason m = Some suspended
            /\ (forall now' reason',
                  emergencyShutdown now' reason' suspended = suspended)
            /\ stopMonitoring suspended = emergencyShutdown now reason m)).
Proof.
  split.
  - intros Hactive. apply emergencyShutdown_active. exact Hactive.
  - intros Hidle.
    assert (Hbegin : emergencyShutdown_begin now reason m
                     = Some (sendEmergencyNotification now reason
                               (stopAll now
                                  (log (ConsoleLog ("EMERGENCY SHUTDOWN INITIATED: "
                                                    +:+ reason))
                                     (raise_flag m))))).
    { unfold emergencyShutdown_begin. rewrite Hidle. reflexivity. }
    unfold emergencyShutdown. rewrite Hbegin.
    split; [rewrite stopMonitoring_flag; reflexivity |].
    split.
    { rewrite stopMonitoring_agents.
      exact (stopAll_agents now
               (log (ConsoleLog ("EMERGENCY SHUTDOWN INITIATED: " +:+ reason))
                  (raise_flag m))). }
    split.
    { rewrite stopMonitoring_console.
      cbn [console sendEmergencyNotification log stopAll config raise_flag].
      rewrite map_map, <- !app_assoc.
      rewrite (map_ext (fun entry => snd (stopOne now entry))
                 (fun entry =>
                    match stopAgent now (snd entry) with
                    | Returned _ =>
                        ConsoleLog ("Agent " +:+ fst entry +:+ " stopped")
                    | Threw _ error =>
                        ConsoleError ("Failed to stop agent " +:+ fst entry +:+ ":")
                                     error
                    end)).
      - reflexivity.
      - intros [id agent]. cbn [fst snd stopOne].
        destruct (stopAgent now agent); reflexivity. }
    split.
    { unfold stopMonitoring.
      destruct (intervalId (sendEmergencyNotification now reason _)); reflexivity. }
    split; [apply stopMonitoring_intervalId |].
    split.
    { intros h Hh. unfold stopMonitoring.
      cbn [intervalId sendEmergencyNotification log stopAll raise_flag].
      rewrite Hh. cbn [sweeps log]. apply clearInterval_cleared. }
    split.
    { intros sweep. unfold performMonitoringCycle.
      rewrite stopMonitoring_flag. reflexivity. }
    split.
    { intros now' reason'. apply emergencyShutdown_active.
      rewrite stopMonitoring_flag. reflexivity. }
    eexists. split; [reflexivity |].
    split; [| reflexivity].
    intros now' reason'. apply emergencyShutdown_active. reflexivity.
Qed.

End MonitorFacts.

(** *** The monitor at sample inputs *)

Section MonitorExamples.
Import AgentMonitor.
#[local] Existing Instance Sample.utc.
#[local] Existing Instance Sample.Probe_Stoppable.

(** The sample monitor of two agents and two contacts: both agents are
    stopped, and the console names each contact once. *)
Lemma emergencyShutdown_spec_witness :
  emergencyShutdownActive Sample.monitor = false
  /\ emergencyShutdownActive (emergencyShutdown 9 "drawdown" Sample.monitor) = true
  /\ map (fun entry => status (PortfolioAgent.state (snd entry)))
         (agents (emergencyShutdown 9 "drawdown" Sample.monitor))
     = [STOPPED; STOPPED]
  /\ console (emergencyShutdown 9 "drawdown" Sample.monitor)
     = console Sample.monitor
       ++ [ ConsoleLog "EMERGENCY SHUTDOWN INITIATED: drawdown";
            ConsoleLog "Agent agent-1 stopped";
            ConsoleLog "Agent agent-2 stopped";
            ConsoleLog
              ("EMERGENCY NOTIFICATION: EMERGENCY SHUTDOWN: Portfolio Agent System"
               +:+ String "010" "Reason: drawdown" +:+ String "010" "Time: 9");
            ConsoleLog "Notifying: ops@example.com";
            ConsoleLog "Notifying: risk@example.com";
            ConsoleLog "Agent monitoring system stopped" ]
  /\ intervalId (emergencyShutdown 9 "drawdown" Sample.monitor) = None.
Proof.
  assert (Hidle : emergencyShutdownActive Sample.monitor = false) by reflexivity.
  destruct (proj2 (emergencyShutdown_spec 9 "drawdown" Sample.monitor) Hidle)
    as (Hflag & Hagents & Hconsole & _ & Htimer & _).
  split; [exact Hidle |]. split; [exact Hflag |].
  split; [rewrite Hagents; vm_compute; reflexivity |].
  split; [rewrite Hconsole; vm_compute; reflexivity | exact Htimer].
Defined.

(** C2 (as stated) fails in one point: no notification is sent.
    [sendEmergencyNotification] builds the message and writes it to the
    console once; for a contact it writes a line that names the contact,
    and the call that would send the message to the contact is commented
    out (AgentMonitor.ts, line 360).  With two contacts configured the
    whole effect of the step is three console lines: agents,
    configuration, flag and timers are as before, and the lines for the
    contacts carry neither the reason nor the time. *)
Lemma emergencyShutdown_notification_counterexample :
  emergencyContacts (config Sample.monitor) = ["ops@example.com"; "risk@example.com"]
  /\ sendEmergencyNotification 9 "drawdown" Sample.monitor
     = {| agents := agents Sample.monitor;
          config := config Sample.monitor;
          intervalId := intervalId Sample.monitor;
          emergencyShutdownActive := emergencyShutdownActive Sample.monitor;
          sweeps := sweeps Sample.monitor;
          console :=
            console Sample.monitor
            ++ [ ConsoleLog
                   ("EMERGENCY NOTIFICATION: EMERGENCY SHUTDOWN: Portfolio Agent System"
                    +:+ String "010" "Reason: drawdown" +:+ String "010" "Time: 9");
                 ConsoleLog "Notifying: ops@example.com";
                 ConsoleLog "Notifying: risk@example.com" ] |}.
Proof. split; vm_compute; reflexivity. Qed.

(** The first agent's [stop()] throws; the second agent is stopped all the
    same, both contacts are notified, and the failure is on the console. *)
Example emergencyShutdown_best_effort :
  agents (emergencyShutdown 9 "drawdown" Sample.probes)
  = [ ("faulty",
       {| Sample.probe_id := "faulty"; Sample.probe_running := true;
          Sample.probe_faulty := true |});
      ("healthy",
       {| Sample.probe_id := "healthy"; Sample.probe_running := false;
          Sample.probe_faulty := false |}) ]
  /\ drop 2 (console (emergencyShutdown 9 "drawdown" Sample.probes))
     = [ ConsoleLog "EMERGENCY SHUTDOWN INITIATED: drawdown";
         ConsoleError "Failed to stop agent faulty:" "stop failed";
         ConsoleLog "Agent healthy stopped";
         ConsoleLog ("EMERGENCY NOTIFICATION: " +:+ emergencyMessage 9 "drawdown");
         ConsoleLog "Notifying: ops@example.com";
         ConsoleLog "Notifying: risk@example.com";
         ConsoleLog "Agent monitoring system stopped" ].
Proof. split; vm_compute; reflexivity. Qed.

End MonitorExamples.

(** ** Object identity *)

Section StoreFacts.
Import Store.

(** Adding an object at an unused reference changes no read. *)
Lemma lookup_insert_unused (h : gmap nat Object) l o k v :
  h !! l = None -> h !! k = Some v -> <[l := o]> h !! k = Some v.
Proof. intros Hl Hk. rewrite lookup_insert_ne; [exact Hk | congruence]. Qed.

Lemma read_alert_frame (h : gmap nat Object) l o k a :
  h !! l = None -> read_alert h k = Some a -> read_alert (<[l := o]> h) k = Some a.
Proof.
  unfold read_alert. intros Hl Hk.
  destruct (h !! k) as [v |] eqn:Hv; [| discriminate].
  rewrite (lookup_insert_unused h l o k v Hl Hv). exact Hk.
Qed.

Lemma read_alerts_frame (h : gmap nat Object) l o k al :
  h !! l = None -> read_alerts h k = Some al -> read_alerts (<[l := o]> h) k = Some al.
Proof.
  unfold read_alerts. intros Hl Hk.
  destruct (h !! k) as [v |] eqn:Hv; [| discriminate].
  rewrite (lookup_insert_unused h l o k v Hl Hv).
  destruct v; try discriminate.
  apply mapM_Some in Hk. apply mapM_Some.
  eapply Forall2_impl; [exact Hk |].
  intros k' a Ha. apply read_alert_frame; assumption.
Qed.

Lemma read_fields_frame (h : gmap nat Object) l o s st :
  h !! l = None -> read_fields h s = Some st -> read_fields (<[l := o]> h) s = Some st.
Proof.
  unfold read_fields. intros Hl Hs.
  apply bind_Some in Hs as (p & Hp & Hs).
  apply bind_Some in Hs as (w & Hw & Hs).
  apply bind_Some in Hs as (al & Hal & Hs).
  apply bind_Some in Hs as (pf & Hpf & Hs).
  assert (Hp' : read_portfolio (<[l := o]> h) (o_currentPortfolio s) = Some p).
  { unfold read_portfolio in *.
    destruct (h !! o_currentPortfolio s) as [v |] eqn:Hv; [| discriminate].
    rewrite (lookup_insert_unused h l o _ v Hl Hv). exact Hp. }
  assert (Hw' : read_watchlist (<[l := o]> h) (o_watchlist s) = Some w).
  { unfold read_watchlist in *.
    destruct (h !! o_watchlist s) as [v |] eqn:Hv; [| discriminate].
    rewrite (lookup_insert_unused h l o _ v Hl Hv). exact Hw. }
  assert (Hpf' : read_performance (<[l := o]> h) (o_performance s) = Some pf).
  { unfold read_performance in *.
    destruct (h !! o_performance s) as [v |] eqn:Hv; [| discriminate].
    rewrite (lookup_insert_unused h l o _ v Hl Hv). exact Hpf. }
  rewrite Hp'. cbn. rewrite Hw'. cbn.
  rewrite (read_alerts_frame h l o _ al Hl Hal). cbn.
  rewrite Hpf'. cbn. exact Hs.
Qed.

(** C4 (as amended): [getState] returns a new object, at a reference the
    store did not use, that holds the field values of the agent's state
    object and so reads as the same state; whatever a caller assigns to
    the fields of that object, the agent's internal state stays as it was.
    The portfolio, watchlist, alert array and performance record are not
    copied: the new object refers to the agent's own. *)
Theorem getState_shallow_copy agent (h : gmap nat Object) st :
  internal_state h agent = Some st ->
  exists s snapshot,
    h !! this_state agent = Some (StateObj s)
    /\ getState agent h = Some (<[snapshot := StateObj s]> h, snapshot)
    /\ h !! snapshot = None
    /\ read_state (<[snapshot := StateObj s]> h) snapshot = Some st
    /\ (forall s',
          internal_state (<[snapshot := StateObj s']> (<[snapshot := StateObj s]> h))
                         agent
          = Some st).
Proof.
  unfold internal_state, read_state. intros Hst.
  destruct (h !! this_state agent) as [v |] eqn:Hv; [| discriminate].
  destruct v as [s | | | | |]; try discriminate.
  assert (Hfresh : h !! fresh (dom h) = None)
    by (apply not_elem_of_dom, is_fresh).
  exists s, (fresh (dom h)).
  split; [reflexivity |].
  split; [unfold getState; rewrite Hv; reflexivity |].
  split; [exact Hfresh |].
  split.
  - rewrite lookup_insert_eq. apply read_fields_frame; assumption.
  - intros s'. rewrite insert_insert_eq.
    rewrite (lookup_insert_unused h _ _ _ _ Hfresh Hv).
    apply read_fields_frame; assumption.
Qed.

Lemma getState_shallow_copy_witness :
  internal_state Sample.store Sample.agent_ref
  = Some {| state_id := "agent-1"; status := ACTIVE; lastDecision := 0;
            totalDecisions := 0; successRate := 0;
            currentPortfolio := Sample.portfolio; watchlist := [];
            alerts := [Sample.unacknowledged];
            performance :=
              {| totalReturn := 0; sharpeRatio := 0; maxDrawdown := 0;
                 winRate := 0; avgDecisionTime := 0; riskAdjustedReturn := 0;
                 benchmarkOutperformance := 0 |} |}
  /\ exists s snapshot,
       getState Sample.agent_ref Sample.store
       = Some (<[snapshot := StateObj s]> Sample.store, snapshot)
       /\ Sample.store !! snapshot = None.
Proof.
  assert (Hst : internal_state Sample.store Sample.agent_ref
                = Some {| state_id := "agent-1"; status := ACTIVE; lastDecision := 0;
                          totalDecisions := 0; successRate := 0;
                          currentPortfolio := Sample.portfolio; watchlist := [];
                          alerts := [Sample.unacknowledged];
                          performance :=
                            {| totalReturn := 0; sharpeRatio := 0; maxDrawdown := 0;
                               winRate := 0; avgDecisionTime := 0;
                               riskAdjustedReturn := 0;
                               benchmarkOutperformance := 0 |} |})
    by (vm_compute; reflexivity).
  split; [exact Hst |].
  destruct (getState_shallow_copy Sample.agent_ref Sample.store _ Hst)
    as (s & snapshot & _ & Hget & Hnew & _).
  exists s, snapshot. split; [exact Hget | exact Hnew].
Defined.

(** C4 (as stated) fails.  The monitor's [acknowledgeAlert] takes the value
    [getState] returns and sets [acknowledged] on an alert it finds in its
    [alerts]; the agent's own alert is acknowledged by it. *)
Lemma getState_snapshot_counterexample :
  alerts <$> internal_state Sample.store Sample.agent_ref
  = Some [Sample.unacknowledged]
  /\ acknowledged Sample.unacknowledged = false
  /\ snd (acknowledgeAlert [("agent-1", Sample.agent_ref)] "agent-1" "alert-7"
            Sample.store) = true
  /\ map acknowledged
       <$> (alerts
              <$> internal_state
                    (fst (acknowledgeAlert [("agent-1", Sample.agent_ref)]
                            "agent-1" "alert-7" Sample.store))
                    Sample.agent_ref)
     = Some [true].
Proof. repeat split; vm_compute; reflexivity. Qed.

End StoreFacts.

(** ** More on the agent *)

Section AgentPolicy.
Context `{Externals}.
Import PortfolioAgent Measure.

(** *** Confidence and the autonomy policy *)

(** X1: the confidence score that [calculateConfidence] gives lies between
    0.6 and 1, whatever the priority and the risk reduction. *)
Theorem calculateConfidence_bounds r :
  0.6 <= calculateConfidence r /\ calculateConfidence r <= 1.
Proof.
  unfold calculateConfidence.
  split; [| eapply Qle_trans; [apply Q.le_min_r | lra]].
  apply Q.min_glb; [| lra].
  destruct (priority r), (truthy _) as [rr |]; try destruct (Qgtb rr 0.2); lra.
Qed.

Lemma calculateConfidence_value r :
  calculateConfidence r
  == (match priority r with
      | CRITICAL => 0.9 | HIGH => 0.8 | MEDIUM => 0.7 | LOW => 0.6
      end) + (if boosted r then 0.1 else 0).
Proof.
  unfold calculateConfidence, boosted.
  destruct (priority r), (truthy _) as [rr |]; try destruct (Qgtb rr 0.2);
    vm_compute; reflexivity.
Qed.

Lemma executeDecision_returns inp r a :
  snd (executeDecision inp r a)
  = if shouldAutoExecute (config a) (draft inp r a)
    then set_outcome
           (if success (executeRecommendation inp (config a) r)
            then COMPLETED else FAILED)
           (Some (executeRecommendation inp (config a) r))
           (draft inp r a)
    else draft inp r a.
Proof. reflexivity. Qed.

(** What the policy decides for the decision [executeDecision] builds,
    under FULL_AUTO and outside simulation mode. *)
Lemma shouldAutoExecute_draft inp r a :
  autonomyLevel (config a) = FULL_AUTO ->
  simulationMode (executionSettings (config a)) = false ->
  shouldAutoExecute (config a) (draft inp r a) = true <->
  priority r = CRITICAL
  \/ (rec_type r = HEDGE /\ (priority r <> LOW \/ boosted r = true))
  \/ (priority r = HIGH /\ boosted r = true).
Proof.
  intros Hlevel Hsim. unfold shouldAutoExecute. rewrite Hlevel, Hsim.
  cbn [draft confidence decisionType recommendation].
  unfold calculateConfidence, boosted.
  destruct (priority r), (rec_type r), (truthy _) as [rr |];
    try destruct (Qgtb rr 0.2); vm_compute;
    intuition (congruence || discriminate).
Qed.

(** X2: under FULL_AUTO and outside simulation mode, [executeDecision]
    executes a recommendation exactly when it is CRITICAL, or a HEDGE that
    is not both LOW and without the risk-reduction bonus, or HIGH with the
    bonus; then the decision carries the execution details and is COMPLETED
    or FAILED, and otherwise it is returned PENDING as built. *)
Theorem auto_execution_policy inp r a :
  autonomyLevel (config a) = FULL_AUTO ->
  simulationMode (executionSettings (config a)) = false ->
  (priority r = CRITICAL
   \/ (rec_type r = HEDGE /\ (priority r <> LOW \/ boosted r = true))
   \/ (priority r = HIGH /\ boosted r = true) ->
   executionDetails (snd (executeDecision inp r a))
   = Some (executeRecommendation inp (config a) r)
   /\ decision_status (snd (executeDecision inp r a))
      = (if success (executeRecommendation inp (config a) r)
         then COMPLETED else FAILED))
  /\ (~ (priority r = CRITICAL
         \/ (rec_type r = HEDGE /\ (priority r <> LOW \/ boosted r = true))
         \/ (priority r = HIGH /\ boosted r = true)) ->
      snd (executeDecision inp r a) = draft inp r a).
Proof.
  intros Hlevel Hsim. rewrite executeDecision_returns.
  pose proof (shouldAutoExecute_draft inp r a Hlevel Hsim) as Hpolicy.
  destruct (shouldAutoExecute (config a) (draft inp r a)).
  - split; [intros _; split; reflexivity |].
    intros Hno. exfalso. apply Hno, Hpolicy. reflexivity.
  - split; [| reflexivity].
    intros Hyes. apply Hpolicy in Hyes. discriminate.
Qed.

(** X3: in simulation mode the policy refuses every decision, whatever the
    autonomy level, and every decision a cycle records is PENDING and
    without execution details. *)
Theorem simulation_mode_never_executes c a :
  simulationMode (executionSettings (config a)) = true ->
  (forall d, shouldAutoExecute (config a) d = false)
  /\ exists l,
       decisionHistory (executionCycle c a) = decisionHistory a ++ l
       /\ Forall (fun d => decision_status d = PENDING /\ executionDetails d = None) l.
Proof.
  intros Hsim.
  assert (Hno : forall d, shouldAutoExecute (config a) d = false).
  { intros d. apply not_true_iff_false. intros Hyes.
    apply shouldAutoExecute_true in Hyes. destruct Hyes as (_ & Hoff & _).
    congruence. }
  split; [exact Hno |].
  destruct (executionCycle_extends c a) as [_ (l & Hl & Hdecided)].
  exists l. split; [exact Hl |].
  eapply Forall_impl; [exact Hdecided |].
  intros d [inp r a' Hcfg]. rewrite executeDecision_returns, Hcfg, Hno.
  split; reflexivity.
Qed.

(** *** Executing a recommendation *)

Lemma executeTrade_asset mock d now order tradeId :
  trade_asset (TradeExecutor.executeTrade mock d now order tradeId)
  = TradeExecutor.asset order.
Proof.
  unfold TradeExecutor.executeTrade, TradeExecutor.simulateTradeExecution.
  destruct mock; [destruct (negb _) |]; reflexivity.
Qed.

Lemma executeItems_accounts cfg inp items :
  forall k trades0 cost0 errors0,
  exists trades1 errors1,
    executeItems cfg inp k items (trades0, cost0, errors0)
    = (trades0 ++ trades1,
       snd (fst (executeItems cfg inp k items (trades0, cost0, errors0))),
       errors0 ++ errors1)
    /\ map trade_asset trades1 = omap item_asset items
    /\ snd (fst (executeItems cfg inp k items (trades0, cost0, errors0)))
       == cost0 + Qsum (map cost trades1)
    /\ length errors1 = length (filter (fun t => failed t = true) trades1).
Proof.
  induction items as [| item items IH]; intros k trades0 cost0 errors0.
  - exists [], []. cbn. rewrite !app_nil_r. repeat split. lra.
  - cbn [executeItems]. destruct (item_asset item) as [asset |] eqn:Hasset.
    + match goal with
      | |- context [executeItems cfg inp (S k) items (?t, ?c, ?e)] =>
          destruct (IH (S k) t c e) as (trades1 & errors1 & Heq & Hassets & Hcost & Herrors)
      end.
      set (trade := TradeExecutor.executeTrade _ _ _ _ _) in *.
      exists (trade :: trades1).
      exists ((if bool_decide (trade_status trade = T_FAILED)
               then ["Failed to execute trade for " +:+ asset_name asset] else [])
              ++ errors1).
      split.
      { rewrite Heq at 1. f_equal; [f_equal |].
        - rewrite <- app_assoc. reflexivity.
        - rewrite app_assoc. f_equal.
          destruct (bool_decide _); [reflexivity | symmetry; apply app_nil_r]. }
      split.
      { change (omap item_asset (item :: items))
          with (match item_asset item with
                | Some x => x :: omap item_asset items
                | None => omap item_asset items
                end).
        rewrite Hasset. cbn [map]. f_equal; [| exact Hassets].
        subst trade. apply executeTrade_asset. }
      split.
      { rewrite Hcost.
        change (Qsum (map cost (trade :: trades1)))
          with (trade_price trade * trade_quantity trade + Qsum (map cost trades1)).
        lra. }
      rewrite length_app, Herrors, filter_cons.
      destruct (bool_decide (trade_status trade = T_FAILED)) eqn:Hf.
      * rewrite decide_True by exact Hf. reflexivity.
      * rewrite decide_False by (unfold failed; rewrite Hf; discriminate).
        reflexivity.
    + destruct (IH k trades0 cost0 errors0)
        as (trades1 & errors1 & Heq & Hassets & Hcost & Herrors).
      exists trades1, errors1. repeat split; try assumption.
      change (omap item_asset (item :: items))
        with (match item_asset item with
              | Some x => x :: omap item_asset items
              | None => omap item_asset items
              end).
      rewrite Hasset. exact Hassets.
Qed.

Lemma no_error_no_failure (l : list TradeExecution) :
  length (filter (fun t => failed t = true) l) = 0%nat
  <-> Forall (fun t => trade_status t <> T_FAILED) l.
Proof.
  induction l as [| t l IH].
  - cbn. split; [constructor | reflexivity].
  - rewrite filter_cons. unfold failed at 1.
    destruct (decide (bool_decide (trade_status t = T_FAILED) = true)) as [Hf | Hf].
    + apply bool_decide_eq_true in Hf. cbn. split; [discriminate |].
      intros Hall. apply Forall_cons in Hall as [Hok _]. contradiction.
    + rewrite IH. split.
      * intros Hall. constructor; [| exact Hall].
        intros Hfailed. apply Hf, bool_decide_eq_true. exact Hfailed.
      * intros Hall. apply Forall_cons in Hall as [_ Hall]. exact Hall.
Qed.

Lemma executeRecommendation_success inp cfg r :
  success (executeRecommendation inp cfg r) = true
  <-> Forall (fun t => trade_status t <> T_FAILED)
             (trades (executeRecommendation inp cfg r)).
Proof.
  unfold executeRecommendation.
  destruct (executeItems_accounts cfg (tradeInputs inp) (actionItems r) 0 [] 0 [])
    as (trades1 & errors1 & Heq & _ & _ & Herrors).
  rewrite Heq. cbn [app trades success].
  rewrite bool_decide_eq_true, Herrors. apply no_error_no_failure.
Qed.

(** X4: [executeRecommendation] makes one trade for each action item that
    names an asset, in order, and none for the others; its total cost is
    the sum of price times quantity over the trades; it reports success
    exactly when no trade FAILED, and otherwise one error per failed
    trade. *)
Theorem executeRecommendation_accounts inp cfg r :
  map trade_asset (trades (executeRecommendation inp cfg r))
  = omap item_asset (actionItems r)
  /\ totalCost (executeRecommendation inp cfg r)
     == Qsum (map cost (trades (executeRecommendation inp cfg r)))
  /\ (success (executeRecommendation inp cfg r) = true <->
      Forall (fun t => trade_status t <> T_FAILED)
             (trades (executeRecommendation inp cfg r)))
  /\ match errors (executeRecommendation inp cfg r) with
     | None => success (executeRecommendation inp cfg r) = true
     | Some l =>
         success (executeRecommendation inp cfg r) = false
         /\ length l
            = length (filter (fun t => failed t = true)
                        (trades (executeRecommendation inp cfg r)))
     end.
Proof.
  split; [| split; [| split; [apply executeRecommendation_success |]]];
    unfold executeRecommendation;
    destruct (executeItems_accounts cfg (tradeInputs inp) (actionItems r) 0 [] 0 [])
      as (trades1 & errors1 & Heq & Hassets & Hcost & Herrors);
    rewrite Heq; cbn [app trades totalCost success errors].
  - exact Hassets.
  - rewrite Hcost. lra.
  - destruct errors1 as [| e errors1]; cbn.
    + reflexivity.
    + split; [reflexivity | exact Herrors].
Qed.

Lemma some_trade_failed (l : list TradeExecution) :
  ~ Forall (fun t => trade_status t <> T_FAILED) l ->
  Exists (fun t => trade_status t = T_FAILED) l.
Proof.
  induction l as [| t l IH]; intros Hnot.
  - exfalso. apply Hnot. constructor.
  - destruct (decide (trade_status t = T_FAILED)) as [Hf | Hf].
    + left. exact Hf.
    + right. apply IH. intros Hall. apply Hnot. constructor; assumption.
Qed.

Lemma decided_outcome cfg d :
  decided cfg d ->
  (decision_status d = PENDING /\ executionDetails d = None)
  \/ exists e,
       executionDetails d = Some e
       /\ ((decision_status d = COMPLETED
            /\ Forall (fun t => trade_status t <> T_FAILED) (trades e))
           \/ (decision_status d = FAILED
               /\ Exists (fun t => trade_status t = T_FAILED) (trades e))).
Proof.
  intros [inp r a Hcfg]. rewrite executeDecision_returns.
  destruct (shouldAutoExecute _ _); [| left; split; reflexivity].
  right. exists (executeRecommendation inp (config a) r).
  split; [reflexivity |].
  pose proof (executeRecommendation_success inp (config a) r) as Hok.
  destruct (success _) eqn:Hs; cbn [set_outcome decision_status].
  - left. split; [reflexivity |]. apply Hok. reflexivity.
  - right. split; [reflexivity |].
    apply some_trade_failed.
    intros Hall. apply Hok in Hall. discriminate.
Qed.

Lemma run_decided ops :
  forall a,
    Forall (fun d => exists cfg, decided cfg d) (decisionHistory a) ->
    Forall (fun d => exists cfg, decided cfg d) (decisionHistory (run ops a)).
Proof.
  induction ops as [| op ops IH]; intros a Hall; [exact Hall |].
  change (run (op :: ops) a) with (run ops (perform op a)).
  apply IH. pose proof (perform_extends op a) as Hext.
  assert (Hadd : extends a (perform op a) ->
                 Forall (fun d => exists cfg, decided cfg d)
                        (decisionHistory (perform op a))).
  { intros [_ (l & Hl & Hdecided)]. rewrite Hl. apply Forall_app.
    split; [exact Hall |]. eapply Forall_impl; [exact Hdecided |].
    intros d Hd. eauto. }
  destruct op; try (apply Hadd; exact Hext).
  rewrite Hext. exact Hall.
Qed.

(** X5: the decision [executeDecision] returns is PENDING without
    execution details, or COMPLETED with details in which no trade FAILED,
    or FAILED with details in which some trade FAILED; so over any run of
    operations the history holds no decision that is APPROVED, EXECUTING,
    REJECTED or CANCELLED. *)
Theorem decision_outcomes :
  (forall inp r a,
     (decision_status (snd (executeDecision inp r a)) = PENDING
      /\ executionDetails (snd (executeDecision inp r a)) = None)
     \/ exists e,
          executionDetails (snd (executeDecision inp r a)) = Some e
          /\ ((decision_status (snd (executeDecision inp r a)) = COMPLETED
               /\ Forall (fun t => trade_status t <> T_FAILED) (trades e))
              \/ (decision_status (snd (executeDecision inp r a)) = FAILED
                  /\ Exists (fun t => trade_status t = T_FAILED) (trades e))))
  /\ (forall now cfg portfolio ops,
        Forall (fun d => decision_status d = PENDING
                         \/ decision_status d = COMPLETED
                         \/ decision_status d = FAILED)
               (decisionHistory (run ops (constructor now cfg portfolio)))).
Proof.
  split.
  - intros inp r a. apply (decided_outcome (config a)). constructor. reflexivity.
  - intros now cfg portfolio ops.
    eapply Forall_impl;
      [apply (run_decided ops (constructor now cfg portfolio)); constructor |].
    intros d [cfg' Hd]. cbv beta.
    destruct (decided_outcome cfg' d Hd) as [[Hp _] | (e & _ & [[Hc _] | [Hf _]])];
      auto.
Qed.

End AgentPolicy.

Section AgentLifecycle.
Context `{Externals}.
Import PortfolioAgent Measure.

(** *** The alert log *)

(** X6: [addAlert] puts the new, unacknowledged alert last.  A log of fewer
    than 100 alerts grows by it; a log of exactly 100 is cut to its 49 most
    recent alerts and the new one.  So a log within the cap of 100 stays
    within it, over any run of operations from construction. *)
Theorem alert_log_bounded :
  (forall now sev type msg a,
     (length (alerts (state a)) < 100)%nat ->
     alerts (state (addAlert now sev type msg a))
     = alerts (state a)
       ++ [ {| alert_id := "alert-" +:+ pretty now; severity := sev;
               alert_type := type; message := msg; alert_timestamp := now;
               acknowledged := false |} ])
  /\ (forall now sev type msg a,
        length (alerts (state a)) = 100%nat ->
        alerts (state (addAlert now sev type msg a))
        = drop 51 (alerts (state a))
          ++ [ {| alert_id := "alert-" +:+ pretty now; severity := sev;
                  alert_type := type; message := msg; alert_timestamp := now;
                  acknowledged := false |} ])
  /\ (forall now cfg portfolio ops,
        (length (alerts (state (run ops (constructor now cfg portfolio)))) <= 100)%nat).
Proof.
  split; [| split].
  - intros now sev type msg a Hlen.
    unfold addAlert, set_state, set_alerts. cbn [state alerts].
    rewrite length_app. cbn [length].
    destruct (100 <? _)%nat eqn:Hcap; [| reflexivity].
    apply Nat.ltb_lt in Hcap. lia.
  - intros now sev type msg a Hlen.
    unfold addAlert, set_state, set_alerts. cbn [state alerts].
    rewrite length_app. cbn [length].
    destruct (100 <? _)%nat eqn:Hcap.
    + unfold slice_last. rewrite length_app. cbn [length]. rewrite Hlen.
      change (100 + 1 - 50)%nat with 51%nat.
      rewrite drop_app_le by lia. reflexivity.
    + apply Nat.ltb_ge in Hcap. lia.
  - intros now cfg portfolio ops.
    assert (Hadd : forall now sev type msg a,
               (length (alerts (state a)) <= 100)%nat ->
               (length (alerts (state (addAlert now sev type msg a))) <= 100)%nat)
      by (intros; apply addAlert_bounded; assumption).
    assert (Hdec : forall inp r a,
               alerts (state (fst (executeDecision inp r a))) = alerts (state a))
      by reflexivity.
    assert (Hall : forall c marketData candidates i a,
               alerts (state (decideAll c marketData i candidates a))
               = alerts (state a)).
    { intros c marketData candidates.
      induction candidates as [| r rest IH]; intros i a; [reflexivity |].
      cbn [decideAll]. rewrite IH.
      destruct (meetsExecutionCriteria _ _ _ _); reflexivity. }
    assert (Hstep : forall op a,
               (length (alerts (state a)) <= 100)%nat ->
               (length (alerts (state (perform op a))) <= 100)%nat).
    { intros op a Hlen. destruct op; cbn [perform].
      - unfold start. destruct (negb _); [apply Hadd; exact Hlen |].
        cbn. apply Hadd. exact Hlen.
      - unfold stop. cbv zeta. apply Hadd.
        destruct (intervalId _); exact Hlen.
      - apply Hadd. exact Hlen.
      - rewrite Hdec. exact Hlen.
      - unfold executionCycle. destruct (negb _); [exact Hlen |].
        destruct (marketData_result c) as [marketData | msg];
          [| apply Hadd; exact Hlen].
        unfold checkRiskLimits. cbv zeta.
        match goal with
        | |- (length (alerts (state (if ?b then addAlert _ _ _ _ ?x else ?x))) <= _)%nat =>
            assert (Hx : (length (alerts (state x)) <= 100)%nat);
              [| destruct b; [apply Hadd |]; exact Hx]
        end.
        destruct (Qgtb _ _); [| rewrite Hall; exact Hlen].
        destruct (bool_decide _).
        + unfold initiateEmergencyHedging. rewrite Hdec.
          apply Hadd, Hadd. rewrite Hall. exact Hlen.
        + apply Hadd. rewrite Hall. exact Hlen.
      - exact Hlen. }
    induction ops as [| op ops IH] using rev_ind.
    + cbn. lia.
    + unfold run. rewrite fold_left_app. cbn [fold_left].
      apply Hstep. exact IH.
Qed.

(** *** The state machine *)

Lemma decideAll_control c marketData candidates :
  forall i a, control (decideAll c marketData i candidates a) = control a.
Proof.
  induction candidates as [| r rest IH]; intros i a; [reflexivity |].
  cbn [decideAll]. rewrite IH.
  destruct (meetsExecutionCriteria _ _ _ _); reflexivity.
Qed.

Lemma checkRiskLimits_control now hedge a :
  control (checkRiskLimits now hedge a) = control a.
Proof.
  unfold checkRiskLimits. cbv zeta.
  destruct (Qgtb (valueAtRisk _) _); [destruct (bool_decide _) |];
    destruct (Qgtb (singleAssetMax _) _); reflexivity.
Qed.

Lemma executionCycle_done c marketData a :
  status (state a) = ACTIVE ->
  marketData_result c = inl marketData ->
  control (executionCycle c a) = control a.
Proof.
  intros Hactive Hdata. unfold executionCycle. rewrite Hactive, Hdata.
  cbn [bool_decide negb decide_rel]. rewrite bool_decide_eq_true_2 by reflexivity.
  cbn [negb]. rewrite checkRiskLimits_control, decideAll_control. reflexivity.
Qed.

Lemma executionCycle_idle c a :
  status (state a) <> ACTIVE -> executionCycle c a = a.
Proof.
  intros Hidle. unfold executionCycle.
  rewrite bool_decide_eq_false_2 by exact Hidle. reflexivity.
Qed.

(** X7: an agent becomes ACTIVE only through [start()] with the
    configuration enabled, and falls into ERROR only when a cycle of an
    ACTIVE agent has its market data fetch rejected; in particular nothing
    but [start()] leads from ERROR back to ACTIVE.  A cycle on an agent
    that is not ACTIVE changes nothing. *)
Theorem status_transitions :
  (forall op a,
     status (state (perform op a)) = ACTIVE ->
     status (state a) = ACTIVE
     \/ exists now, op = Start now /\ enabled (config a) = true)
  /\ (forall op a,
        status (state (perform op a)) = ERROR ->
        status (state a) = ERROR
        \/ (status (state a) = ACTIVE
            /\ exists c msg, op = ExecutionCycle c /\ marketData_result c = inr msg))
  /\ (forall c a, status (state a) <> ACTIVE -> executionCycle c a = a).
Proof.
  assert (Hcycle : forall c a,
             (status (state (executionCycle c a)) = status (state a))
             \/ (status (state a) = ACTIVE
                 /\ status (state (executionCycle c a)) = ERROR
                 /\ exists msg, marketData_result c = inr msg)).
  { intros c a. destruct (decide (status (state a) = ACTIVE)) as [Hactive | Hidle].
    - destruct (marketData_result c) as [marketData | msg] eqn:Hdata.
      + left. pose proof (executionCycle_done c marketData a Hactive Hdata) as Hc.
        unfold control in Hc. congruence.
      + right. split; [exact Hactive |]. split; [| eauto].
        unfold executionCycle. rewrite Hdata.
        rewrite bool_decide_eq_true_2 by exact Hactive. reflexivity.
    - left. rewrite executionCycle_idle by exact Hidle. reflexivity. }
  split; [| split].
  - intros op a Hafter. destruct op; cbn [perform] in Hafter.
    + unfold start in Hafter. destruct (enabled (config a)) eqn:Hon.
      * right. eauto.
      * left. exact Hafter.
    + unfold stop in Hafter. cbv zeta in Hafter. rewrite addAlert_status in Hafter.
      destruct (intervalId _); discriminate.
    + discriminate.
    + left. exact Hafter.
    + destruct (Hcycle c a) as [Hsame | (_ & Herr & _)]; [left | ]; congruence.
    + left. exact Hafter.
  - intros op a Hafter. destruct op; cbn [perform] in Hafter.
    + unfold start in Hafter. destruct (enabled (config a)).
      * discriminate.
      * left. exact Hafter.
    + unfold stop in Hafter. cbv zeta in Hafter. rewrite addAlert_status in Hafter.
      destruct (intervalId _); discriminate.
    + discriminate.
    + left. exact Hafter.
    + destruct (Hcycle c a) as [Hsame | (Hactive & _ & msg & Hmsg)].
      * left. congruence.
      * right. split; [exact Hactive |]. eauto.
    + left. exact Hafter.
  - intros c a. apply executionCycle_idle.
Qed.

Lemma stop_status now a : status (state (stop now a)) = STOPPED.
Proof.
  unfold stop. cbv zeta. rewrite addAlert_status.
  destruct (intervalId _); reflexivity.
Qed.

Lemma stop_intervalId now a : intervalId (stop now a) = None.
Proof.
  destruct (intervalId a) eqn:Htimer; unfold stop; cbv zeta;
    cbn [set_state intervalId]; rewrite Htimer; [reflexivity | exact Htimer].
Qed.

Lemma clearInterval_unused h l : h ∉ map fst l -> clearInterval h l = l.
Proof.
  unfold clearInterval. induction l as [| [h0 p] l IH]; intros Hh; [reflexivity |].
  rewrite filter_cons. cbn [map fst] in Hh.
  apply not_elem_of_cons in Hh as [Hne Hh].
  rewrite decide_True by (cbn; congruence).
  rewrite IH by exact Hh. reflexivity.
Qed.

Lemma fresh_handle_above l h : h ∈ map fst l -> (h < fresh_handle l)%nat.
Proof.
  unfold fresh_handle. induction l as [| [h0 p] l IH]; intros Hh.
  - inversion Hh.
  - cbn [map fst foldr] in *. apply elem_of_cons in Hh as [-> | Hh].
    + lia.
    + specialize (IH Hh). lia.
Qed.

(** X8: [stop()] leaves the agent STOPPED whatever it was, forgets the
    timer handle and removes that timer; cycles that still fire afterwards
    change nothing.  [pause()] keeps the timer, and cycles change nothing
    while the agent is PAUSED. *)
Theorem stop_and_pause now c a :
  status (state (stop now a)) = STOPPED
  /\ intervalId (stop now a) = None
  /\ (forall h, intervalId a = Some h -> h ∉ map fst (intervals (stop now a)))
  /\ executionCycle c (stop now a) = stop now a
  /\ status (state (pause now a)) = PAUSED
  /\ intervalId (pause now a) = intervalId a
  /\ intervals (pause now a) = intervals a
  /\ executionCycle c (pause now a) = pause now a.
Proof.
  split; [apply stop_status |].
  split; [apply stop_intervalId |].
  split.
  { intros h Hh. unfold stop. cbv zeta. cbn [set_state intervalId].
    rewrite Hh. cbn [addAlert set_state intervals]. unfold clearInterval.
    intros Hin. apply list_elem_of_fmap in Hin as ([h' p] & Hfst & Hin).
    apply list_elem_of_filter in Hin as [Hne _]. cbn in *. congruence. }
  split; [apply executionCycle_idle; rewrite stop_status; discriminate |].
  split; [reflexivity |]. split; [reflexivity |]. split; [reflexivity |].
  apply executionCycle_idle. discriminate.
Qed.

(** X9: [start()] does not clear a timer that is already running.  After
    two calls of [start()] and one of [stop()] on an enabled agent, the
    agent is STOPPED and its handle forgotten, the second timer is gone,
    but the first timer is live beside those the agent had. *)
Theorem start_twice_leaks_timer now1 now2 now3 a :
  enabled (config a) = true ->
  status (state (stop now3 (start now2 (start now1 a)))) = STOPPED
  /\ intervalId (stop now3 (start now2 (start now1 a))) = None
  /\ intervals (stop now3 (start now2 (start now1 a)))
     = (fresh_handle (intervals a), 60000%Z) :: intervals a.
Proof.
  intros Hon.
  split; [apply stop_status |]. split; [apply stop_intervalId |].
  unfold stop, start. cbv zeta. rewrite Hon. cbn [negb].
  cbn [set_state set_status addAlert config state intervals intervalId setInterval
       set_alerts enabled]. rewrite Hon. cbn [negb].
  cbn [set_state set_status addAlert config state intervals intervalId setInterval
       set_alerts enabled].
  set (h1 := fresh_handle (intervals a)).
  set (h2 := fresh_handle ((h1, 60000%Z) :: intervals a)).
  assert (Habove : forall h, h ∈ map fst ((h1, 60000%Z) :: intervals a) -> h <> h2).
  { intros h Hh. apply fresh_handle_above in Hh. fold h2 in Hh. lia. }
  unfold clearInterval at 1. rewrite filter_cons.
  rewrite decide_False by (cbn; intros Hne; apply Hne; reflexivity).
  fold (clearInterval h2 ((h1, 60000%Z) :: intervals a)).
  apply clearInterval_unused.
  intros Hin. apply (Habove h2 Hin). reflexivity.
Qed.

(** *** The cycle *)

Lemma count_nonneg {A} (l : list A) : 0 <= count l.
Proof.
  unfold count. change 0 with (inject_Z 0). rewrite <- Zle_Qle. lia.
Qed.

(** X11: when market volatility is HIGH, or when the configured
    [maxTradesPerHour] is zero or negative, the gate refuses every
    candidate: the loop over the candidates of a cycle leaves the agent as
    it was. *)
Theorem gate_closed c marketData i candidates a :
  volatility (marketSentiment marketData) = V_HIGH
  \/ maxTradesPerHour (tradingLimits (config a)) <= 0 ->
  (forall now r, meetsExecutionCriteria now r marketData a = false)
  /\ decideAll c marketData i candidates a = a.
Proof.
  intros Hclosed.
  assert (Hno : forall now r, meetsExecutionCriteria now r marketData a = false).
  { intros now r. apply not_true_iff_false. intros Hyes.
    apply meetsExecutionCriteria_true in Hyes as (_ & Hlimits & Hcalm).
    destruct Hclosed as [Hhigh | Hzero]; [contradiction |].
    apply isWithinTradingLimits_true in Hlimits as [_ Hhour].
    pose proof (count_nonneg (getHourlyTrades now a)). lra. }
  split; [exact Hno |].
  revert i. induction candidates as [| r rest IH]; intros i; [reflexivity |].
  cbn [decideAll]. rewrite Hno. apply IH.
Qed.

(** *** Revaluation *)


(** *** What no operation touches *)

Lemma decideAll_scores c marketData candidates :
  forall i a, scores (decideAll c marketData i candidates a) = scores a.
Proof.
  induction candidates as [| r rest IH]; intros i a; [reflexivity |].
  cbn [decideAll]. rewrite IH.
  destruct (meetsExecutionCriteria _ _ _ _); reflexivity.
Qed.

Lemma perform_scores op a : scores (perform op a) = scores a.
Proof.
  destruct op; cbn [perform]; try reflexivity.
  - unfold start. destruct (negb _); reflexivity.
  - unfold stop. cbv zeta. destruct (intervalId _); reflexivity.
  - unfold executionCycle. destruct (negb _); [reflexivity |].
    destruct (marketData_result c) as [marketData | msg]; [| reflexivity].
    unfold checkRiskLimits. cbv zeta.
    transitivity (scores (decideAll c marketData 0
                            (filter (fun r => priority r = CRITICAL \/ priority r = HIGH)
                               (generateRecommendations
                                  (analyzePortfolio
                                     (currentPortfolio
                                        (state (updatePortfolioValues marketData a))))))
                            (updatePortfolioValues marketData a)));
      [| rewrite decideAll_scores; reflexivity].
    destruct (Qgtb (valueAtRisk _) _); [destruct (bool_decide _) |];
      destruct (Qgtb (singleAssetMax _) _); reflexivity.
Qed.

(** X13: no operation of the agent updates the success rate, the
    performance metrics, the watchlist or the identity of its state: over
    every run they are what they were, so for an agent run from its
    construction the success rate is 0 and the maximum drawdown is 0. *)
Theorem scores_never_updated :
  (forall ops a, scores (run ops a) = scores a)
  /\ (forall now cfg portfolio ops,
        successRate (state (run ops (constructor now cfg portfolio))) = 0
        /\ maxDrawdown (performance (state (run ops (constructor now cfg portfolio))))
           = 0).
Proof.
  assert (Hrun : forall ops a, scores (run ops a) = scores a).
  { induction ops as [| op ops IH]; intros a; [reflexivity |].
    change (run (op :: ops) a) with (run ops (perform op a)).
    rewrite IH. apply perform_scores. }
  split; [exact Hrun |].
  intros now cfg portfolio ops.
  pose proof (Hrun ops (constructor now cfg portfolio)) as Hs.
  unfold scores in Hs. cbn in Hs.
  injection Hs as _ Hrate Hperf _. rewrite Hrate, Hperf. split; reflexivity.
Qed.

(** *** The agent's own risk check *)

Lemma checkRiskLimits_history now hedge a :
  decisionHistory (checkRiskLimits now hedge a)
  = if Qgtb (valueAtRisk (analyzePortfolio (currentPortfolio (state a))))
            (maxDailyVaR (riskLimits (config a)))
       && bool_decide (autonomyLevel (config a) = FULL_AUTO)
    then decisionHistory
           (initiateEmergencyHedging now hedge
              (addAlert now CRITICAL RISK_LIMIT_BREACH
                 ("Daily VaR exceeded: "
                  +:+ toFixed (valueAtRisk
                                 (analyzePortfolio (currentPortfolio (state a)))) 0
                  +:+ " > "
                  +:+ numberToString (maxDailyVaR (riskLimits (config a)))) a))
    else decisionHistory a.
Proof.
  unfold checkRiskLimits. cbv zeta.
  destruct (Qgtb (valueAtRisk _) _); cbn [andb];
    [destruct (bool_decide _) |];
    destruct (Qgtb (singleAssetMax _) _); reflexivity.
Qed.

(** X14: the agent's risk check hedges only when the value at risk exceeds
    the configured daily limit and the autonomy level is FULL_AUTO.  Then,
    outside simulation mode, it records one more decision, an
    EMERGENCY_HEDGE of confidence 1 that is executed at once and COMPLETED
    with no trade and no cost.  In every other case the history is left as
    it was. *)
Theorem emergency_hedging now hedge a :
  (valueAtRisk (analyzePortfolio (currentPortfolio (state a)))
     <= maxDailyVaR (riskLimits (config a))
   \/ autonomyLevel (config a) <> FULL_AUTO ->
   decisionHistory (checkRiskLimits now hedge a) = decisionHistory a)
  /\ (maxDailyVaR (riskLimits (config a))
        < valueAtRisk (analyzePortfolio (currentPortfolio (state a))) ->
      autonomyLevel (config a) = FULL_AUTO ->
      simulationMode (executionSettings (config a)) = false ->
      exists d,
        decisionHistory (checkRiskLimits now hedge a) = decisionHistory a ++ [d]
        /\ decisionType d = EMERGENCY_HEDGE
        /\ priority (recommendation d) = CRITICAL
        /\ confidence d == 1
        /\ decision_status d = COMPLETED
        /\ tradesOf d = []
        /\ totalCost <$> executionDetails d = Some 0).
Proof.
  split.
  - intros Hquiet. rewrite checkRiskLimits_history.
    destruct Hquiet as [Hlow | Hlevel].
    + apply Qgtb_le in Hlow. rewrite Hlow. reflexivity.
    + rewrite (bool_decide_eq_false_2 _ Hlevel), andb_false_r. reflexivity.
  - intros Hhigh Hlevel Hsim. rewrite checkRiskLimits_history.
    apply Qgtb_gt in Hhigh. rewrite Hhigh.
    rewrite (bool_decide_eq_true_2 _ Hlevel). cbn [andb].
    unfold initiateEmergencyHedging. cbv zeta.
    rewrite executeDecision_history, addAlert_history, addAlert_history.
    eexists. split; [reflexivity |].
    rewrite executeDecision_returns.
    match goal with
    | |- context [shouldAutoExecute ?cfg (draft ?i ?r ?x)] =>
        assert (Hyes : shouldAutoExecute cfg (draft i r x) = true)
    end.
    { apply shouldAutoExecute_draft; [exact Hlevel | exact Hsim |].
      left. reflexivity. }
    rewrite Hyes.
    repeat split; vm_compute; reflexivity.
Qed.

End AgentLifecycle.

(** ** Shared objects *)

Section ObjectFacts.
Context `{Externals}.
Import PortfolioAgent Measure Objects.

Lemma write_same l v mem : write l v mem l = v.
Proof. unfold write. rewrite Nat.eqb_refl. reflexivity. Qed.

Lemma write_other l v mem k : k <> l -> write l v mem k = mem k.
Proof.
  intros Hne. unfold write. apply Nat.eqb_neq in Hne. rewrite Hne. reflexivity.
Qed.

(** A pass over an array that assigns [f] of each object to the object:
    every object of the array has been assigned, once is as good as many
    times, and no other object is touched. *)
Lemma fold_write (f : Asset -> Asset) :
  (forall x, f (f x) = f x) ->
  forall ls mem k,
    fold_left (fun mem l => write l (f (mem l)) mem) ls mem k
    = if decide (k ∈ ls) then f (mem k) else mem k.
Proof.
  intros Hidem. induction ls as [| l ls IH]; intros mem k; cbn [fold_left].
  - rewrite decide_False by apply not_elem_of_nil. reflexivity.
  - rewrite IH. destruct (decide (k = l)) as [-> | Hne].
    + rewrite write_same, (decide_True (P := l ∈ l :: ls)) by apply list_elem_of_here.
      destruct (decide (l ∈ ls)); [apply Hidem | reflexivity].
    + rewrite write_other by exact Hne.
      destruct (decide (k ∈ ls)) as [Hin | Hout].
      * rewrite decide_True by (apply list_elem_of_further; exact Hin). reflexivity.
      * rewrite decide_False; [reflexivity |].
        intros Hin. apply elem_of_cons in Hin as [Heq | Hin]; contradiction.
Qed.

Lemma reprice_idem marketData asset :
  reprice marketData (reprice marketData asset) = reprice marketData asset.
Proof.
  unfold reprice at 2. destruct (truthy _) as [price |] eqn:Hprice.
  - unfold reprice. cbn [asset_id]. rewrite Hprice. reflexivity.
  - unfold reprice. rewrite Hprice. reflexivity.
Qed.

Lemma reweigh_idem total asset :
  reweigh total (reweigh total asset) = reweigh total asset.
Proof. reflexivity. Qed.

Lemma reprice_identity marketData asset :
  identity (reprice marketData asset) = identity asset.
Proof. unfold reprice. destruct (truthy _); reflexivity. Qed.

(** The memory after [updatePortfolioValues]. *)
Lemma updatePortfolioValues_memory marketData w l :
  memory (updatePortfolioValues marketData w) l
  = if decide (l ∈ holdings w)
    then reweigh
           (totalValue (currentPortfolio (state (self (updatePortfolioValues marketData w)))))
           (reprice marketData (memory w l))
    else memory w l.
Proof.
  unfold updatePortfolioValues. cbv zeta.
  cbn [memory self set_state set_portfolio state currentPortfolio totalValue].
  rewrite (fold_write _ (reweigh_idem _)), (fold_write _ (reprice_idem marketData)).
  destruct (decide (l ∈ holdings w)); reflexivity.
Qed.


Lemma keeps_refl w w' :
  holdings w' = holdings w -> ledger w' = ledger w -> memory w' = memory w ->
  keeps w w'.
Proof.
  intros Hh Hl Hm. unfold keeps. rewrite Hh, Hl, Hm. repeat split; reflexivity.
Qed.

Lemma keeps_trans w1 w2 w3 : keeps w1 w2 -> keeps w2 w3 -> keeps w1 w3.
Proof.
  intros (Hh1 & Hl1 & Hi1 & Hm1) (Hh2 & Hl2 & Hi2 & Hm2).
  split; [congruence |]. split; [etransitivity; eassumption |].
  split; [intros l; rewrite Hi2; apply Hi1 |].
  intros l Hout. rewrite Hm2 by (rewrite Hh1; exact Hout). apply Hm1. exact Hout.
Qed.

Lemma executeDecision_frame inp r w : keeps w (fst (executeDecision inp r w)).
Proof.
  split; [reflexivity |]. split; [apply prefix_app_r; reflexivity |].
  split; reflexivity.
Qed.

Lemma updatePortfolioValues_frame marketData w :
  keeps w (updatePortfolioValues marketData w).
Proof.
  split; [reflexivity |]. split; [reflexivity |]. split.
  - intros l. rewrite updatePortfolioValues_memory.
    destruct (decide _); [| reflexivity].
    rewrite <- (reprice_identity marketData (memory w l)). reflexivity.
  - intros l Hout. rewrite updatePortfolioValues_memory.
    rewrite decide_False by exact Hout. reflexivity.
Qed.

Lemma decideAll_frame c marketData candidates :
  forall i w, keeps w (decideAll c marketData i candidates w).
Proof.
  induction candidates as [| r rest IH]; intros i w; cbn [decideAll].
  - apply keeps_refl; reflexivity.
  - eapply keeps_trans; [| apply IH].
    destruct (meetsExecutionCriteria _ _ _ _).
    + apply executeDecision_frame.
    + apply keeps_refl; reflexivity.
Qed.

Lemma initiateEmergencyHedging_frame now inp w :
  keeps w (initiateEmergencyHedging now inp w).
Proof.
  unfold initiateEmergencyHedging.
  eapply keeps_trans; [| apply executeDecision_frame].
  apply keeps_refl; reflexivity.
Qed.

Lemma checkRiskLimits_frame now hedge w : keeps w (checkRiskLimits now hedge w).
Proof.
  unfold checkRiskLimits. cbv zeta.
  match goal with
  | |- keeps w (if ?c then Objects.addAlert _ _ _ _ ?x else ?x) =>
      assert (H1 : keeps w x); [| destruct c; [| exact H1]]
  end.
  - destruct (Qgtb _ _); [| apply keeps_refl; reflexivity].
    destruct (bool_decide _).
    + eapply keeps_trans; [| apply initiateEmergencyHedging_frame].
      apply keeps_refl; reflexivity.
    + apply keeps_refl; reflexivity.
  - eapply keeps_trans; [exact H1 |]. apply keeps_refl; reflexivity.
Qed.

Lemma executionCycle_frame c recommendations w :
  keeps w (executionCycle c recommendations w).
Proof.
  unfold executionCycle.
  destruct (negb _); [apply keeps_refl; reflexivity |].
  destruct (marketData_result c) as [marketData | msg].
  - eapply keeps_trans; [| apply checkRiskLimits_frame].
    eapply keeps_trans; [| apply decideAll_frame].
    apply updatePortfolioValues_frame.
  - apply keeps_refl; reflexivity.
Qed.

Lemma perform_frame op w : keeps w (Objects.perform op w).
Proof.
  destruct op; cbn [Objects.perform]; try (apply keeps_refl; reflexivity).
  - apply executeDecision_frame.
  - apply executionCycle_frame.
Qed.

Lemma run_frame ops : forall w, keeps w (Objects.run ops w).
Proof.
  induction ops as [| op ops IH]; intros w.
  - apply keeps_refl; reflexivity.
  - change (Objects.run (op :: ops) w) with (Objects.run ops (Objects.perform op w)).
    eapply keeps_trans; [apply perform_frame | apply IH].
Qed.

(** A decision reads the same in two memories that agree on the assets it
    refers to. *)
Lemma read_decision_agree mem mem' d :
  (forall l, l ∈ addresses d -> mem' l = mem l) ->
  read_decision mem' d = read_decision mem d.
Proof.
  unfold addresses. intros Hagree.
  assert (Hitems : map (read_item mem') (rr_actionItems (dr_recommendation d))
                   = map (read_item mem) (rr_actionItems (dr_recommendation d))).
  { apply map_ext_in. intros item Hitem. unfold read_item.
    destruct (ir_asset item) as [l |] eqn:Hl; [| reflexivity].
    cbn [fmap option_fmap option_map]. rewrite Hagree; [reflexivity |].
    apply elem_of_app. left. apply list_elem_of_omap.
    exists item. split; [apply list_elem_of_In; exact Hitem | exact Hl]. }
  assert (Hdetails : read_details mem' <$> dr_executionDetails d
                     = read_details mem <$> dr_executionDetails d).
  { destruct (dr_executionDetails d) as [e |]; [| reflexivity].
    cbn [fmap option_fmap option_map]. f_equal. unfold read_details. f_equal.
    apply map_ext_in. intros t Ht. unfold read_trade. rewrite Hagree; [reflexivity |].
    apply elem_of_app. right. apply list_elem_of_fmap.
    exists t. split; [reflexivity | apply list_elem_of_In; exact Ht]. }
  unfold read_decision, read_recommendation. rewrite Hitems, Hdetails. reflexivity.
Qed.


Lemma read_refer mem l t : trade_asset t = mem l -> read_trade mem (refer l t) = t.
Proof. destruct t. cbn. intros ->. reflexivity. Qed.

(** At the time it is made, a decision reads as the decision that
    [PortfolioAgent.executeDecision] returns on what the agent reads. *)
Lemma executeItems_read cfg mem inp items :
  forall k trades0 cost0 errors0,
    PortfolioAgent.executeItems cfg inp k (map (read_item mem) items)
      (map (read_trade mem) trades0, cost0, errors0)
    = (let '(trades1, cost1, errors1) :=
         Objects.executeItems cfg mem inp k items (trades0, cost0, errors0) in
       (map (read_trade mem) trades1, cost1, errors1)).
Proof.
  induction items as [| item items IH]; intros k trades0 cost0 errors0.
  - reflexivity.
  - cbn [map PortfolioAgent.executeItems Objects.executeItems].
    unfold read_item at 1. cbn [item_asset].
    destruct (ir_asset item) as [l |] eqn:Hl; cbn [fmap option_fmap option_map].
    + rewrite <- IH, map_app. cbn [map].
      rewrite read_refer by apply executeTrade_asset. reflexivity.
    + apply IH.
Qed.

Lemma executeRecommendation_read inp cfg mem r :
  read_details mem (Objects.executeRecommendation inp cfg mem r)
  = PortfolioAgent.executeRecommendation inp cfg (read_recommendation mem r).
Proof.
  unfold Objects.executeRecommendation, PortfolioAgent.executeRecommendation.
  cbn [actionItems read_recommendation].
  pose proof (executeItems_read cfg mem (tradeInputs inp) (rr_actionItems r) 0%nat [] 0 [])
    as Hitems.
  cbn [map] in Hitems. rewrite Hitems.
  destruct (Objects.executeItems _ _ _ _ _ _) as [[trades1 cost1] errors1].
  unfold read_details.
  cbn [er_trades er_totalCost er_executionTime er_slippage er_success er_errors].
  rewrite length_map. reflexivity.
Qed.

Lemma executeDecision_read inp r w :
  read_decision (memory w) (snd (Objects.executeDecision inp r w))
  = snd (PortfolioAgent.executeDecision inp (read_recommendation (memory w) r) (view w)).
Proof.
  unfold Objects.executeDecision, PortfolioAgent.executeDecision. cbv zeta.
  cbn [snd].
  match goal with
  | |- _ = (if shouldAutoExecute ?cfg ?d then _ else _) =>
      set (auto := shouldAutoExecute cfg d)
  end.
  match goal with
  | |- read_decision _ (if ?b then _ else _) = _ => change b with auto
  end.
  destruct auto.
  - unfold read_decision, Objects.set_outcome, PortfolioAgent.set_outcome.
    cbn -[read_recommendation Objects.executeRecommendation
          PortfolioAgent.executeRecommendation view read_details
          calculateConfidence assessDecisionRisk calculateExpectedOutcome].
    match goal with
    | |- context [er_success ?e] =>
        change (er_success e) with (success (read_details (memory w) e))
    end.
    rewrite executeRecommendation_read. reflexivity.
  - reflexivity.
Qed.

Lemma fold_left_read {A B C} (f : C -> B -> C) (g h : A -> B) (l : list A) :
  (forall x, x ∈ l -> g x = h x) ->
  forall c, fold_left (fun s x => f s (g x)) l c = fold_left f (map h l) c.
Proof.
  induction l as [| x l IH]; intros Hagree c; [reflexivity |].
  cbn [fold_left map]. rewrite Hagree by apply list_elem_of_here.
  apply IH. intros y Hy. apply Hagree, list_elem_of_further, Hy.
Qed.

(** After [updatePortfolioValues] the agent finds in its state what
    [PortfolioAgent.updatePortfolioValues] computes from what it found
    before: the two differ in the recorded decisions only. *)
Lemma updatePortfolioValues_view marketData w :
  state (view (Objects.updatePortfolioValues marketData w))
  = state (PortfolioAgent.updatePortfolioValues marketData (view w)).
Proof.
  pose proof (updatePortfolioValues_memory marketData w) as Hmem.
  assert (Htotal :
            totalValue (currentPortfolio
                          (state (self (Objects.updatePortfolioValues marketData w))))
            = fold_left (fun sum asset => sum + marketValue asset)
                (map (reprice marketData) (map (memory w) (holdings w))) 0).
  { unfold Objects.updatePortfolioValues. cbv zeta.
    cbn [self set_state set_portfolio state currentPortfolio totalValue].
    rewrite map_map.
    apply (fold_left_read (fun sum asset => sum + marketValue asset)
             (fun l =>
                fold_left
                  (fun mem l0 => write l0 (reprice marketData (mem l0)) mem)
                  (holdings w) (memory w) l)
             (fun l => reprice marketData (memory w l))).
    intros l Hin.
    rewrite (fold_write _ (reprice_idem marketData)), decide_True by exact Hin.
    reflexivity. }
  rewrite Htotal in Hmem.
  set (total := fold_left (fun sum asset => sum + marketValue asset)
                  (map (reprice marketData) (map (memory w) (holdings w))) 0) in *.
  assert (Hassets :
            map (memory (Objects.updatePortfolioValues marketData w)) (holdings w)
            = map (reweigh total)
                (map (reprice marketData) (map (memory w) (holdings w)))).
  { rewrite !map_map. apply map_ext_in. intros l Hin. apply list_elem_of_In in Hin.
    rewrite Hmem, decide_True by exact Hin. reflexivity. }
  unfold view at 1. cbv zeta. cbn [state]. 
  change (holdings (Objects.updatePortfolioValues marketData w)) with (holdings w).
  rewrite Hassets, Htotal. reflexivity.
Qed.

(** C3 (as amended): [executeDecision] appends the one decision it
    returns, which holds the recommendation it was given, to the history,
    adds one to the decision counter and sets the last-decision time,
    auto-executed or not, and assigns to no asset.  Every operation keeps
    the recorded decisions in place, so over any run the history only
    grows; the portfolio's array is as it was, no asset changes but in
    price, market value and weight, and no asset outside the portfolio
    changes at all: a recorded decision that refers to no asset of the
    portfolio reads as it did. *)
Theorem decision_history_append_only :
  (forall inp r w,
     ledger (fst (Objects.executeDecision inp r w))
     = ledger w ++ [snd (Objects.executeDecision inp r w)]
     /\ dr_recommendation (snd (Objects.executeDecision inp r w)) = r
     /\ totalDecisions (state (self (fst (Objects.executeDecision inp r w))))
        = (totalDecisions (state (self w)) + 1)%Z
     /\ lastDecision (state (self (fst (Objects.executeDecision inp r w))))
        = t_recorded inp
     /\ memory (fst (Objects.executeDecision inp r w)) = memory w)
  /\ (forall op w, ledger w `prefix_of` ledger (Objects.perform op w))
  /\ (forall ops w,
        ledger w `prefix_of` ledger (Objects.run ops w)
        /\ (length (ledger w) <= length (ledger (Objects.run ops w)))%nat
        /\ holdings (Objects.run ops w) = holdings w
        /\ (forall l, identity (memory (Objects.run ops w) l) = identity (memory w l))
        /\ (forall l, l ∉ holdings w -> memory (Objects.run ops w) l = memory w l)
        /\ (forall d,
              (forall l, l ∈ addresses d -> l ∉ holdings w) ->
              read_decision (memory (Objects.run ops w)) d
              = read_decision (memory w) d)).
Proof.
  split; [| split].
  - intros inp r w. split; [reflexivity |]. split.
    { unfold Objects.executeDecision. cbv zeta. cbn [snd].
      destruct (shouldAutoExecute _ _); reflexivity. }
    repeat split.
  - intros op w. apply (perform_frame op w).
  - intros ops w. destruct (run_frame ops w) as (Hh & Hl & Hi & Hm).
    split; [exact Hl |]. split; [apply prefix_length; exact Hl |].
    split; [exact Hh |]. split; [exact Hi |]. split; [exact Hm |].
    intros d Hd. apply read_decision_agree. intros l Hl'. apply Hm, Hd, Hl'.
Qed.


End ObjectFacts.

Section ObjectExamples.
Import PortfolioAgent Measure Objects.
#[local] Existing Instance Sample.utc.

(** C3 (as stated) fails.  In the cycle of 10:00 the engine recommends to
    reduce the largest asset of the portfolio; the agent decides, executes
    and records the decision, COMPLETED, with one trade on that asset: at
    that time an asset at the price 100 in a position worth 1000000.  The
    cycle of 14:00 finds the asset quoted at 200.  It leaves the history as
    it is, one decision, the same object; but the asset that the decision
    refers to, through the item of its recommendation and through its
    trade, is the portfolio's, and now reads a price of 200 and a position
    worth 2000000: the recorded decision is not what it was. *)
Lemma decision_history_append_only_counterexample :
  holdings Scenario.shared = [0%nat]
  /\ ledger Scenario.shared = []
  /\ map dr_status (ledger Scenario.sold) = [COMPLETED]
  /\ map addresses (ledger Scenario.sold) = [[0%nat; 0%nat]]
  /\ ledger Scenario.revalued = ledger Scenario.sold
  /\ map (fun t => (currentPrice (trade_asset t), marketValue (trade_asset t)))
       (flat_map tradesOf (decisionHistory (view Scenario.sold)))
     = [(100, 1000000)]
  /\ map (fun t => (currentPrice (trade_asset t), marketValue (trade_asset t)))
       (flat_map tradesOf (decisionHistory (view Scenario.revalued)))
     = [(200, 10000 * 200)]
  /\ map (fun item => currentPrice <$> item_asset item)
       (flat_map (fun d => actionItems (recommendation d))
          (decisionHistory (view Scenario.sold)))
     = [Some 100]
  /\ map (fun item => currentPrice <$> item_asset item)
       (flat_map (fun d => actionItems (recommendation d))
          (decisionHistory (view Scenario.revalued)))
     = [Some 200]
  /\ decisionHistory (view Scenario.revalued) <> decisionHistory (view Scenario.sold).
Proof.
  assert (Hsold : map (fun t => currentPrice (trade_asset t))
                    (flat_map tradesOf (decisionHistory (view Scenario.sold)))
                  = [100]) by (vm_compute; reflexivity).
  assert (Hrevalued : map (fun t => currentPrice (trade_asset t))
                        (flat_map tradesOf (decisionHistory (view Scenario.revalued)))
                      = [200]) by (vm_compute; reflexivity).
  repeat split; try (vm_compute; reflexivity).
  intros Heq. rewrite Heq in Hrevalued. rewrite Hsold in Hrevalued. discriminate.
Qed.


End ObjectExamples.

(** ** More on the trade execution simulator *)

Section ExecutorBounds.
Import TradeExecutor.

Lemma getEstimatedDailyVolume_positive a :
  0 < marketValue a -> 0 < getEstimatedDailyVolume a.
Proof.
  intros Hmv. unfold getEstimatedDailyVolume.
  destruct (asset_type a); [lra |].
  destruct (securityType a) as [[] |]; lra.
Qed.

Lemma calculateMarketImpact_range order :
  calculateMarketImpact order <= 0.05
  /\ (0 <= quantity order ->
      0 <= currentPrice (asset order) ->
      0 < marketValue (asset order) ->
      0 <= calculateMarketImpact order).
Proof.
  unfold calculateMarketImpact. cbv zeta. split; [apply Q.le_min_r |].
  intros Hq Hp Hmv. apply Q.min_glb; [| lra].
  pose proof (getEstimatedDailyVolume_positive (asset order) Hmv) as Hvol.
  assert (Hratio : 0 <= quantity order * currentPrice (asset order)
                        / getEstimatedDailyVolume (asset order)).
  { apply Qle_shift_div_l; [exact Hvol |]. nra. }
  set (ratio := quantity order * currentPrice (asset order)
                / getEstimatedDailyVolume (asset order)) in *.
  destruct (asset_type (asset order)); [lra |].
  destruct (securityType (asset order)) as [[] |]; lra.
Qed.

Lemma calculateSlippage_range rnd order :
  unit_interval rnd ->
  0 <= slippageTolerance order ->
  0 <= calculateSlippage rnd order
  /\ calculateSlippage rnd order <= slippageTolerance order
  /\ calculateSlippage rnd order <= 0.0018.
Proof.
  intros [Hr0 Hr1] Htol. unfold calculateSlippage. cbv zeta.
  split; [| split].
  - apply Q.min_glb; [| exact Htol]. destruct (orderType order); nra.
  - apply Q.le_min_r.
  - eapply Qle_trans; [apply Q.le_min_l |]. destruct (orderType order); nra.
Qed.

(** X15: for an asset of positive market value, so that the estimated
    daily volume the impact is divided by is positive, the market impact
    is capped at 5%, and for a non-negative quantity and price it is not
    negative.  For a draw in [0, 1) and a non-negative tolerance, the
    slippage lies between 0 and the order's slippage tolerance and is at
    most 0.18%. *)
Theorem impact_and_slippage_bounds rnd order :
  0 < marketValue (asset order) ->
  unit_interval rnd ->
  0 <= slippageTolerance order ->
  0 < getEstimatedDailyVolume (asset order)
  /\ calculateMarketImpact order <= 0.05
  /\ (0 <= quantity order ->
      0 <= currentPrice (asset order) ->
      0 <= calculateMarketImpact order)
  /\ 0 <= calculateSlippage rnd order
  /\ calculateSlippage rnd order <= slippageTolerance order
  /\ calculateSlippage rnd order <= 0.0018.
Proof.
  intros Hvalue Hrnd Htol.
  destruct (calculateMarketImpact_range order) as [Hcap Hfloor].
  destruct (calculateSlippage_range rnd order Hrnd Htol) as (Hs0 & Hs1 & Hs2).
  split; [apply getEstimatedDailyVolume_positive; exact Hvalue |].
  split; [exact Hcap |].
  split; [intros Hq Hp; apply Hfloor; assumption |].
  repeat split; assumption.
Qed.

(** X16: an order that is not a LIMIT order, for a non-negative quantity
    of an asset of positive market value and non-negative price, executes
    against the trader by at most 5% impact plus the slippage tolerance,
    up to the rounding of half a unit of the fourth decimal: a BUY between
    the current price and 1.05 plus the tolerance times it, a SELL between
    0.95 minus the tolerance times the current price and the current
    price. *)
Theorem market_order_price_bounds d now order tradeId :
  executionSuccess d = true ->
  unit_interval (r_volatility d) ->
  orderType order <> LIMIT ->
  0 <= slippageTolerance order ->
  0 <= quantity order ->
  0 <= currentPrice (asset order) ->
  0 < marketValue (asset order) ->
  match action order with
  | BUY =>
      currentPrice (asset order) - 0.00005
      < trade_price (simulateTradeExecution d now order tradeId)
      /\ trade_price (simulateTradeExecution d now order tradeId)
         <= currentPrice (asset order) * (1.05 + slippageTolerance order) + 0.00005
  | SELL =>
      currentPrice (asset order) * (0.95 - slippageTolerance order) - 0.00005
      < trade_price (simulateTradeExecution d now order tradeId)
      /\ trade_price (simulateTradeExecution d now order tradeId)
         <= currentPrice (asset order) + 0.00005
  end.
Proof.
  intros Hsucc Hrnd Htype Htol Hq Hp Hmv.
  unfold simulateTradeExecution. rewrite Hsucc. cbn [negb trade_price].
  destruct (calculateMarketImpact_range order) as [Hi1 Hi0].
  specialize (Hi0 Hq Hp Hmv).
  destruct (calculateSlippage_range (r_volatility d) order Hrnd Htol)
    as (Hs0 & Hs1 & _).
  set (impact := calculateMarketImpact order) in *.
  set (slip := calculateSlippage (r_volatility d) order) in *.
  rewrite calculateExecutionPrice_rounds.
  assert (Hclamped : clampedPrice order impact slip
                     = match action order with
                       | BUY => currentPrice (asset order) * (1 + (impact + slip))
                       | SELL => currentPrice (asset order) * (1 - (impact + slip))
                       end).
  { unfold clampedPrice. destruct (orderType order); [| contradiction |];
      destruct (action order); reflexivity. }
  rewrite Hclamped.
  unfold Qdiv. change (/ 10000) with (1 # 10000).
  destruct (action order).
  - pose proof (Math_round_le
                  (currentPrice (asset order) * (1 + (impact + slip)) * 10000)).
    pose proof (Math_round_gt
                  (currentPrice (asset order) * (1 + (impact + slip)) * 10000)).
    split; nra.
  - pose proof (Math_round_le
                  (currentPrice (asset order) * (1 - (impact + slip)) * 10000)).
    pose proof (Math_round_gt
                  (currentPrice (asset order) * (1 - (impact + slip)) * 10000)).
    split; nra.
Qed.

End ExecutorBounds.

(** ** Validation and batches *)

Section OrderDeskFacts.
Context `{Externals}.
Import TradeExecutor OrderDesk.



(** X18: a batch returns one execution for each order, in order, each for
    the asset and action of its order; each is either FAILED at price 0
    with the requested quantity, or FILLED or PARTIAL; and the execution at
    a position is that of [executeTrade] on the order there, whatever the
    other orders are. *)
Theorem executeBatchTrades_independent mockMode inp orders :
  Forall2
    (fun order t =>
       trade_asset t = asset order
       /\ trade_action t = action order
       /\ ((trade_status t = T_FAILED /\ trade_price t = 0
            /\ trade_quantity t = quantity order)
           \/ trade_status t = T_FILLED \/ trade_status t = T_PARTIAL))
    orders (executeBatchTrades mockMode inp orders)
  /\ (forall i order,
        orders !! i = Some order ->
        executeBatchTrades mockMode inp orders !! i
        = Some (executeTrade mockMode
                  (PortfolioAgent.ti_draws (inp i)) (PortfolioAgent.ti_now (inp i))
                  order (PortfolioAgent.ti_tradeId (inp i)))).
Proof.
  assert (Hone : forall d now order tradeId,
             trade_asset (executeTrade mockMode d now order tradeId) = asset order
             /\ trade_action (executeTrade mockMode d now order tradeId) = action order
             /\ ((trade_status (executeTrade mockMode d now order tradeId) = T_FAILED
                  /\ trade_price (executeTrade mockMode d now order tradeId) = 0
                  /\ trade_quantity (executeTrade mockMode d now order tradeId)
                     = quantity order)
                 \/ trade_status (executeTrade mockMode d now order tradeId) = T_FILLED
                 \/ trade_status (executeTrade mockMode d now order tradeId) = T_PARTIAL)).
  { intros d now order tradeId. unfold executeTrade, simulateTradeExecution.
    destruct mockMode; [| cbn; tauto].
    destruct (negb (executionSuccess d));
      cbn [trade_asset trade_action trade_status trade_price trade_quantity];
      [tauto |].
    match goal with
    | |- context [if ?b then T_FILLED else T_PARTIAL] => destruct b
    end; tauto. }
  assert (Hat : forall i order,
             orders !! i = Some order ->
             executeBatchTrades mockMode inp orders !! i
             = Some (executeTrade mockMode
                       (PortfolioAgent.ti_draws (inp i)) (PortfolioAgent.ti_now (inp i))
                       order (PortfolioAgent.ti_tradeId (inp i)))).
  { intros i order Hi. unfold executeBatchTrades.
    rewrite list_lookup_imap, Hi. reflexivity. }
  split; [| exact Hat].
  apply Forall2_same_length_lookup. split.
  - unfold executeBatchTrades. rewrite length_imap. reflexivity.
  - intros i order t Hi Ht. rewrite (Hat i order Hi) in Ht.
    injection Ht as <-. apply Hone.
Qed.

End OrderDeskFacts.

(** ** The reasoning engine *)

Section ReasoningFacts.
Context `{Externals}.
Import Reasoning.

(** X19: [assessMarketConditions] never returns its fallback sentence:
    the text it tests always ends in a full stop and so is never empty.
    For market data without any adverse signal it returns a lone full
    stop. *)
Theorem assessMarketConditions_never_stable marketData :
  assessMarketConditions marketData
  <> "Market conditions appear stable for normal operations."
  /\ (volatility (marketSentiment marketData) <> V_HIGH ->
      interestRates (marketSentiment marketData) <> RISING ->
      creditMarkets (marketSentiment marketData) <> WIDENING ->
      overall (marketSentiment marketData) <> BEARISH ->
      assessMarketConditions marketData = ".").
Proof.
  unfold assessMarketConditions. cbv zeta.
  destruct (marketSentiment marketData) as [o c i v].
  destruct o, c, i, v; vm_compute; split; try discriminate;
    intros; try reflexivity; exfalso; auto.
Qed.



End ReasoningFacts.

(** ** The registry of the monitor *)

Section RegistryFacts.
Context {A : Type} `{AgentMonitor.Stoppable A}.
Import AgentMonitor Supervisor.

Lemma map_get_set_eq k (v : A) l : map_get k (map_set k v l) = Some v.
Proof.
  unfold map_get. induction l as [| [k' v'] l IH]; cbn.
  - rewrite String.eqb_refl. reflexivity.
  - destruct (String.eqb k' k) eqn:Hk; cbn.
    + rewrite String.eqb_refl. reflexivity.
    + rewrite Hk. exact IH.
Qed.

Lemma map_get_set_ne k k' (v : A) l :
  k <> k' -> map_get k' (map_set k v l) = map_get k' l.
Proof.
  intros Hne. unfold map_get. induction l as [| [k0 v0] l IH]; cbn.
  - apply String.eqb_neq in Hne. rewrite Hne. reflexivity.
  - destruct (String.eqb k0 k) eqn:Hk; cbn.
    + apply String.eqb_eq in Hk. subst k0.
      apply String.eqb_neq in Hne. rewrite Hne. reflexivity.
    + destruct (String.eqb k0 k'); [reflexivity | exact IH].
Qed.

Lemma map_get_delete_eq k (l : list (string * A)) : map_get k (map_delete k l) = None.
Proof.
  unfold map_get, map_delete. induction l as [| [k0 v0] l IH]; [reflexivity |].
  rewrite filter_cons. cbn [fst]. destruct (decide (k0 <> k)) as [Hne | Heq].
  - cbn. apply String.eqb_neq in Hne. rewrite Hne. exact IH.
  - exact IH.
Qed.

Lemma map_get_delete_ne k k' (l : list (string * A)) :
  k <> k' -> map_get k' (map_delete k l) = map_get k' l.
Proof.
  intros Hne. unfold map_get, map_delete.
  induction l as [| [k0 v0] l IH]; [reflexivity |].
  rewrite filter_cons. cbn [fst]. destruct (decide (k0 <> k)) as [Hk | Hk].
  - cbn. destruct (String.eqb k0 k'); [reflexivity | exact IH].
  - apply dec_stable in Hk. subst k0. cbn.
    apply String.eqb_neq in Hne. rewrite Hne. exact IH.
Qed.

Lemma map_get_Some k (l : list (string * A)) v :
  map_get k l = Some v -> k ∈ map fst l.
Proof.
  unfold map_get. induction l as [| [k0 v0] l IH]; cbn; [discriminate |].
  destruct (String.eqb k0 k) eqn:Hk.
  - apply String.eqb_eq in Hk. subst. intros _. left.
  - intros Hv. right. apply IH. exact Hv.
Qed.

Lemma map_get_None k (l : list (string * A)) :
  map_get k l = None -> k ∉ map fst l.
Proof.
  unfold map_get. induction l as [| [k0 v0] l IH]; cbn.
  - intros _ Hin. inversion Hin.
  - destruct (String.eqb k0 k) eqn:Hk; [discriminate |].
    intros Hv. apply String.eqb_neq in Hk. apply not_elem_of_cons.
    split; [congruence | apply IH; exact Hv].
Qed.

Lemma map_set_keys k (v : A) l :
  map fst (map_set k v l)
  = if bool_decide (k ∈ map fst l) then map fst l else map fst l ++ [k].
Proof.
  induction l as [| [k0 v0] l IH]; cbn; [reflexivity |].
  destruct (String.eqb k0 k) eqn:Hk.
  - apply String.eqb_eq in Hk. subst k0. cbn.
    rewrite bool_decide_eq_true_2 by left. reflexivity.
  - apply String.eqb_neq in Hk. cbn. rewrite IH.
    destruct (bool_decide (k ∈ map fst l)) eqn:Hin.
    + apply bool_decide_eq_true in Hin.
      rewrite bool_decide_eq_true_2 by (right; exact Hin). reflexivity.
    + apply bool_decide_eq_false in Hin.
      rewrite bool_decide_eq_false_2; [reflexivity |].
      intros Hc. apply elem_of_cons in Hc as [Hc | Hc]; [congruence | contradiction].
Qed.

(** X21: the map of agents behaves as a map.  After [registerAgent] the
    agent is found under the identity its state reports, and the other
    entries are as before; registering under an identity that is present
    replaces that entry in place and adds none; after [unregisterAgent]
    the identity is absent and the other entries are as before; and the
    keys stay free of duplicates. *)
Theorem registry_is_a_map (agent : A) id (m : Monitor A) :
  map_get (agentId agent) (agents (registerAgent agent m)) = Some agent
  /\ (id <> agentId agent ->
      map_get id (agents (registerAgent agent m)) = map_get id (agents m))
  /\ (is_Some (map_get (agentId agent) (agents m)) ->
      map fst (agents (registerAgent agent m)) = map fst (agents m))
  /\ (map_get (agentId agent) (agents m) = None ->
      map fst (agents (registerAgent agent m)) = map fst (agents m) ++ [agentId agent])
  /\ map_get id (agents (unregisterAgent id m)) = None
  /\ (forall id', id <> id' ->
        map_get id' (agents (unregisterAgent id m)) = map_get id' (agents m))
  /\ (NoDup (map fst (agents m)) ->
      NoDup (map fst (agents (registerAgent agent m)))
      /\ NoDup (map fst (agents (unregisterAgent id m)))).
Proof.
  unfold registerAgent, unregisterAgent. cbn [agents log set_agents].
  split; [apply map_get_set_eq |].
  split; [intros Hne; apply map_get_set_ne; congruence |].
  split.
  { intros [v Hv]. rewrite map_set_keys.
    rewrite bool_decide_eq_true_2; [reflexivity |].
    eapply map_get_Some. exact Hv. }
  split.
  { intros Hv. rewrite map_set_keys.
    rewrite bool_decide_eq_false_2; [reflexivity |].
    apply map_get_None. exact Hv. }
  split; [apply map_get_delete_eq |].
  split; [intros id' Hne; apply map_get_delete_ne; exact Hne |].
  intros Hnodup. split.
  - rewrite map_set_keys. case_bool_decide as Hin; [exact Hnodup |].
    apply NoDup_app. split; [exact Hnodup |]. split.
    + intros x Hx Hx'. apply list_elem_of_singleton in Hx'. subst. contradiction.
    + apply NoDup_singleton.
  - unfold map_delete.
    assert (Hsub : forall l : list (string * A),
               NoDup (map fst l) ->
               NoDup (map fst (filter (fun kv => fst kv <> id) l))).
    { induction l as [| [k0 v0] l IH]; intros Hl; [constructor |].
      cbn [map fst] in Hl. apply NoDup_cons in Hl as [Hk Hl].
      rewrite filter_cons. destruct (decide (fst (k0, v0) <> id)); [| apply IH; exact Hl].
      cbn [map fst]. apply NoDup_cons. split; [| apply IH; exact Hl].
      intros Hin. apply Hk.
      apply list_elem_of_fmap in Hin as (kv & Hkv & Hin).
      apply list_elem_of_filter in Hin as [_ Hin].
      apply list_elem_of_fmap. eauto. }
    apply Hsub. exact Hnodup.
Qed.

End RegistryFacts.

(** ** The monitor's sweep *)

Section SupervisorFacts.
Context `{Externals}.
Import AgentMonitor Supervisor Measure.

(** *** Counting failures *)

Lemma leadingFailures_app fails rest :
  Forall (fun d => decision_status d = FAILED) fails ->
  leadingFailures (fails ++ rest) = (length fails + leadingFailures rest)%nat.
Proof.
  induction 1 as [| d fails Hd _ IH]; [reflexivity |].
  cbn. rewrite (bool_decide_eq_true_2 _ Hd), IH. reflexivity.
Qed.

Lemma leadingFailures_le l : (leadingFailures l <= length l)%nat.
Proof.
  induction l as [| d l IH]; cbn; [lia |].
  destruct (bool_decide _); lia.
Qed.

(** X22: [countConsecutiveFailures] is the number of FAILED decisions at
    the end of the list, up to the last decision that is not FAILED; it is
    the length of the list when all are FAILED and 0 when the list is empty
    or its last decision is not FAILED. *)
Theorem countConsecutiveFailures_suffix before d fails :
  Forall (fun d => decision_status d = FAILED) fails ->
  decision_status d <> FAILED ->
  countConsecutiveFailures (before ++ d :: fails) = length fails
  /\ countConsecutiveFailures fails = length fails
  /\ countConsecutiveFailures (before ++ [d]) = 0%nat
  /\ countConsecutiveFailures [] = 0%nat.
Proof.
  intros Hfails Hd. unfold countConsecutiveFailures.
  assert (Hrev : Forall (fun d => decision_status d = FAILED) (rev fails))
    by (apply Forall_rev; exact Hfails).
  split; [| split; [| split]].
  - rewrite rev_app_distr. cbn [rev]. rewrite <- app_assoc.
    rewrite leadingFailures_app by exact Hrev.
    rewrite length_rev. cbn. rewrite (bool_decide_eq_false_2 _ Hd). lia.
  - rewrite <- (app_nil_r (rev fails)).
    rewrite leadingFailures_app by exact Hrev. rewrite length_rev. cbn. lia.
  - rewrite rev_app_distr. cbn. rewrite (bool_decide_eq_false_2 _ Hd). reflexivity.
  - reflexivity.
Qed.

Lemma recentFailures_le decisions : (recentFailures decisions <= 5)%nat.
Proof.
  unfold recentFailures, countConsecutiveFailures.
  etransitivity; [apply leadingFailures_le |].
  rewrite length_rev. unfold PortfolioAgent.slice_last. rewrite length_drop. lia.
Qed.

(** *** Overrides *)

(** X23: [overrideAgent] returns false and changes nothing for an identity
    that is not registered.  For a registered agent it returns true and
    leaves in the map the agent as its [pause()], [start()] or [stop()]
    leaves it, the other agents being untouched; this also when a RESUME
    meets a disabled configuration, where [start()] only raises an alert
    and the status stays what it was. *)
Theorem overrideAgent_outcome now agentId action (m : Monitor PortfolioAgent.Agent) :
  (map_get agentId (agents m) = None ->
   overrideAgent now agentId action m = (m, false))
  /\ (forall agent,
        map_get agentId (agents m) = Some agent ->
        snd (overrideAgent now agentId action m) = true
        /\ map_get agentId (agents (fst (overrideAgent now agentId action m)))
           = Some (match action with
                   | PAUSE => PortfolioAgent.pause now agent
                   | RESUME => PortfolioAgent.start now agent
                   | STOP => PortfolioAgent.stop now agent
                   end)
        /\ (forall other, agentId <> other ->
              map_get other (agents (fst (overrideAgent now agentId action m)))
              = map_get other (agents m))
        /\ (action = RESUME ->
            enabled (PortfolioAgent.config agent) = false ->
            exists agent',
              map_get agentId (agents (fst (overrideAgent now agentId action m)))
              = Some agent'
              /\ status (PortfolioAgent.state agent')
                 = status (PortfolioAgent.state agent))).
Proof.
  unfold overrideAgent. split.
  - intros Hnone. rewrite Hnone. reflexivity.
  - intros agent Hsome. rewrite Hsome. cbn [fst snd agents log set_agents].
    split; [reflexivity |].
    split; [apply map_get_set_eq |].
    split; [intros other Hne; apply map_get_set_ne; exact Hne |].
    intros -> Hoff. eexists. split; [apply map_get_set_eq |].
    unfold PortfolioAgent.start. rewrite Hoff. reflexivity.
Qed.


(** *** What the checks of a sweep are made of

    Every check writes diagnostics, pauses the agent it looks at, or begins
    a shutdown; what these three keep, a sweep keeps. *)

Section SweepInduction.
Variable P : Sweep -> Prop.
Variable reached : string -> Prop.
Hypothesis P_diagnose : forall d sw, P sw -> P (diagnose d sw).
Hypothesis P_autoPause : forall now agentId sw,
  reached agentId -> P sw -> P (autoPause now agentId sw).
Hypothesis P_beginShutdown : forall now reason sw, P sw -> P (beginShutdown now reason sw).

Lemma checkPerformanceAlerts_keeps now agentId state decisions sw :
  reached agentId -> P sw -> P (checkPerformanceAlerts now agentId state decisions sw).
Proof.
  intros Hid Hsw. unfold checkPerformanceAlerts. cbv zeta.
  repeat match goal with
         | |- P (if ?c then _ else _) => destruct c
         | |- P (diagnose _ _) => apply P_diagnose
         | |- P (autoPause _ _ _) => apply P_autoPause; [exact Hid |]
         end; exact Hsw.
Qed.

Lemma checkRiskLimits_keeps now agentId state sw :
  reached agentId -> P sw -> P (checkRiskLimits now agentId state sw).
Proof.
  intros Hid Hsw. unfold checkRiskLimits. cbv zeta.
  repeat match goal with
         | |- P (if ?c then _ else _) => destruct c
         | |- P (diagnose _ _) => apply P_diagnose
         | |- P (autoPause _ _ _) => apply P_autoPause; [exact Hid |]
         end; exact Hsw.
Qed.

Lemma checkSystemHealth_keeps now agentId state sw :
  P sw -> P (checkSystemHealth now agentId state sw).
Proof.
  intros Hsw. unfold checkSystemHealth. cbv zeta.
  repeat match goal with
         | |- P (if ?c then _ else _) => destruct c
         | |- P (diagnose _ _) => apply P_diagnose
         end; exact Hsw.
Qed.

Lemma checkShutdownTriggers_keeps now state decisions triggers sw :
  P sw -> P (checkShutdownTriggers now state decisions triggers sw).
Proof.
  intros Hsw. induction triggers as [| trigger rest IH]; cbn; [exact Hsw |].
  destruct (thresholdBreached _ _ _ _); [apply P_beginShutdown; exact Hsw | exact IH].
Qed.

Lemma monitorAgent_keeps now agentId agent sw :
  reached agentId -> P sw -> P (monitorAgent now agentId agent sw).
Proof.
  intros Hid Hsw. unfold monitorAgent. cbv zeta.
  apply checkShutdownTriggers_keeps, checkSystemHealth_keeps,
    checkRiskLimits_keeps, checkPerformanceAlerts_keeps; assumption.
Qed.

Lemma monitorAll_keeps now ids sw :
  Forall reached ids -> P sw -> P (monitorAll now ids sw).
Proof.
  intros Hids. revert sw. induction Hids as [| agentId rest Hid _ IH]; intros sw Hsw.
  - exact Hsw.
  - cbn. apply IH. destruct (map_get agentId _); [| exact Hsw].
    apply monitorAgent_keeps; assumption.
Qed.

End SweepInduction.

Lemma overrideAgent_wiring now agentId action m :
  wiring (fst (overrideAgent now agentId action m)) = wiring m.
Proof. unfold overrideAgent. destruct (map_get agentId (agents m)); reflexivity. Qed.

Lemma overrideAgent_flag now agentId action m :
  emergencyShutdownActive (fst (overrideAgent now agentId action m))
  = emergencyShutdownActive m.
Proof. unfold overrideAgent. destruct (map_get agentId (agents m)); reflexivity. Qed.

Lemma emergencyShutdown_begin_Some now reason (m m' : Monitor PortfolioAgent.Agent) :
  emergencyShutdown_begin now reason m = Some m' ->
  emergencyShutdownActive m = false
  /\ emergencyShutdownActive m' = true
  /\ wiring m' = wiring m
  /\ agents m' = map (fun entry => (fst entry, PortfolioAgent.stop now (snd entry))) (agents m).
Proof.
  unfold emergencyShutdown_begin. destruct (emergencyShutdownActive m) eqn:Hflag;
    [discriminate |].
  intros [= <-]. split; [reflexivity |]. split; [reflexivity |]. split; [reflexivity |].
  cbn [sendEmergencyNotification agents log]. rewrite stopAll_agents. reflexivity.
Qed.

Lemma emergencyShutdown_begin_None now reason (m : Monitor PortfolioAgent.Agent) :
  emergencyShutdown_begin now reason m = None -> emergencyShutdownActive m = true.
Proof.
  unfold emergencyShutdown_begin. destruct (emergencyShutdownActive m); [reflexivity | discriminate].
Qed.

Lemma beginShutdown_flag now reason sw :
  emergencyShutdownActive (monitor (beginShutdown now reason sw)) = true.
Proof.
  unfold beginShutdown. destruct (emergencyShutdown_begin _ _ _) as [m' |] eqn:Hbegin.
  - apply emergencyShutdown_begin_Some in Hbegin. cbn. tauto.
  - apply emergencyShutdown_begin_None in Hbegin. exact Hbegin.
Qed.

(** The configuration and the timer of the monitor stay as they are
    through a sweep. *)
Lemma monitorAll_wiring now ids sw :
  wiring (monitor (monitorAll now ids sw)) = wiring (monitor sw).
Proof.
  apply (monitorAll_keeps (fun sw' => wiring (monitor sw') = wiring (monitor sw))
           (fun _ => True)).
  - intros d sw' Hsw'. exact Hsw'.
  - intros now' agentId sw' _ Hsw'. unfold autoPause. cbn [monitor with_monitor].
    rewrite overrideAgent_wiring. exact Hsw'.
  - intros now' reason sw' Hsw'. unfold beginShutdown.
    destruct (emergencyShutdown_begin _ _ _) as [m' |] eqn:Hbegin; [| exact Hsw'].
    apply emergencyShutdown_begin_Some in Hbegin as (_ & _ & Hwiring & _).
    cbn [monitor]. congruence.
  - apply Forall_forall. intros; exact I.
  - reflexivity.
Qed.

Lemma monitorAgent_wiring now agentId agent sw :
  wiring (monitor (monitorAgent now agentId agent sw)) = wiring (monitor sw).
Proof.
  apply (monitorAgent_keeps (fun sw' => wiring (monitor sw') = wiring (monitor sw))
           (fun _ => True)).
  - intros d sw' Hsw'. exact Hsw'.
  - intros now' agentId' sw' _ Hsw'. unfold autoPause. cbn [monitor with_monitor].
    rewrite overrideAgent_wiring. exact Hsw'.
  - intros now' reason sw' Hsw'. unfold beginShutdown.
    destruct (emergencyShutdown_begin _ _ _) as [m' |] eqn:Hbegin; [| exact Hsw'].
    apply emergencyShutdown_begin_Some in Hbegin as (_ & _ & Hwiring & _).
    cbn [monitor]. congruence.
  - exact I.
  - reflexivity.
Qed.

(** Once raised, the flag stays. *)
Lemma monitorAll_flag now ids sw :
  emergencyShutdownActive (monitor sw) = true ->
  emergencyShutdownActive (monitor (monitorAll now ids sw)) = true.
Proof.
  apply (monitorAll_keeps (fun sw' => emergencyShutdownActive (monitor sw') = true)
           (fun _ => True)).
  - intros d sw' Hsw'. exact Hsw'.
  - intros now' agentId sw' _ Hsw'. unfold autoPause. cbn [monitor with_monitor].
    rewrite overrideAgent_flag. exact Hsw'.
  - intros now' reason sw' _. apply beginShutdown_flag.
  - apply Forall_forall. intros; exact I.
Qed.

Lemma Forall_map_set {B} (Q : string * B -> Prop) k v l :
  Forall Q l -> Q (k, v) -> Forall Q (map_set k v l).
Proof.
  intros Hl Hv. induction Hl as [| [k' v'] l Hhead Hrest IH]; cbn.
  - constructor; [exact Hv | constructor].
  - destruct (String.eqb k' k); constructor; assumption.
Qed.

Lemma pause_status now a : status (PortfolioAgent.state (PortfolioAgent.pause now a)) = PAUSED.
Proof. unfold PortfolioAgent.pause. cbv zeta. rewrite addAlert_status. reflexivity. Qed.

Lemma autoPause_safe now agentId sw : safe sw -> safe (autoPause now agentId sw).
Proof.
  unfold safe, autoPause. cbn [monitor with_monitor suspended].
  rewrite overrideAgent_flag. intros Hsafe Hflag.
  destruct (Hsafe Hflag) as [Hwaits Hsettled]. split; [exact Hwaits |].
  unfold allSettled, overrideAgent in *.
  destruct (map_get agentId _); [| exact Hsettled].
  cbn [fst agents log set_agents]. apply Forall_map_set; [exact Hsettled |].
  right. apply pause_status.
Qed.

Lemma beginShutdown_safe now reason sw : safe sw -> safe (beginShutdown now reason sw).
Proof.
  unfold beginShutdown.
  destruct (emergencyShutdown_begin _ _ _) as [m' |] eqn:Hbegin; [| tauto].
  apply emergencyShutdown_begin_Some in Hbegin as (_ & _ & _ & Hagents).
  intros _ _. cbn [suspended monitor]. split; [reflexivity |].
  unfold allSettled. rewrite Hagents. apply Forall_map, Forall_forall.
  intros entry _. left. apply stop_status.
Qed.

Lemma monitorAll_safe now ids sw : safe sw -> safe (monitorAll now ids sw).
Proof.
  apply (monitorAll_keeps safe (fun _ => True)).
  - intros d sw' Hsw'. exact Hsw'.
  - intros now' agentId sw' _. apply autoPause_safe.
  - intros now' reason sw'. apply beginShutdown_safe.
  - apply Forall_forall. intros; exact I.
Qed.

(** *** Automatic pauses *)

Lemma checkPerformanceAlerts_monitor now agentId state decisions sw :
  monitor (checkPerformanceAlerts now agentId state decisions sw)
  = if Qle_bool (maxConsecutiveFailures (alertThresholds (config (monitor sw))))
                (inject_Z (Z.of_nat (recentFailures decisions)))
    then fst (overrideAgent now agentId PAUSE (monitor sw))
    else monitor sw.
Proof.
  unfold checkPerformanceAlerts, recentFailures. cbv zeta.
  destruct (Qltb (successRate state) _); cbn [monitor diagnose];
    destruct (Qle_bool _ _);
    destruct (Qgtb (maxDrawdown _) _); reflexivity.
Qed.

Lemma checkRiskLimits_monitor now agentId state sw :
  monitor (checkRiskLimits now agentId state sw)
  = if (3 <=? length (criticalAlerts state))%nat
    then fst (overrideAgent now agentId PAUSE (monitor sw))
    else monitor sw.
Proof.
  unfold checkRiskLimits, criticalAlerts. cbv zeta.
  destruct (length _) as [| [| [| n]]]; reflexivity.
Qed.

Lemma overrideAgent_registered now agentId action agent m :
  map_get agentId (agents m) = Some agent ->
  map_get agentId (agents (fst (overrideAgent now agentId action m)))
  = Some (match action with
          | PAUSE => PortfolioAgent.pause now agent
          | RESUME => PortfolioAgent.start now agent
          | STOP => PortfolioAgent.stop now agent
          end).
Proof.
  intros Hsome. unfold overrideAgent. rewrite Hsome. cbn [fst agents log set_agents].
  apply map_get_set_eq.
Qed.

Lemma overrideAgent_elsewhere now agentId action other m :
  agentId <> other ->
  map_get other (agents (fst (overrideAgent now agentId action m)))
  = map_get other (agents m).
Proof.
  intros Hne. unfold overrideAgent. destruct (map_get agentId (agents m)); [| reflexivity].
  cbn [fst agents log set_agents]. apply map_get_set_ne. exact Hne.
Qed.

(** X24: the two automatic pauses of a sweep.  [checkPerformanceAlerts]
    pauses the agent exactly when the FAILED decisions that end its last
    five decisions number at least [maxConsecutiveFailures]; since it looks
    at five decisions only, a limit above 5 never pauses, and a limit of 0
    or less pauses at every sweep.  [checkRiskLimits] pauses the agent
    exactly when it has 3 or more unacknowledged CRITICAL alerts.  In each
    case the agent in the map is the agent after its [pause()], and without
    a pause the monitor is unchanged. *)
Theorem auto_pause now agentId agent sw :
  map_get agentId (agents (monitor sw)) = Some agent ->
  let limit := maxConsecutiveFailures (alertThresholds (config (monitor sw))) in
  let failures :=
    inject_Z (Z.of_nat (recentFailures (PortfolioAgent.getDecisionHistory agent))) in
  let sw1 :=
    checkPerformanceAlerts now agentId (PortfolioAgent.state agent)
      (PortfolioAgent.getDecisionHistory agent) sw in
  let sw2 := checkRiskLimits now agentId (PortfolioAgent.state agent) sw in
  (limit <= failures ->
   map_get agentId (agents (monitor sw1)) = Some (PortfolioAgent.pause now agent))
  /\ (failures < limit -> monitor sw1 = monitor sw)
  /\ (5 < limit -> monitor sw1 = monitor sw)
  /\ (limit <= 0 ->
      map_get agentId (agents (monitor sw1)) = Some (PortfolioAgent.pause now agent))
  /\ ((3 <= length (criticalAlerts (PortfolioAgent.state agent)))%nat ->
      map_get agentId (agents (monitor sw2)) = Some (PortfolioAgent.pause now agent))
  /\ ((length (criticalAlerts (PortfolioAgent.state agent)) < 3)%nat ->
      monitor sw2 = monitor sw).
Proof.
  intros Hsome limit failures sw1 sw2.
  assert (Hcap : failures <= 5).
  { unfold failures. change 5 with (inject_Z 5). rewrite <- Zle_Qle.
    pose proof (recentFailures_le (PortfolioAgent.getDecisionHistory agent)). lia. }
  assert (Hfloor : 0 <= failures).
  { unfold failures. change 0 with (inject_Z 0). rewrite <- Zle_Qle. lia. }
  assert (Hpause : limit <= failures ->
            map_get agentId (agents (monitor sw1))
            = Some (PortfolioAgent.pause now agent)).
  { intros Hle. unfold sw1. rewrite checkPerformanceAlerts_monitor.
    fold limit failures. apply Qle_bool_iff in Hle. rewrite Hle.
    apply (overrideAgent_registered now agentId PAUSE). exact Hsome. }
  assert (Hkeep : failures < limit -> monitor sw1 = monitor sw).
  { intros Hlt. unfold sw1. rewrite checkPerformanceAlerts_monitor.
    fold limit failures. destruct (Qle_bool limit failures) eqn:Hle; [| reflexivity].
    apply Qle_bool_iff in Hle. lra. }
  split; [exact Hpause |]. split; [exact Hkeep |].
  split; [intros Hhigh; apply Hkeep; lra |].
  split; [intros Hlow; apply Hpause; lra |].
  split.
  - intros Hmany. unfold sw2. rewrite checkRiskLimits_monitor.
    apply Nat.leb_le in Hmany. rewrite Hmany.
    apply (overrideAgent_registered now agentId PAUSE). exact Hsome.
  - intros Hfew. unfold sw2. rewrite checkRiskLimits_monitor.
    apply Nat.leb_gt in Hfew. rewrite Hfew. reflexivity.
Qed.

(** *** Shutdown triggers *)

Lemma checkShutdownTriggers_none now state decisions triggers sw :
  Forall (fun t => thresholdBreached now state decisions t = false) triggers ->
  checkShutdownTriggers now state decisions triggers sw = sw.
Proof.
  induction 1 as [| trigger rest Hhead _ IH]; cbn; [reflexivity |].
  rewrite Hhead. exact IH.
Qed.

Lemma checkShutdownTriggers_fires now state decisions triggers sw :
  Exists (fun t => thresholdBreached now state decisions t = true) triggers ->
  emergencyShutdownActive (monitor (checkShutdownTriggers now state decisions triggers sw))
  = true.
Proof.
  induction 1 as [trigger rest Hhead | trigger rest _ IH]; cbn.
  - rewrite Hhead. apply beginShutdown_flag.
  - destruct (thresholdBreached _ _ _ trigger); [apply beginShutdown_flag | exact IH].
Qed.

(** X25: [checkShutdownTriggers] acts on the first trigger that is
    breached and on no other.  With no trigger breached the sweep is
    unchanged.  Otherwise it calls [emergencyShutdown] once, with the
    reason built from the first breached trigger: when a shutdown is
    already active nothing changes; when none is, the flag is raised, every
    registered agent is the agent after its [stop()], the console has the
    line of the shutdown with that reason, the timer of the monitor is
    still as it was, and the rest of the shutdown waits for the end of the
    sweep. *)
Theorem checkShutdownTriggers_first now agent sw :
  (forall triggers,
     Forall (fun t => breaches now agent t = false) triggers ->
     checkShutdownTriggers now (PortfolioAgent.state agent)
       (PortfolioAgent.getDecisionHistory agent) triggers sw = sw)
  /\ (forall before trigger rest,
        Forall (fun t => breaches now agent t = false) before ->
        breaches now agent trigger = true ->
        let sw' :=
          checkShutdownTriggers now (PortfolioAgent.state agent)
            (PortfolioAgent.getDecisionHistory agent) (before ++ trigger :: rest) sw in
        sw' = beginShutdown now (shutdownReason now agent trigger) sw
        /\ (emergencyShutdownActive (monitor sw) = true -> sw' = sw)
        /\ (emergencyShutdownActive (monitor sw) = false ->
            emergencyShutdownActive (monitor sw') = true
            /\ suspended sw' = true
            /\ agents (monitor sw')
               = map (fun entry => (fst entry, PortfolioAgent.stop now (snd entry)))
                     (agents (monitor sw))
            /\ ConsoleLog ("EMERGENCY SHUTDOWN INITIATED: "
                           +:+ shutdownReason now agent trigger)
               ∈ console (monitor sw')
            /\ wiring (monitor sw') = wiring (monitor sw))).
Proof.
  split; [intros triggers; apply checkShutdownTriggers_none |].
  intros before trigger rest Hbefore Hbreach sw'.
  assert (Hfirst : sw' = beginShutdown now (shutdownReason now agent trigger) sw).
  { unfold sw'. clear sw'. induction Hbefore as [| t before Hhead _ IH]; cbn.
    - unfold breaches in Hbreach. rewrite Hbreach. reflexivity.
    - unfold breaches in Hhead. rewrite Hhead. exact IH. }
  split; [exact Hfirst |]. rewrite Hfirst. clear Hfirst sw'.
  unfold beginShutdown. split.
  - intros Hflag. unfold emergencyShutdown_begin. rewrite Hflag. reflexivity.
  - intros Hflag.
    destruct (emergencyShutdown_begin _ _ _) as [m' |] eqn:Hbegin.
    + pose proof Hbegin as Hshape.
      apply emergencyShutdown_begin_Some in Hbegin as (_ & Hraised & Hwiring & Hagents).
      cbn [monitor suspended].
      split; [exact Hraised |]. split; [reflexivity |]. split; [exact Hagents |].
      split; [| exact Hwiring].
      unfold emergencyShutdown_begin in Hshape. rewrite Hflag in Hshape.
      injection Hshape as <-.
      cbn [sendEmergencyNotification stopAll log raise_flag console agents config].
      rewrite !elem_of_app. left. left. left. right. apply list_elem_of_singleton.
      reflexivity.
    + apply emergencyShutdown_begin_None in Hbegin. congruence.
Qed.

(** *** A firing of the monitor's timer *)

Lemma settle_flag sw :
  emergencyShutdownActive (settle sw) = emergencyShutdownActive (monitor sw).
Proof. unfold settle. destruct (suspended sw); [apply stopMonitoring_flag | reflexivity]. Qed.

Lemma performMonitoringCycle_safe now m :
  emergencyShutdownActive m = false -> safe (performMonitoringCycle now m).
Proof.
  intros Hflag. unfold performMonitoringCycle. rewrite Hflag.
  apply monitorAll_safe. intros Hset. cbn in Hset. congruence.
Qed.

Lemma performMonitoringCycle_wiring now m :
  wiring (monitor (performMonitoringCycle now m)) = wiring m.
Proof.
  unfold performMonitoringCycle. destruct (emergencyShutdownActive m); [reflexivity |].
  rewrite monitorAll_wiring. reflexivity.
Qed.

Lemma tick_settled now m :
  emergencyShutdownActive m = false ->
  emergencyShutdownActive (tick now m) = true ->
  AgentMonitor.intervalId (tick now m) = None
  /\ allSettled (tick now m)
  /\ (forall h, AgentMonitor.intervalId m = Some h -> h ∉ map fst (sweeps (tick now m))).
Proof.
  intros Hflag Hraised. unfold tick in *. rewrite settle_flag in Hraised.
  destruct (performMonitoringCycle_safe now m Hflag Hraised) as [Hwaits Hsettled].
  pose proof (performMonitoringCycle_wiring now m) as Hwiring.
  unfold settle. rewrite Hwaits.
  split; [apply stopMonitoring_intervalId |].
  split; [unfold allSettled; rewrite stopMonitoring_agents; exact Hsettled |].
  intros h Htimer. unfold wiring in Hwiring. injection Hwiring as _ Hid Hsweeps.
  unfold stopMonitoring. rewrite Hid, Htimer. cbn [log sweeps].
  apply clearInterval_cleared.
Qed.

(** X26: a firing of the monitor's timer.  With a shutdown active it does
    nothing.  Otherwise, if it ends with a shutdown active, then the
    monitor's timer is cleared, every registered agent is STOPPED or
    PAUSED (an agent stopped by the shutdown is PAUSED when a later check
    of the same sweep pauses it), and further firings do nothing; if it
    ends without, the configuration and the timer are as before. *)
Theorem tick_shutdown now m :
  (emergencyShutdownActive m = true -> tick now m = m)
  /\ (emergencyShutdownActive m = false ->
      (emergencyShutdownActive (tick now m) = true ->
       AgentMonitor.intervalId (tick now m) = None
       /\ allSettled (tick now m)
       /\ (forall h, AgentMonitor.intervalId m = Some h ->
                     h ∉ map fst (sweeps (tick now m)))
       /\ (forall later, tick later (tick now m) = tick now m))
      /\ (emergencyShutdownActive (tick now m) = false ->
          wiring (tick now m) = wiring m)).
Proof.
  assert (Hidle : forall t m0, emergencyShutdownActive m0 = true -> tick t m0 = m0).
  { intros t m0 Hflag. unfold tick, performMonitoringCycle. rewrite Hflag. reflexivity. }
  split; [apply Hidle |].
  intros Hflag. split.
  - intros Hraised.
    destruct (tick_settled now m Hflag Hraised) as (Htimer & Hsettled & Hcleared).
    split; [exact Htimer |]. split; [exact Hsettled |]. split; [exact Hcleared |].
    intros later. apply Hidle. exact Hraised.
  - intros Hclear. unfold tick in *. rewrite settle_flag in Hclear.
    pose proof (performMonitoringCycle_safe now m Hflag) as Hsafe.
    pose proof (performMonitoringCycle_wiring now m) as Hwiring.
    unfold settle. destruct (suspended _) eqn:Hwaits; [| exact Hwiring].
    exfalso. revert Hclear Hwaits.
    unfold performMonitoringCycle. rewrite Hflag.
    generalize (map fst (agents m)).
    intros ids.
    assert (Hinv : forall sw, (suspended sw = true ->
                               emergencyShutdownActive (monitor sw) = true) ->
                    suspended (monitorAll now ids sw) = true ->
                    emergencyShutdownActive (monitor (monitorAll now ids sw)) = true).
    { intros sw. apply (monitorAll_keeps
        (fun sw' => suspended sw' = true -> emergencyShutdownActive (monitor sw') = true)
        (fun _ => True)).
      - intros d sw' Hsw'. exact Hsw'.
      - intros now' agentId sw' _ Hsw'. unfold autoPause.
        cbn [monitor with_monitor suspended]. rewrite overrideAgent_flag. exact Hsw'.
      - intros now' reason sw' _ _. apply beginShutdown_flag.
      - apply Forall_forall. intros; exact I. }
    intros Hclear Hwaits. rewrite Hinv in Hclear; [discriminate | | exact Hwaits].
    cbn. discriminate.
Qed.

Lemma monitorAgent_fires now agentId agent sw :
  Exists (fun t => breaches now agent t = true)
         (autoShutdownTriggers (config (monitor sw))) ->
  emergencyShutdownActive (monitor (monitorAgent now agentId agent sw)) = true.
Proof.
  intros Hbreach. unfold monitorAgent. cbv zeta.
  apply checkShutdownTriggers_fires.
  match goal with
  | |- Exists _ (autoShutdownTriggers (config (monitor ?sw3))) =>
      assert (Hwiring : wiring (monitor sw3) = wiring (monitor sw))
  end.
  { apply (checkSystemHealth_keeps (fun sw' => wiring (monitor sw') = wiring (monitor sw)));
      [intros d sw' Hsw'; exact Hsw' |].
    apply (checkRiskLimits_keeps (fun sw' => wiring (monitor sw') = wiring (monitor sw))
             (fun _ => True));
      [intros d sw' Hsw'; exact Hsw'
      | intros now' agentId' sw' _ Hsw'; unfold autoPause; cbn [monitor with_monitor];
        rewrite overrideAgent_wiring; exact Hsw'
      | exact I |].
    apply (checkPerformanceAlerts_keeps
             (fun sw' => wiring (monitor sw') = wiring (monitor sw)) (fun _ => True));
      [intros d sw' Hsw'; exact Hsw'
      | intros now' agentId' sw' _ Hsw'; unfold autoPause; cbn [monitor with_monitor];
        rewrite overrideAgent_wiring; exact Hsw'
      | exact I | reflexivity]. }
  unfold wiring in Hwiring. injection Hwiring as Hconfig _ _. rewrite Hconfig.
  exact Hbreach.
Qed.

Lemma monitorAll_fires now agentId agent ids sw :
  agentId ∈ ids ->
  emergencyShutdownActive (monitor sw) = true
  \/ map_get agentId (agents (monitor sw)) = Some agent ->
  Exists (fun t => breaches now agent t = true)
         (autoShutdownTriggers (config (monitor sw))) ->
  emergencyShutdownActive (monitor (monitorAll now ids sw)) = true.
Proof.
  intros Hin. revert sw. induction ids as [| head rest IH]; intros sw Hhere Hbreach.
  - inversion Hin.
  - cbn. destruct (decide (head = agentId)) as [-> | Hne].
    + apply monitorAll_flag. destruct Hhere as [Hflag | Hsome].
      * destruct (map_get agentId _); [| exact Hflag].
        apply (monitorAgent_keeps (fun sw' => emergencyShutdownActive (monitor sw') = true)
                 (fun _ => True)); try exact I; try exact Hflag.
        -- intros d sw' Hsw'. exact Hsw'.
        -- intros now' k sw' _ Hsw'. unfold autoPause. cbn [monitor with_monitor].
           rewrite overrideAgent_flag. exact Hsw'.
        -- intros now' reason sw' _. apply beginShutdown_flag.
      * rewrite Hsome. apply monitorAgent_fires. exact Hbreach.
    + apply elem_of_cons in Hin as [Heq | Hin]; [congruence |].
      apply IH; [exact Hin | |].
      * destruct (map_get head _) as [other |]; [| exact Hhere].
        apply (monitorAgent_keeps
                 (fun sw' => emergencyShutdownActive (monitor sw') = true
                             \/ map_get agentId (agents (monitor sw')) = Some agent)
                 (fun k => k <> agentId)); try assumption.
        -- intros d sw' Hsw'. exact Hsw'.
        -- intros now' k sw' Hk Hsw'. unfold autoPause. cbn [monitor with_monitor].
           rewrite overrideAgent_flag, overrideAgent_elsewhere by exact Hk. exact Hsw'.
        -- intros now' reason sw' _. left. apply beginShutdown_flag.
      * destruct (map_get head _) as [other |]; [| exact Hbreach].
        pose proof (monitorAgent_wiring now head other sw) as Hwiring.
        unfold wiring in Hwiring. injection Hwiring as Hconfig _ _.
        rewrite Hconfig. exact Hbreach.
Qed.

Lemma tick_fires now m agentId agent :
  emergencyShutdownActive m = false ->
  map_get agentId (agents m) = Some agent ->
  Exists (fun t => breaches now agent t = true) (autoShutdownTriggers (config m)) ->
  emergencyShutdownActive (tick now m) = true.
Proof.
  intros Hflag Hsome Hbreach. unfold tick. rewrite settle_flag.
  unfold performMonitoringCycle. rewrite Hflag.
  apply (monitorAll_fires now agentId agent).
  - apply map_get_Some in Hsome. exact Hsome.
  - right. exact Hsome.
  - exact Hbreach.
Qed.

(** X27: a breached trigger shuts the system down at the next firing of
    the monitor's timer.  If no shutdown is active and some registered
    agent, as the monitor holds it, breaches some configured trigger, then
    after the firing the shutdown is active, the monitor's timer is
    cleared and every registered agent is STOPPED or PAUSED, whatever the
    other agents and the other triggers are. *)
Theorem shutdown_trigger_fires now m agentId agent :
  emergencyShutdownActive m = false ->
  map_get agentId (agents m) = Some agent ->
  Exists (fun t => breaches now agent t = true) (autoShutdownTriggers (config m)) ->
  emergencyShutdownActive (tick now m) = true
  /\ AgentMonitor.intervalId (tick now m) = None
  /\ allSettled (tick now m).
Proof.
  intros Hflag Hsome Hbreach.
  pose proof (tick_fires now m agentId agent Hflag Hsome Hbreach) as Hraised.
  destruct (tick_settled now m Hflag Hraised) as (Htimer & Hsettled & _).
  split; [exact Hraised |]. split; [exact Htimer | exact Hsettled].
Qed.

Lemma run_scores ops a : scores (PortfolioAgent.run ops a) = scores a.
Proof.
  revert a. induction ops as [| op ops IH]; intros a; [reflexivity |].
  change (PortfolioAgent.run (op :: ops) a)
    with (PortfolioAgent.run ops (PortfolioAgent.perform op a)).
  rewrite IH. apply perform_scores.
Qed.

(** X28: a success-rate trigger with a positive threshold always fires.
    The success rate of an agent is 0 at its construction and no operation
    of the agent changes it; so when the monitor has a trigger on
    [success_rate] with a threshold above 0 and holds an agent, however the
    agent has been run since its construction, the first firing of the
    monitor's timer shuts the system down. *)
Theorem success_rate_trigger_fires now m agentId created cfg portfolio ops trigger :
  emergencyShutdownActive m = false ->
  map_get agentId (agents m)
  = Some (PortfolioAgent.run ops (PortfolioAgent.constructor created cfg portfolio)) ->
  trigger ∈ autoShutdownTriggers (config m) ->
  condition trigger = "success_rate" ->
  0 < threshold trigger ->
  emergencyShutdownActive (tick now m) = true
  /\ AgentMonitor.intervalId (tick now m) = None
  /\ allSettled (tick now m).
Proof.
  intros Hflag Hsome Hin Hcondition Hpositive.
  assert (Hraised : emergencyShutdownActive (tick now m) = true).
  { apply (tick_fires now m agentId _ Hflag Hsome).
    apply Exists_exists. exists trigger. split; [exact Hin |].
    unfold breaches, thresholdBreached, triggerValue. rewrite Hcondition. cbn.
    pose proof (run_scores ops (PortfolioAgent.constructor created cfg portfolio))
      as Hscores.
    unfold scores in Hscores. injection Hscores as _ Hrate _ _. rewrite Hrate.
    apply Qltb_lt. exact Hpositive. }
  destruct (tick_settled now m Hflag Hraised) as (Htimer & Hsettled & _).
  split; [exact Hraised |]. split; [exact Htimer | exact Hsettled].
Qed.

(** *** Reports *)

Lemma sum_successRate_below (c : Q) (l : list AgentStatusEntry) (acc : Q) :
  l <> [] ->
  Forall (fun a => entry_successRate a < c) l ->
  fold_left (fun sum a => sum + entry_successRate a) l acc
  < acc + c * inject_Z (Z.of_nat (length l)).
Proof.
  revert acc. induction l as [| a l IH]; intros acc Hne Hall; [congruence |].
  apply Forall_cons in Hall as [Ha Hall]. cbn [fold_left].
  destruct l as [| b l].
  - cbn [fold_left]. change (inject_Z (Z.of_nat (length [a]))) with 1. lra.
  - specialize (IH (acc + entry_successRate a) ltac:(discriminate) Hall).
    change (length (a :: b :: l)) with (S (length (b :: l))).
    rewrite Nat2Z.inj_succ. unfold Z.succ. rewrite inject_Z_plus.
    change (inject_Z 1) with 1.
    set (n := inject_Z (Z.of_nat (length (b :: l)))) in *.
    set (total := fold_left _ _ _) in *.
    assert (Hexpand : c * (n + 1) == c * n + c) by ring.
    rewrite Hexpand. lra.
Qed.

(** X29: the health that [getSystemStatus] reports is CRITICAL when no
    agent is registered, when some agent is in ERROR, and when every
    agent's success rate is under 0.7; as the success rate of an agent
    stays at the 0 of its construction, it is CRITICAL for every monitor
    whose agents have been run from their construction. *)
Theorem systemHealth_critical (m : Monitor PortfolioAgent.Agent) :
  (agents m = [] -> systemHealth (getSystemStatus m) = UNHEALTHY)
  /\ (Exists (fun entry => status (PortfolioAgent.state (snd entry)) = ERROR) (agents m) ->
      systemHealth (getSystemStatus m) = UNHEALTHY)
  /\ (Forall (fun entry => successRate (PortfolioAgent.state (snd entry)) < 0.7)
             (agents m) ->
      systemHealth (getSystemStatus m) = UNHEALTHY)
  /\ (Forall (fun entry =>
                exists created cfg portfolio ops,
                  snd entry
                  = PortfolioAgent.run ops
                      (PortfolioAgent.constructor created cfg portfolio))
             (agents m) ->
      systemHealth (getSystemStatus m) = UNHEALTHY).
Proof.
  assert (Hlow : Forall (fun entry => successRate (PortfolioAgent.state (snd entry)) < 0.7)
                        (agents m) ->
                 systemHealth (getSystemStatus m) = UNHEALTHY).
  { intros Hall. unfold getSystemStatus. cbn [systemHealth].
    unfold calculateSystemHealth. case_bool_decide as Hlen; [reflexivity |].
    cbv zeta.
    match goal with
    | |- (if ?errors || Qltb ?avg 0.7 then _ else _) = _ =>
        assert (Havg : Qltb avg 0.7 = true); [| rewrite Havg, orb_true_r; reflexivity]
    end.
    apply Qltb_lt.
    match goal with
    | |- fold_left _ ?statuses 0 / _ < _ =>
        assert (Hne : statuses <> []) by (intros Hnil; apply Hlen; rewrite Hnil; reflexivity);
        assert (Hrates : Forall (fun a => entry_successRate a < 0.7) statuses)
    end.
    { apply Forall_map. cbn [entry_successRate]. exact Hall. }
    pose proof (sum_successRate_below 0.7 _ 0 Hne Hrates) as Hsum.
    apply Qlt_shift_div_r.
    - change 0 with (inject_Z 0). rewrite <- Zlt_Qlt.
      match goal with |- (0 < Z.of_nat (length ?l))%Z => destruct l; [congruence | cbn; lia] end.
    - lra. }
  split.
  - intros Hnone. unfold getSystemStatus. rewrite Hnone. reflexivity.
  - split; [| split; [exact Hlow |]].
    + intros Herror. unfold getSystemStatus. cbn [systemHealth].
      unfold calculateSystemHealth. case_bool_decide as Hlen; [reflexivity |].
      cbv zeta.
      match goal with
      | |- (if (0 <? length ?errors)%nat || _ then _ else _) = _ =>
          assert (Hsome : (0 <? length errors)%nat = true); [| rewrite Hsome; reflexivity]
      end.
      apply Nat.ltb_lt.
      apply Exists_exists in Herror as (entry & Hin & Hstatus).
      match goal with
      | |- (0 < length (filter ?P (map ?f ?l)))%nat =>
          assert (Hmember : f entry ∈ filter P (map f l))
      end.
      { apply list_elem_of_filter. split; [exact Hstatus |].
        apply list_elem_of_fmap. exists entry. split; [reflexivity | exact Hin]. }
      destruct (filter _ _); [inversion Hmember | cbn; lia].
    + intros Hbuilt. apply Hlow. eapply Forall_impl; [exact Hbuilt |].
      intros entry (created & cfg & portfolio & ops & ->). cbn beta.
      pose proof (run_scores ops (PortfolioAgent.constructor created cfg portfolio))
        as Hscores.
      unfold scores in Hscores. injection Hscores as _ Hrate _ _. rewrite Hrate.
      cbn. lra.
Qed.

Lemma calculateRiskDistribution_from decisions start :
  let step := fun distribution d =>
       match priority (recommendation d) with
       | LOW =>
           {| n_LOW := S (n_LOW distribution); n_MEDIUM := n_MEDIUM distribution;
              n_HIGH := n_HIGH distribution; n_CRITICAL := n_CRITICAL distribution |}
       | MEDIUM =>
           {| n_LOW := n_LOW distribution; n_MEDIUM := S (n_MEDIUM distribution);
              n_HIGH := n_HIGH distribution; n_CRITICAL := n_CRITICAL distribution |}
       | HIGH =>
           {| n_LOW := n_LOW distribution; n_MEDIUM := n_MEDIUM distribution;
              n_HIGH := S (n_HIGH distribution); n_CRITICAL := n_CRITICAL distribution |}
       | CRITICAL =>
           {| n_LOW := n_LOW distribution; n_MEDIUM := n_MEDIUM distribution;
              n_HIGH := n_HIGH distribution; n_CRITICAL := S (n_CRITICAL distribution) |}
       end in
  let final := fold_left step decisions start in
  n_LOW final = (n_LOW start + prioritised LOW decisions)%nat
  /\ n_MEDIUM final = (n_MEDIUM start + prioritised MEDIUM decisions)%nat
  /\ n_HIGH final = (n_HIGH start + prioritised HIGH decisions)%nat
  /\ n_CRITICAL final = (n_CRITICAL start + prioritised CRITICAL decisions)%nat.
Proof.
  cbv zeta. revert start. induction decisions as [| d decisions IH]; intros start.
  - unfold prioritised. cbn. lia.
  - cbn [fold_left]. unfold prioritised in *. rewrite !filter_cons.
    destruct (priority (recommendation d)) eqn:Hp;
      match goal with
      | |- context [fold_left _ decisions ?next] => destruct (IH next) as (Hl & Hm & Hh & Hc)
      end;
      rewrite Hl, Hm, Hh, Hc; cbn [n_LOW n_MEDIUM n_HIGH n_CRITICAL];
      repeat (destruct (decide _) as [? | ?]; try congruence);
      cbn [length]; lia.
Qed.

(** X30: the risk metrics of [getAgentPerformance].  With no COMPLETED
    decision they are zeros and the empty distribution.  Otherwise the
    total is the number of COMPLETED decisions, each counter of the
    distribution is the number of COMPLETED decisions of that priority,
    and the four counters add up to the total. *)
Theorem calculateAgentRiskMetrics_counts decisions :
  let completed := filter (fun d => decision_status d = COMPLETED) decisions in
  let metrics := calculateAgentRiskMetrics decisions in
  (completed = [] ->
   metrics = {| metrics_totalDecisions := 0; averageConfidence := 0;
                riskDistribution := None; averageExecutionTime := 0 |})
  /\ (completed <> [] ->
      metrics_totalDecisions metrics = length completed
      /\ exists distribution,
           riskDistribution metrics = Some distribution
           /\ n_LOW distribution = prioritised LOW completed
           /\ n_MEDIUM distribution = prioritised MEDIUM completed
           /\ n_HIGH distribution = prioritised HIGH completed
           /\ n_CRITICAL distribution = prioritised CRITICAL completed
           /\ (n_LOW distribution + n_MEDIUM distribution + n_HIGH distribution
               + n_CRITICAL distribution)%nat
              = metrics_totalDecisions metrics).
Proof.
  intros completed metrics. unfold metrics, calculateAgentRiskMetrics. cbv zeta.
  fold completed. split.
  - intros ->. reflexivity.
  - intros Hne. case_bool_decide as Hlen; [destruct completed; [congruence | discriminate] |].
    cbn [metrics_totalDecisions riskDistribution]. split; [reflexivity |].
    eexists. split; [reflexivity |].
    destruct (calculateRiskDistribution_from completed
                {| n_LOW := 0; n_MEDIUM := 0; n_HIGH := 0; n_CRITICAL := 0 |})
      as (Hl & Hm & Hh & Hc).
    cbn [n_LOW n_MEDIUM n_HIGH n_CRITICAL] in Hl, Hm, Hh, Hc.
    unfold calculateRiskDistribution.
    split; [exact Hl |]. split; [exact Hm |]. split; [exact Hh |]. split; [exact Hc |].
    rewrite Hl, Hm, Hh, Hc. unfold prioritised. clear.
    induction completed as [| d l IH]; [reflexivity |].
    rewrite !filter_cons. destruct (priority (recommendation d));
      repeat (destruct (decide _) as [? | ?]; try congruence);
      cbn [length]; lia.
Qed.

End SupervisorFacts.

(** ** The properties at sample inputs *)

Section PolicyExamples.
Import PortfolioAgent Measure.
#[local] Existing Instance Sample.utc.

(** Under FULL_AUTO a CRITICAL recommendation is executed and COMPLETED;
    a routine one is returned as built. *)
Lemma auto_execution_policy_witness :
  autonomyLevel (config Scenario.fresh) = FULL_AUTO
  /\ simulationMode (executionSettings (config Scenario.fresh)) = false
  /\ decision_status
       (snd (executeDecision (Sample.inputs Sample.monday_10h) (Sample.recommend 2)
               Scenario.fresh))
     = COMPLETED
  /\ snd (executeDecision (Sample.inputs Sample.monday_10h) Scenario.routine
            Scenario.fresh)
     = draft (Sample.inputs Sample.monday_10h) Scenario.routine Scenario.fresh.
Proof.
  split; [reflexivity |]. split; [reflexivity |]. split.
  - destruct (proj1 (auto_execution_policy (Sample.inputs Sample.monday_10h)
                       (Sample.recommend 2) Scenario.fresh eq_refl eq_refl)
                (or_introl eq_refl)) as [_ Hstatus].
    rewrite Hstatus. vm_compute. reflexivity.
  - apply (proj2 (auto_execution_policy (Sample.inputs Sample.monday_10h)
                    Scenario.routine Scenario.fresh eq_refl eq_refl)).
    intros [Hcritical | [[Hhedge _] | [Hhigh _]]]; discriminate.
Defined.

(** In simulation mode a cycle records the advised sale and the emergency
    hedge, both PENDING. *)
Lemma simulation_mode_never_executes_witness :
  simulationMode (executionSettings (config Scenario.rehearsing)) = true
  /\ length
       (decisionHistory
          (@executionCycle Scenario.advisor
             (Scenario.cycle (inl Sample.calm) Sample.monday_14h) Scenario.rehearsing))
     = 2%nat
  /\ (forall d, shouldAutoExecute (config Scenario.rehearsing) d = false)
  /\ exists l,
       decisionHistory
         (@executionCycle Scenario.advisor
            (Scenario.cycle (inl Sample.calm) Sample.monday_14h) Scenario.rehearsing)
       = decisionHistory Scenario.rehearsing ++ l
       /\ Forall (fun d => decision_status d = PENDING /\ executionDetails d = None) l.
Proof.
  split; [reflexivity |]. split; [vm_compute; reflexivity |].
  apply (@simulation_mode_never_executes Scenario.advisor
           (Scenario.cycle (inl Sample.calm) Sample.monday_14h) Scenario.rehearsing
           eq_refl).
Defined.

Lemma start_twice_leaks_timer_witness :
  enabled (config Scenario.fresh) = true
  /\ status (state (stop 3 (start 2 (start 1 Scenario.fresh)))) = STOPPED
  /\ intervalId (stop 3 (start 2 (start 1 Scenario.fresh))) = None
  /\ intervals (stop 3 (start 2 (start 1 Scenario.fresh)))
     = (fresh_handle (intervals Scenario.fresh), 60000%Z) :: intervals Scenario.fresh.
Proof.
  split; [reflexivity |].
  apply (start_twice_leaks_timer 1 2 3 Scenario.fresh eq_refl).
Defined.

(** In a market of HIGH volatility the candidates of a cycle are passed
    over. *)
Lemma gate_closed_witness :
  volatility (marketSentiment Scenario.stormy) = V_HIGH
  /\ (forall now r,
        meetsExecutionCriteria now r Scenario.stormy (Sample.busy 10 100) = false)
  /\ decideAll (Scenario.cycle (inl Scenario.stormy) Sample.monday_14h)
       Scenario.stormy 0 [Sample.recommend 1; Sample.recommend 2] (Sample.busy 10 100)
     = Sample.busy 10 100.
Proof.
  split; [reflexivity |].
  apply (gate_closed (Scenario.cycle (inl Scenario.stormy) Sample.monday_14h)
           Scenario.stormy 0 [Sample.recommend 1; Sample.recommend 2]
           (Sample.busy 10 100) (or_introl eq_refl)).
Defined.

(** With a value at risk of 600000 over a limit of 500000, the risk check
    of a FULL_AUTO agent records an emergency hedge. *)
Lemma emergency_hedging_witness :
  maxDailyVaR (riskLimits (config Scenario.fresh))
  < valueAtRisk
      (@analyzePortfolio Scenario.advisor (currentPortfolio (state Scenario.fresh)))
  /\ exists d,
       decisionHistory
         (@checkRiskLimits Scenario.advisor Sample.monday_14h
            (Sample.inputs Sample.monday_14h) Scenario.fresh)
       = decisionHistory Scenario.fresh ++ [d]
       /\ decisionType d = EMERGENCY_HEDGE
       /\ priority (recommendation d) = CRITICAL
       /\ confidence d == 1
       /\ decision_status d = COMPLETED
       /\ tradesOf d = []
       /\ totalCost <$> executionDetails d = Some 0.
Proof.
  assert (Hover : maxDailyVaR (riskLimits (config Scenario.fresh))
                  < valueAtRisk
                      (@analyzePortfolio Scenario.advisor
                         (currentPortfolio (state Scenario.fresh))))
    by reflexivity.
  split; [exact Hover |].
  exact (proj2 (@emergency_hedging Scenario.advisor Sample.monday_14h
                  (Sample.inputs Sample.monday_14h) Scenario.fresh)
           Hover eq_refl eq_refl).
Defined.

(** The 101st alert cuts the log to 50. *)
Lemma alert_log_bounded_witness :
  length (alerts (state Scenario.flooded)) = 100%nat
  /\ length
       (alerts (state (addAlert 9 LOW SYSTEM_ERROR "Portfolio Agent paused"
                         Scenario.flooded)))
     = 50%nat.
Proof.
  split; [reflexivity |].
  rewrite (proj1 (proj2 alert_log_bounded) 9%Z LOW SYSTEM_ERROR
             "Portfolio Agent paused" Scenario.flooded eq_refl).
  reflexivity.
Defined.

End PolicyExamples.

Section ExecutorExamples.
Import TradeExecutor.

Lemma impact_and_slippage_bounds_witness :
  0 < marketValue (asset (Sample.market_order Sample.large_stock 10))
  /\ unit_interval 0.5
  /\ 0 <= slippageTolerance (Sample.market_order Sample.large_stock 10)
  /\ calculateMarketImpact (Sample.market_order Sample.large_stock 10) <= 0.05
  /\ 0 <= calculateSlippage 0.5 (Sample.market_order Sample.large_stock 10)
  /\ calculateSlippage 0.5 (Sample.market_order Sample.large_stock 10)
     <= slippageTolerance (Sample.market_order Sample.large_stock 10).
Proof.
  assert (Hvalue : 0 < marketValue (asset (Sample.market_order Sample.large_stock 10)))
    by reflexivity.
  assert (Hdraw : unit_interval 0.5) by (split; vm_compute; congruence).
  assert (Htolerance : 0 <= slippageTolerance (Sample.market_order Sample.large_stock 10))
    by (vm_compute; congruence).
  split; [exact Hvalue |]. split; [exact Hdraw |]. split; [exact Htolerance |].
  pose proof (impact_and_slippage_bounds 0.5
                (Sample.market_order Sample.large_stock 10) Hvalue Hdraw Htolerance)
    as (_ & Hcap & _ & Hfloor & Hwithin & _).
  split; [exact Hcap |]. split; [exact Hfloor | exact Hwithin].
Defined.

(** A market BUY of 10 units at 100 executes between 99.99995 and
    106.00005. *)
Lemma market_order_price_bounds_witness :
  executionSuccess (Sample.succeeding_draws 0.5) = true
  /\ orderType (Sample.market_order Sample.large_stock 10) <> LIMIT
  /\ currentPrice Sample.large_stock - 0.00005
     < trade_price
         (simulateTradeExecution (Sample.succeeding_draws 0.5) 0
            (Sample.market_order Sample.large_stock 10) "trade-0")
  /\ trade_price
       (simulateTradeExecution (Sample.succeeding_draws 0.5) 0
          (Sample.market_order Sample.large_stock 10) "trade-0")
     <= currentPrice Sample.large_stock * (1.05 + 0.01) + 0.00005.
Proof.
  assert (Hmarket : orderType (Sample.market_order Sample.large_stock 10) <> LIMIT)
    by discriminate.
  split; [reflexivity |]. split; [exact Hmarket |].
  apply (market_order_price_bounds (Sample.succeeding_draws 0.5) 0
           (Sample.market_order Sample.large_stock 10) "trade-0"
           eq_refl).
  - split; vm_compute; congruence.
  - exact Hmarket.
  - vm_compute; congruence.
  - vm_compute; congruence.
  - vm_compute; congruence.
  - reflexivity.
Defined.

End ExecutorExamples.

Section SupervisorExamples.
Import AgentMonitor Supervisor Measure.
#[local] Existing Instance Sample.utc.

(** Two FAILED decisions after a PENDING one count as 2. *)
Lemma countConsecutiveFailures_suffix_witness :
  countConsecutiveFailures
    ([Scenario.outcome FAILED; Scenario.outcome COMPLETED]
     ++ Scenario.outcome PENDING :: [Scenario.outcome FAILED; Scenario.outcome FAILED])
  = 2%nat.
Proof.
  apply (proj1 (countConsecutiveFailures_suffix
                  [Scenario.outcome FAILED; Scenario.outcome COMPLETED]
                  (Scenario.outcome PENDING)
                  [Scenario.outcome FAILED; Scenario.outcome FAILED]
                  ltac:(repeat constructor) ltac:(discriminate))).
Defined.

(** STOP on a known agent, and PAUSE on an unknown one. *)
Lemma overrideAgent_outcome_witness :
  overrideAgent 9 "agent-3" PAUSE Sample.monitor = (Sample.monitor, false)
  /\ snd (overrideAgent 9 "agent-2" STOP Sample.monitor) = true
  /\ (PortfolioAgent.state
        <$> map_get "agent-2" (agents (fst (overrideAgent 9 "agent-2" STOP Sample.monitor))))
     ≫= (fun st => Some (status st))
     = Some STOPPED.
Proof.
  split.
  - apply (proj1 (overrideAgent_outcome 9 "agent-3" PAUSE Sample.monitor)).
    reflexivity.
  - destruct (proj2 (overrideAgent_outcome 9 "agent-2" STOP Sample.monitor)
                (PortfolioAgent.start 2
                   (PortfolioAgent.constructor 0
                      (Sample.named "agent-2" (Sample.configuration true SEMI_AUTO 10 100))
                      Sample.portfolio))
                eq_refl) as (Hdone & Hstopped & _).
    split; [exact Hdone |]. rewrite Hstopped. reflexivity.
Defined.

(** With a limit of 3 consecutive failures, an agent whose last three
    decisions FAILED is paused by the sweep. *)
Lemma auto_pause_witness :
  map_get "agent-1"
    (agents (Scenario.watch Sample.monitoring Scenario.failed_thrice))
  = Some Scenario.failed_thrice
  /\ map_get "agent-1"
       (agents
          (monitor
             (checkPerformanceAlerts Sample.monday_14h "agent-1"
                (PortfolioAgent.state Scenario.failed_thrice)
                (PortfolioAgent.getDecisionHistory Scenario.failed_thrice)
                (Scenario.sweep
                   (Scenario.watch Sample.monitoring Scenario.failed_thrice)))))
     = Some (PortfolioAgent.pause Sample.monday_14h Scenario.failed_thrice).
Proof.
  assert (Hregistered :
            map_get "agent-1"
              (agents (monitor
                         (Scenario.sweep
                            (Scenario.watch Sample.monitoring Scenario.failed_thrice))))
            = Some Scenario.failed_thrice)
    by (vm_compute; reflexivity).
  split; [exact Hregistered |].
  pose proof (auto_pause Sample.monday_14h "agent-1" Scenario.failed_thrice
                (Scenario.sweep (Scenario.watch Sample.monitoring Scenario.failed_thrice))
                Hregistered) as Hpause.
  cbv zeta in Hpause. apply (proj1 Hpause). vm_compute. congruence.
Defined.

(** The second of two triggers is the first that is breached. *)
Lemma checkShutdownTriggers_first_witness :
  breaches Sample.monday_14h Scenario.running (Scenario.loss_trigger 1000) = false
  /\ breaches Sample.monday_14h Scenario.running (Scenario.rate_trigger 0.5) = true
  /\ emergencyShutdownActive
       (monitor
          (checkShutdownTriggers Sample.monday_14h
             (PortfolioAgent.state Scenario.running)
             (PortfolioAgent.getDecisionHistory Scenario.running)
             ([Scenario.loss_trigger 1000] ++ Scenario.rate_trigger 0.5 :: [])
             (Scenario.sweep (Scenario.watch Sample.monitoring Scenario.running))))
     = true.
Proof.
  split; [reflexivity |]. split; [reflexivity |].
  pose proof (proj2 (checkShutdownTriggers_first Sample.monday_14h Scenario.running
                       (Scenario.sweep (Scenario.watch Sample.monitoring Scenario.running)))
                [Scenario.loss_trigger 1000] (Scenario.rate_trigger 0.5) []
                ltac:(repeat constructor) eq_refl) as Hfirst.
  cbv zeta in Hfirst. destruct Hfirst as (_ & _ & Hraise).
  apply (Hraise eq_refl).
Defined.

(** A sweep over an agent that lost 2995 on the day, with a limit of 500. *)
Lemma tick_shutdown_witness :
  emergencyShutdownActive
    (Scenario.watch (Scenario.guarded [Scenario.loss_trigger 500]) (Sample.busy 10 100))
  = false
  /\ emergencyShutdownActive
       (tick Sample.monday_14h
          (Scenario.watch (Scenario.guarded [Scenario.loss_trigger 500])
             (Sample.busy 10 100)))
     = true
  /\ AgentMonitor.intervalId
       (tick Sample.monday_14h
          (Scenario.watch (Scenario.guarded [Scenario.loss_trigger 500])
             (Sample.busy 10 100)))
     = None
  /\ allSettled
       (tick Sample.monday_14h
          (Scenario.watch (Scenario.guarded [Scenario.loss_trigger 500])
             (Sample.busy 10 100))).
Proof.
  assert (Hbefore :
            emergencyShutdownActive
              (Scenario.watch (Scenario.guarded [Scenario.loss_trigger 500])
                 (Sample.busy 10 100))
            = false)
    by (vm_compute; reflexivity).
  assert (Hafter :
            emergencyShutdownActive
              (tick Sample.monday_14h
                 (Scenario.watch (Scenario.guarded [Scenario.loss_trigger 500])
                    (Sample.busy 10 100)))
            = true)
    by (vm_compute; reflexivity).
  split; [exact Hbefore |]. split; [exact Hafter |].
  pose proof (proj1 (proj2 (tick_shutdown Sample.monday_14h
                              (Scenario.watch
                                 (Scenario.guarded [Scenario.loss_trigger 500])
                                 (Sample.busy 10 100)))
                       Hbefore)
                Hafter) as (Htimer & Hsettled & _).
  split; [exact Htimer | exact Hsettled].
Defined.

Lemma shutdown_trigger_fires_witness :
  map_get "agent-1"
    (agents (Scenario.watch (Scenario.guarded [Scenario.loss_trigger 500])
               (Sample.busy 10 100)))
  = Some (Sample.busy 10 100)
  /\ breaches Sample.monday_14h (Sample.busy 10 100) (Scenario.loss_trigger 500) = true
  /\ emergencyShutdownActive
       (tick Sample.monday_14h
          (Scenario.watch (Scenario.guarded [Scenario.loss_trigger 500])
             (Sample.busy 10 100)))
     = true.
Proof.
  split; [reflexivity |]. split; [vm_compute; reflexivity |].
  apply (shutdown_trigger_fires Sample.monday_14h
           (Scenario.watch (Scenario.guarded [Scenario.loss_trigger 500])
              (Sample.busy 10 100))
           "agent-1" (Sample.busy 10 100) eq_refl eq_refl).
  apply Exists_cons_hd. vm_compute. reflexivity.
Defined.

(** A trigger on a success rate under 50% stops an agent that has only
    been started. *)
Lemma success_rate_trigger_fires_witness :
  condition (Scenario.rate_trigger 0.5) = "success_rate"
  /\ 0 < threshold (Scenario.rate_trigger 0.5)
  /\ emergencyShutdownActive
       (tick Sample.monday_14h
          (Scenario.watch (Scenario.guarded [Scenario.rate_trigger 0.5])
             Scenario.running))
     = true
  /\ allSettled
       (tick Sample.monday_14h
          (Scenario.watch (Scenario.guarded [Scenario.rate_trigger 0.5])
             Scenario.running)).
Proof.
  split; [reflexivity |]. split; [reflexivity |].
  destruct (success_rate_trigger_fires Sample.monday_14h
              (Scenario.watch (Scenario.guarded [Scenario.rate_trigger 0.5])
                 Scenario.running)
              "agent-1" 0 (Sample.configuration true FULL_AUTO 10 100) Sample.portfolio
              [PortfolioAgent.Start 1] (Scenario.rate_trigger 0.5)
              eq_refl eq_refl ltac:(apply list_elem_of_here) eq_refl eq_refl)
    as (Hraised & _ & Hsettled).
  split; [exact Hraised | exact Hsettled].
Defined.

(** The sample monitor of two started agents reports CRITICAL. *)
Lemma systemHealth_critical_witness :
  systemHealth (getSystemStatus Sample.monitor) = UNHEALTHY.
Proof.
  apply (proj1 (proj2 (proj2 (systemHealth_critical Sample.monitor)))).
  repeat constructor.
Defined.

(** The agent that completed one CRITICAL decision. *)
Lemma calculateAgentRiskMetrics_counts_witness :
  metrics_totalDecisions
    (calculateAgentRiskMetrics (PortfolioAgent.decisionHistory (Sample.busy 10 100)))
  = 1%nat
  /\ (n_CRITICAL
        <$> riskDistribution
              (calculateAgentRiskMetrics
                 (PortfolioAgent.decisionHistory (Sample.busy 10 100))))
     = Some 1%nat.
Proof.
  destruct (proj2 (calculateAgentRiskMetrics_counts
                     (PortfolioAgent.decisionHistory (Sample.busy 10 100))))
    as (Htotal & distribution & Hsome & _ & _ & _ & Hcritical & _).
  - vm_compute. discriminate.
  - split; [rewrite Htotal; reflexivity |].
    rewrite Hsome. cbn [fmap option_fmap option_map]. rewrite Hcritical. reflexivity.
Defined.

End SupervisorExamples.
